(** * Testflow: the step-interpretation and execution pipeline

    A shallow embedding of the Python sources
      - [backend/server.py]                      ([execute_test_background]),
      - [testflow/ai_interpreter.py]             ([AIInterpreter]),
      - [testflow/services/validation_service.py] ([ValidationService]),
      - [testflow/playwright_app/handler.py]     ([PlaywrightHandler]),
    followed by the properties of the pipeline.

    Conventions of the embedding.
      - A Python [str] is a [string]; its characters are 8-bit code points
        and case folding acts on the letters A-Z.
      - A Python value whose type is not fixed by the code (a JSON value, a
        [params] entry, a result field) is a [pyval]; a [dict] with string
        keys is a [gmap string pyval].
      - A Python exception is a value of [exn]; code that can raise returns
        a [res].
      - Calls that leave the repository (the browser driver, the language
        model, the HTML parser of the standard library, the clock) are
        answered by an explicit world, so that every statement quantifies
        over all their possible answers. *)

From Stdlib Require Import ZArith QArith Ascii String List Bool Lia.
From stdpp Require Import base option list strings gmap.

Open Scope string_scope.
Open Scope list_scope.
Open Scope nat_scope.
Set Warnings "-register-all".
Set Default Proof Using "Type".

(* ===================================================================== *)
(** ** Python values and exceptions *)
(* ===================================================================== *)

Inductive pyval : Type :=
| VNone
| VBool (b : bool)
| VInt (z : Z)
| VFloat (q : Q)
| VStr (s : string)
| VList (l : list pyval)
| VDict (d : gmap string pyval).

Abbreviation dict := (gmap string pyval).

Inductive exn : Type :=
| AttributeError (msg : string)
| TypeError (msg : string)
| TimeoutError (msg : string)      (* playwright's TimeoutError *)
| Exception (msg : string).

(** [str(e)] *)
Definition exn_str (e : exn) : string :=
  match e with
  | AttributeError m | TypeError m | TimeoutError m | Exception m => m
  end.

Inductive res (A : Type) : Type :=
| Ok (a : A)
| Raise (e : exn).
Arguments Ok {A} a.
Arguments Raise {A} e.

Module Py.

(** Truth value of an object ([bool(x)], as used by [if x], [not x],
    [x or y]). *)
Definition truthy (v : pyval) : bool :=
  match v with
  | VNone => false
  | VBool b => b
  | VInt z => negb (z =? 0)%Z
  | VFloat q => negb (Qeq_bool q 0)
  | VStr s => negb (String.eqb s "")
  | VList l => match l with [] => false | _ => true end
  | VDict d => negb (size d =? 0)
  end.

Definition str_truthy (s : string) : bool := negb (String.eqb s "").

(** [d.get(k)] and [d.get(k, default)]. *)
Definition get (d : dict) (k : string) : pyval := default VNone (d !! k).
Definition get_or (d : dict) (k : string) (dflt : pyval) : pyval :=
  default dflt (d !! k).

(** [x == "..."] for an arbitrary value [x] *)
Definition eq_str (v : pyval) (s : string) : bool :=
  match v with VStr s' => String.eqb s' s | _ => false end.

(** [x or y] on objects. *)
Definition or_ (x y : pyval) : pyval := if truthy x then x else y.

(** [str.isspace] on one character, read as the code point of the same
    number: TAB..CR, FS..US, the blank, NEL (U+0085) and the no-break
    space (U+00A0). *)
Definition isspace (c : ascii) : bool :=
  let n := nat_of_ascii c in
  ((9 <=? n) && (n <=? 13)) || ((28 <=? n) && (n <=? 32))
  || (n =? 133) || (n =? 160).

(** [str.lower] on one character: A..Z, and the capital letters U+00C0
    to U+00DE, without the multiplication sign U+00D7. *)
Definition lower_char (c : ascii) : ascii :=
  let n := nat_of_ascii c in
  if ((65 <=? n) && (n <=? 90))
     || ((192 <=? n) && (n <=? 222) && negb (n =? 215))
  then ascii_of_nat (n + 32) else c.

(** [s.lower()] *)
Fixpoint lower (s : string) : string :=
  match s with
  | EmptyString => EmptyString
  | String c s' => String (lower_char c) (lower s')
  end.

(** [s.lstrip()], [s.rstrip()], [s.strip()] *)
Fixpoint lstrip (s : string) : string :=
  match s with
  | EmptyString => EmptyString
  | String c s' => if isspace c then lstrip s' else s
  end.

Fixpoint rstrip (s : string) : string :=
  match s with
  | EmptyString => EmptyString
  | String c s' =>
      match rstrip s' with
      | EmptyString => if isspace c then EmptyString else String c EmptyString
      | r => String c r
      end
  end.

Definition strip (s : string) : string := rstrip (lstrip s).

(** [s.rstrip(ch)] for a one-character argument *)
Fixpoint rstrip_char (ch : ascii) (s : string) : string :=
  match s with
  | EmptyString => EmptyString
  | String c s' =>
      match rstrip_char ch s' with
      | EmptyString => if Ascii.eqb c ch then EmptyString else String c EmptyString
      | r => String c r
      end
  end.

(** [s.startswith(p)] *)
Definition startswith (p s : string) : bool := String.prefix p s.

(** [needle in hay] *)
Fixpoint contains (needle hay : string) : bool :=
  String.prefix needle hay ||
  match hay with
  | EmptyString => false
  | String _ hay' => contains needle hay'
  end.

(** [s[:n]] *)
Fixpoint take (n : nat) (s : string) : string :=
  match n, s with
  | S n', String c s' => String c (take n' s')
  | _, _ => EmptyString
  end.

Fixpoint drop (n : nat) (s : string) : string :=
  match n, s with
  | S n', String _ s' => drop n' s'
  | _, _ => s
  end.

(** [sep.join(parts)] *)
Fixpoint join (sep : string) (parts : list string) : string :=
  match parts with
  | [] => ""
  | [p] => p
  | p :: rest => p +:+ sep +:+ join sep rest
  end.

(** [s.replace(old, new)] for a non-empty [old]: the occurrences are
    replaced from left to right, without overlap.  The fuel is the number
    of characters still to be visited. *)
Fixpoint replace_fuel (fuel : nat) (old new s : string) : string :=
  match fuel with
  | O => s
  | S fuel' =>
      match s with
      | EmptyString => EmptyString
      | String c s' =>
          if String.prefix old s
          then new +:+ replace_fuel fuel' old new (drop (String.length old) s)
          else String c (replace_fuel fuel' old new s')
      end
  end.

Definition replace (old new s : string) : string :=
  replace_fuel (String.length s) old new s.

(** Every character of [s] is in the class [cls]. *)
Fixpoint all_in (cls : ascii -> bool) (s : string) : bool :=
  match s with
  | EmptyString => true
  | String a s' => cls a && all_in cls s'
  end.

(** [len(x)] *)
Definition len (v : pyval) : res nat :=
  match v with
  | VStr s => Ok (String.length s)
  | VList l => Ok (length l)
  | VDict d => Ok (size d)
  | _ => Raise (TypeError "object has no len()")
  end.

End Py.

(* ===================================================================== *)
(** ** The regular expressions of the sources *)
(* ===================================================================== *)

(** The patterns used by the interpreters are sequences of character
    classes, each taken once, optionally ([?]) or one or more times ([+]).
    [match_at] is the backtracking matcher of [re] on such sequences:
    quantifiers are greedy and give characters back when the rest of the
    pattern fails. *)
Module Re.

Inductive item : Type :=
| One (cls : ascii -> bool)
| Opt (cls : ascii -> bool)
| Plus (cls : ascii -> bool).

Definition chr (c : ascii) : ascii -> bool := Ascii.eqb c.
Definition lit (s : string) : list item := map (fun c => One (chr c)) (list_ascii_of_string s).

(** The text matched by pattern [p] at the start of [s], if any. *)
Fixpoint match_at (p : list item) (s : string) : option string :=
  match p with
  | [] => Some EmptyString
  | One cls :: p' =>
      match s with
      | String a s' => if cls a then String a <$> match_at p' s' else None
      | EmptyString => None
      end
  | Opt cls :: p' =>
      match s with
      | String a s' =>
          if cls a then
            match match_at p' s' with
            | Some r => Some (String a r)
            | None => match_at p' s
            end
          else match_at p' s
      | EmptyString => match_at p' s
      end
  | Plus cls :: p' =>
      (fix plus (s : string) : option string :=
         match s with
         | String a s' =>
             if cls a then
               match plus s' with
               | Some r => Some (String a r)
               | None => String a <$> match_at p' s'
               end
             else None
         | EmptyString => None
         end) s
  end.

(** [re.match(p, s)]: the match is anchored at the start. *)
Definition match_ (p : list item) (s : string) : option string := match_at p s.

(** [re.search(p, s)]: the leftmost match. *)
Fixpoint search (p : list item) (s : string) : option string :=
  match match_at p s with
  | Some r => Some r
  | None =>
      match s with
      | String _ s' => search p s'
      | EmptyString => None
      end
  end.

(** Character classes. *)
Definition is_alnum_us_dash (c : ascii) : bool :=   (* [a-zA-Z0-9_-] *)
  let n := nat_of_ascii c in
  ((97 <=? n) && (n <=? 122)) || ((65 <=? n) && (n <=? 90)) ||
  ((48 <=? n) && (n <=? 57)) || (n =? 95) || (n =? 45).

Definition dquote : ascii := ascii_of_nat 34.
Definition squote : ascii := ascii_of_nat 39.
Definition backtick : ascii := ascii_of_nat 96.

(* any character but white space, angle brackets and the double quote *)
Definition not_space_angle_quote (c : ascii) : bool :=
  negb (Py.isspace c || Ascii.eqb c "<" || Ascii.eqb c ">" || Ascii.eqb c dquote).

Definition not_slash (c : ascii) : bool := negb (Ascii.eqb c "/").   (* [^/] *)

(* one of the three quoting characters: backtick, double and single quote *)
Definition is_quote (c : ascii) : bool :=
  Ascii.eqb c backtick || Ascii.eqb c dquote || Ascii.eqb c squote.

Definition not_quote (c : ascii) : bool := negb (is_quote c).

(** [https?://] followed by one or more characters that are neither
    white space nor an angle bracket nor a double quote *)
Definition url_pattern : list item :=
  lit "http" ++ [Opt (chr "s")] ++ lit "://" ++ [Plus not_space_angle_quote].

(** [/[a-zA-Z0-9_-]+] *)
Definition path_pattern : list item :=
  lit "/" ++ [Plus is_alnum_us_dash].

(** [(https?://[^/]+)]; the group is the whole match. *)
Definition base_pattern : list item :=
  lit "http" ++ [Opt (chr "s")] ++ lit "://" ++ [Plus not_slash].

(** a quoting character, one or more characters that are not quoting
    characters (group 1), a quoting character *)
Definition quoted_pattern : list item :=
  [One is_quote; Plus not_quote; One is_quote].

(** Group 1 of a match of [quoted_pattern]: the match without its two
    delimiters. *)
Definition quoted_group (m : string) : string :=
  Py.take (String.length m - 2) (Py.drop 1 m).

End Re.


(* ===================================================================== *)
(** ** [html.parser] as seen by the [HTMLStripper] classes *)
(* ===================================================================== *)

(** [HTMLParser.feed] belongs to the standard library.  What the
    repository's subclasses observe of it is the sequence of handler calls
    it makes ([handle_data], [handle_starttag]; the other handlers are not
    overridden) and whether the call ends by raising. *)
Module Html.

Inductive event : Type :=
| Data (data : string)
| StartTag (tag : string) (attrs : list (string * option string)).

Record fed : Type := { events : list event; raised : bool }.

(** The [HTMLStripper] of [backend/server.py]: it collects the text and
    the [href] values of the [a] tags. *)
Record HTMLStripper : Type := { text : list string; links : list (option string) }.

Definition new : HTMLStripper := {| text := []; links := [] |}.

Definition handle_data (self : HTMLStripper) (data : string) : HTMLStripper :=
  {| text := text self ++ [data]; links := links self |}.

Definition handle_starttag (self : HTMLStripper) (tag : string)
    (attrs : list (string * option string)) : HTMLStripper :=
  if String.eqb tag "a" then
    fold_left (fun (acc : HTMLStripper) (av : string * option string) =>
                 if String.eqb (fst av) "href"
                 then {| text := text acc; links := links acc ++ [snd av] |}
                 else acc) attrs self
  else self.

Definition dispatch (self : HTMLStripper) (e : event) : HTMLStripper :=
  match e with
  | Data d => handle_data self d
  | StartTag t a => handle_starttag self t a
  end.

Definition run (self : HTMLStripper) (f : fed) : HTMLStripper :=
  fold_left dispatch (events f) self.

End Html.

(* ===================================================================== *)
(** ** Test steps and interpreted actions *)
(* ===================================================================== *)

(** One element of the [steps] list of a test case: a dict with string
    fields, or any other object, which the code only uses through
    [str(step)]. *)
Inductive step : Type :=
| DictStep (d : gmap string string)
| OtherStep (str : string).

Module Action.

Definition navigate (url description expected : string) : dict :=
  {[ "action" := VStr "navigate";
     "params" := VDict {[ "url" := VStr url ]};
     "description" := VStr description;
     "expected" := VStr expected ]}.

Definition click (text description expected : string) : dict :=
  {[ "action" := VStr "click";
     "params" := VDict {[ "text" := VStr text ]};
     "description" := VStr description;
     "expected" := VStr expected ]}.

Definition wait (description expected : string) : dict :=
  {[ "action" := VStr "wait";
     "params" := VDict {[ "timeout" := VInt 1000 ]};
     "description" := VStr description;
     "expected" := VStr expected ]}.

End Action.

(* ===================================================================== *)
(** ** [backend/server.py]: the rule-based interpretation path *)
(* ===================================================================== *)

Module RuleBased.
Section WithParser.

(** [HTMLParser.feed] and [str] applied to a dict. *)
Variable feed : string -> Html.fed.
Variable str_of_dict : gmap string string -> string.

Definition field (d : gmap string string) (k : string) : string := default "" (d !! k).

(** [a or b] on strings *)
Definition str_or (a b : string) : string := if Py.str_truthy a then a else b.

Definition step_text (st : step) : string :=
  match st with
  | DictStep d =>
      str_or (field d "content")
        (str_or (field d "description") (str_or (field d "step") (str_of_dict d)))
  | OtherStep s => s
  end.

Definition expected_result (st : step) : string :=
  match st with
  | DictStep d => str_or (field d "expected") (field d "expected_result")
  | OtherStep _ => ""
  end.

(** The stripper after [stripper.feed(step_text)], whatever its outcome. *)
Definition stripper (st : step) : Html.HTMLStripper :=
  Html.run Html.new (feed (step_text st)).

Definition clean_text (st : step) : string :=
  if Html.raised (feed (step_text st)) then step_text st
  else Py.strip (Py.join " " (Html.text (stripper st))).

Definition opt_truthy (o : option string) : bool :=
  match o with Some s => Py.str_truthy s | None => false end.

Definition is_navigation (clean : string) : bool :=
  Py.contains "navigate" (Py.lower clean) || Py.contains "open" (Py.lower clean)
  || Py.contains "go to" (Py.lower clean).

Definition is_click (clean : string) : bool :=
  Py.contains "click" (Py.lower clean) || Py.contains "select" (Py.lower clean).

(** The value of [url] when the test [if url:] is reached. *)
Definition resolve_url (base_url : option string) (st : step) : option string :=
  match Html.links (stripper st) with
  | l0 :: _ => l0
  | [] =>
      match Re.search Re.url_pattern (step_text st) with
      | Some m => Some m
      | None =>
          match Re.search Re.path_pattern (clean_text st) with
          | Some m =>
              if opt_truthy base_url
              then Some (Py.rstrip_char "/" (default "" base_url) +:+ m)
              else Some m
          | None => None
          end
      end
  end.

(** The update of [base_url] made once a url has been resolved. *)
Definition save_base_url (base_url : option string) (url : string) : option string :=
  if negb (opt_truthy base_url) && Py.startswith "http" url then
    match Re.match_ Re.base_pattern url with
    | Some m => Some m
    | None => base_url
    end
  else base_url.

(** One iteration of the loop over [steps]: the new [base_url] and the
    action that is appended. *)
Definition interpret_one (base_url : option string) (st : step) : option string * dict :=
  let description := Py.take 100 (clean_text st) in
  if is_navigation (clean_text st) then
    let url := resolve_url base_url st in
    if opt_truthy url then
      (save_base_url base_url (default "" url),
       Action.navigate (default "" url) description (expected_result st))
    else (base_url, Action.wait description (expected_result st))
  else if is_click (clean_text st) then
    match Re.search Re.quoted_pattern (clean_text st) with
    | Some m => (base_url, Action.click (Re.quoted_group m) description (expected_result st))
    | None => (base_url, Action.wait description (expected_result st))
    end
  else (base_url, Action.wait description (expected_result st)).

(** The loop, from a given [base_url] and list of actions. *)
Fixpoint loop (base_url : option string) (acc : list dict) (steps : list step)
    : option string * list dict :=
  match steps with
  | [] => (base_url, acc)
  | st :: rest =>
      let '(base_url', a) := interpret_one base_url st in
      loop base_url' (acc ++ [a]) rest
  end.

(** [playwright_actions = []; base_url = None; for ... in enumerate(steps)] *)
Definition interpret (steps : list step) : list dict := snd (loop None [] steps).

Definition base_url_after (steps : list step) : option string := fst (loop None [] steps).

End WithParser.
End RuleBased.

(** The url of an interpreted [navigate] action, when it is a string. *)
Definition navigate_url (a : dict) : option string :=
  if Py.eq_str (Py.get a "action") "navigate" then
    match a !! "params" with
    | Some (VDict params) =>
        match params !! "url" with
        | Some (VStr u) => Some u
        | _ => None
        end
    | _ => None
    end
  else None.

(** The resolution order of the url of a navigation step, in the words of
    the specification: (a) the first hyperlink target, else (b) the first
    absolute url of the raw text, else (c) the first relative path of the
    visible text, prefixed with the base url when one is set.  A tier
    resolves a url when it yields a non-empty string: a first hyperlink
    without target, or with an empty one, resolves none and the next tier
    is tried. *)
Definition first_target (links : list (option string)) : option string :=
  match links with
  | Some target :: _ => if Py.str_truthy target then Some target else None
  | _ => None
  end.

Definition url_by_priority (links : list (option string)) (raw visible : string)
    (base_url : option string) : option string :=
  match first_target links with
  | Some target => Some target
  | None =>
      match Re.search Re.url_pattern raw with
      | Some u => Some u
      | None =>
          match Re.search Re.path_pattern visible with
          | Some p => Some (match base_url with Some b => b +:+ p | None => p end)
          | None => None
          end
      end
  end.

(** A string of the form [http://host] or [https://host], with a
    non-empty [host] that holds no slash. *)
Definition origin (b : string) : Prop :=
  exists scheme host,
    (scheme = "http://" \/ scheme = "https://") /\
    host <> "" /\ Py.all_in Re.not_slash host = true /\ b = scheme +:+ host.

Definition unset_or_origin (b : option string) : Prop :=
  match b with None => True | Some s => origin s end.

(** A base url that is either unset or a non-empty string without a final
    slash. *)
Definition tidy (b : option string) : Prop :=
  match b with
  | None => True
  | Some s => s <> "" /\ Py.rstrip_char "/" s = s
  end.

(* ===================================================================== *)
(** ** [testflow/ai_interpreter.py] *)
(* ===================================================================== *)

Module AIInterpreter.

(** The shared context of one interpretation pass. *)
Record context : Type := { base_url : option string; previous_steps : list dict }.

(** What [interpret_step] puts into its user prompt. *)
Record prompt : Type := {
  p_step_text : string;
  p_expected_result : string;
  p_base_url : string;
  p_previous_actions : list dict
}.

(** A value can be formatted with [:.2f] when it is a number. *)
Definition formats_2f (v : pyval) : bool :=
  match v with
  | VInt _ | VFloat _ | VBool _ => true
  | _ => false
  end.

(** [previous_steps[-3:] if len(previous_steps) > 3 else previous_steps] *)
Definition last3 (l : list dict) : list dict :=
  if 3 <? length l then skipn (length l - 3) l else l.

Definition set_base_url (ctx : context) (b : string) : context :=
  {| base_url := Some b; previous_steps := previous_steps ctx |}.

Definition push_previous (ctx : context) (entry : dict) : context :=
  {| base_url := base_url ctx; previous_steps := previous_steps ctx ++ [entry] |}.

(** The action substituted for a step the model could not interpret. *)
Definition fallback_wait (expected step_text : string) : dict :=
  {[ "action" := VStr "wait";
     "params" := VDict {[ "timeout" := VInt 1000 ]};
     "expected" := VStr expected;
     "original_step" := VStr step_text;
     "confidence" := VFloat 0;
     "reasoning" := VStr "AI interpretation failed, fallback action" ]}.

(** The two rule-based judgments of [validate_expected_result]. *)
Definition substring_passed (expected_result page_content : string) : bool :=
  Py.contains (Py.lower (Py.strip expected_result)) (Py.lower (Py.strip page_content)).

Definition disabled_result (expected_result page_content : string) : dict :=
  let passed := substring_passed expected_result page_content in
  {[ "passed" := VBool passed;
     "confidence" := VFloat (if passed then 0.5 else 0.3);
     "message" := VStr (if passed then "Expected result validated successfully"
                        else "Expected result not found: " +:+ Py.take 100 expected_result);
     "reasoning" := VStr "Rule-based validation (simple substring match)" ]}.

Definition error_result (e : exn) (expected_result page_content : string) : dict :=
  let passed := substring_passed expected_result page_content in
  {[ "passed" := VBool passed;
     "confidence" := VFloat 0.3;
     "message" := VStr ("AI validation error, used fallback: " +:+ exn_str e);
     "reasoning" := VStr "Fallback to substring match due to AI error" ]}.

Section WithClient.

(** [self.enabled]: whether an API key was configured. *)
Variable enabled : bool.
Variable str_of_dict : gmap string string -> string.

(** The language model.  [complete k p] is the outcome of the [k]-th
    interpretation request, from the call of the client to [json.loads]:
    the decoded JSON value, or the exception raised on the way.
    [judge] is the same for the validation request of
    [validate_expected_result], up to its [json.loads]. *)
Variable complete : nat -> prompt -> res pyval.
Variable judge : string -> string -> dict -> res pyval.

Definition interpret_step (k : nat) (step_text expected_result : string)
    (ctx : context) : option dict :=
  if negb enabled then None
  else
    match complete k {| p_step_text := step_text;
                        p_expected_result := expected_result;
                        p_base_url := default "" (base_url ctx);
                        p_previous_actions := last3 (previous_steps ctx) |} with
    | Ok (VDict result) =>
        let result := <[ "expected" := VStr expected_result ]> result in
        let result := <[ "original_step" := VStr step_text ]> result in
        (* the log line formats the confidence with [:.2f] *)
        if formats_2f (Py.get_or result "confidence" (VInt 0)) then Some result
        else None
    | Ok _ => None           (* item assignment raises, inside the [try] *)
    | Raise _ => None
    end.

(** The bookkeeping of [base_url] for an interpreted action. *)
Definition store_base_url (ctx : context) (action : dict) : res context :=
  if Py.eq_str (Py.get action "action") "navigate"
     && negb (RuleBased.opt_truthy (base_url ctx)) then
    match Py.get_or action "params" (VDict ∅) with
    | VDict params =>
        match Py.get_or params "url" (VStr "") with
        | VStr url =>
            if Py.startswith "http" url then
              match Re.match_ Re.base_pattern url with
              | Some m => Ok (set_base_url ctx m)
              | None => Ok ctx
              end
            else Ok ctx
        | _ => Raise (AttributeError "object has no attribute 'startswith'")
        end
    | _ => Raise (AttributeError "object has no attribute 'get'")
    end
  else Ok ctx.

(** One iteration of the loop of [interpret_multiple_steps]. *)
Definition interpret_one (idx : nat) (ctx : context) (st : step) : res (context * dict) :=
  match st with
  | OtherStep _ => Raise (AttributeError "object has no attribute 'get'")
  | DictStep d =>
      let step_text :=
        RuleBased.str_or (RuleBased.field d "content")
          (RuleBased.str_or (RuleBased.field d "step") (str_of_dict d)) in
      let expected :=
        RuleBased.str_or (RuleBased.field d "expected") (RuleBased.field d "expected_result") in
      match interpret_step idx step_text expected ctx with
      | Some action =>
          match store_base_url ctx action with
          | Ok ctx' =>
              Ok (push_previous ctx'
                    {[ "step" := VInt (Z.of_nat idx + 1);
                       "action" := Py.get action "action";
                       "description" := VStr (Py.take 50 step_text) ]},
                  action)
          | Raise e => Raise e
          end
      | None => Ok (ctx, fallback_wait expected step_text)
      end
  end.

Fixpoint loop (idx : nat) (ctx : context) (acc : list dict) (steps : list step)
    : res (context * list dict) :=
  match steps with
  | [] => Ok (ctx, acc)
  | st :: rest =>
      match interpret_one idx ctx st with
      | Ok (ctx', a) => loop (S idx) ctx' (acc ++ [a]) rest
      | Raise e => Raise e
      end
  end.

(** [interpret_multiple_steps(steps, context)]: [None] when the
    interpreter is disabled. *)
Definition interpret_multiple_steps (steps : list step) (ctx : context)
    : res (option (list dict)) :=
  if negb enabled then Ok None
  else
    match loop 0 {| base_url := base_url ctx; previous_steps := [] |} [] steps with
    | Ok (_, actions) => Ok (Some actions)
    | Raise e => Raise e
    end.

(** [validate_expected_result(expected_result, page_content, context)] *)
Definition validate_expected_result (expected_result page_content : string)
    (ctx : dict) : dict :=
  if negb enabled then disabled_result expected_result page_content
  else
    match judge expected_result page_content ctx with
    | Ok (VDict validation_result) =>
        if formats_2f (Py.get validation_result "confidence") then validation_result
        else error_result (TypeError "unsupported format string") expected_result page_content
    | Ok _ =>
        error_result (AttributeError "object has no attribute 'get'") expected_result page_content
    | Raise e => error_result e expected_result page_content
    end.

End WithClient.
End AIInterpreter.

(* ===================================================================== *)
(** ** [testflow/services/validation_service.py] *)
(* ===================================================================== *)

Module ValidationService.
Section WithCollaborators.

Variable feed : string -> Html.fed.
(** [self.ai_interpreter]: absent, or an interpreter with its [enabled]
    flag and its validation method. *)
Variable ai_interpreter : option (bool * (string -> string -> dict -> res dict)).

(** The [HTMLStripper] of this module keeps the text only. *)
Definition strip_html (html_text : string) : string :=
  if Html.raised (feed html_text) then html_text
  else Py.strip (Py.join " " (Html.text (Html.run Html.new (feed html_text)))).

Definition _simple_validation (expected_text page_content : string) : dict :=
  if Py.contains (Py.lower expected_text) (Py.lower page_content) then
    {[ "passed" := VBool true;
       "confidence" := VFloat 0.8;
       "message" := VStr ("Found: " +:+ expected_text);
       "reasoning" := VStr "Simple substring match" ]}
  else
    {[ "passed" := VBool false;
       "confidence" := VFloat 0.8;
       "message" := VStr ("Not found: " +:+ expected_text);
       "reasoning" := VStr "Simple substring match failed" ]}.

Definition validate_expected_result (expected_result page_content : string)
    (ctx : dict) : dict :=
  if negb (Py.str_truthy expected_result) || negb (Py.str_truthy (Py.strip expected_result)) then
    {[ "passed" := VBool true;
       "confidence" := VFloat 1.0;
       "message" := VStr "No validation required";
       "reasoning" := VStr "No expected result specified" ]}
  else
    let expected_text := strip_html expected_result in
    match ai_interpreter with
    | Some (true, validate) =>
        match validate expected_text page_content ctx with
        | Ok validation_result =>
            if AIInterpreter.formats_2f (Py.get_or validation_result "confidence" (VFloat 0.0))
            then validation_result
            else _simple_validation expected_text page_content
        | Raise _ => _simple_validation expected_text page_content
        end
    | _ => _simple_validation expected_text page_content
    end.

End WithCollaborators.
End ValidationService.

(* ===================================================================== *)
(** ** [testflow/playwright_app/handler.py] *)
(* ===================================================================== *)

Module PlaywrightHandler.

(** The awaited calls into the browser driver (and the one file-system
    call).  Objects created by the driver are named by the position of
    the creating call in the history of calls. *)
Inductive call : Type :=
| StartPlaywright
| Launch (engine : string) (headless : pyval)
| NewContext (browser : nat)
| NewPage (context : nat)
| Mkdir (dir : string)
| Goto (url : string) (wait_until : pyval) (timeout : Z)
| WaitForTimeout (ms : pyval)
| WaitForLoadState (state : string) (timeout : Z)
| WaitForSelector (selector : pyval) (timeout : pyval)
| PageScreenshot (path : string)
| Title
| ClickText (text : pyval) (exact : pyval) (timeout : pyval)
| ClickSelector (selector : pyval) (timeout : pyval)
| FillSelector (selector value : pyval) (timeout : pyval)
| TypeSelector (selector text delay : pyval) (timeout : pyval)
| SelectOption (selector value : pyval) (timeout : pyval)
| HoverSelector (selector : pyval) (timeout : pyval)
| KeyboardPress (key : pyval)
| ClosePage (page : nat)
| CloseContext (context : nat)
| CloseBrowser (browser : nat)
| StopPlaywright (playwright : nat).

Inductive outcome : Type :=
| Returns (v : pyval)
| Raises (e : exn).

(** The environment: the answer of the driver to the [k]-th call, the
    reading of the clock in a given format, and the address shown by the
    page, both after [k] calls. *)
Record world : Type := {
  driver : nat -> call -> outcome;
  now : nat -> string -> string;
  page_url : nat -> string;
  str_of : pyval -> string          (* [str(x)], as used by the f-strings *)
}.

(** The class attributes of [PlaywrightHandler]. *)
Record session : Type := {
  _playwright : option nat;
  _browser : option nat;
  _context : option nat;
  _page : option nat;
  _screenshot_dir : option string;
  _is_headless : pyval
}.

Definition fresh : session :=
  {| _playwright := None; _browser := None; _context := None; _page := None;
     _screenshot_dir := None; _is_headless := VBool true |}.

Record state : Type := { cls : session; calls : list call }.

(** Computations of the handler. *)
Definition M (A : Type) : Type := world -> state -> res A * state.

Definition ret {A} (a : A) : M A := fun _ s => (Ok a, s).
Definition raise {A} (e : exn) : M A := fun _ s => (Raise e, s).
Definition bind {A B} (m : M A) (k : A -> M B) : M B :=
  fun w s => match m w s with
             | (Ok a, s') => k a w s'
             | (Raise e, s') => (Raise e, s')
             end.
(** [try: m except Exception as e: h e] *)
Definition try_except {A} (m : M A) (h : exn -> M A) : M A :=
  fun w s => match m w s with
             | (Ok a, s') => (Ok a, s')
             | (Raise e, s') => h e w s'
             end.

Declare Scope handler_scope.
Delimit Scope handler_scope with handler.
Notation "'let!' x ':=' m 'in' k" := (bind m (fun x => k))
  (at level 10, x name, m at level 100, k at level 200) : handler_scope.
Notation "m '>>' k" := (bind m (fun _ => k))
  (at level 100, k at level 200, right associativity) : handler_scope.
Local Open Scope handler_scope.

(** An awaited driver call: it is recorded, then answered by the world. *)
Definition await (c : call) : M pyval :=
  fun w s =>
    let s' := {| cls := cls s; calls := calls s ++ [c] |} in
    match driver w (length (calls s)) c with
    | Returns v => (Ok v, s')
    | Raises e => (Raise e, s')
    end.

(** A driver call that creates an object: the object is named by the
    position of the call. *)
Definition create (c : call) : M nat :=
  fun w s => bind (await c) (fun _ => ret (length (calls s))) w s.

Definition get_cls : M session := fun _ s => (Ok (cls s), s).
Definition set_cls (f : session -> session) : M unit :=
  fun _ s => (Ok tt, {| cls := f (cls s); calls := calls s |}).
Definition clock (format : string) : M string :=
  fun w s => (Ok (now w (length (calls s)) format), s).
Definition current_url : M string :=
  fun w s => (Ok (page_url w (length (calls s))), s).
Definition format (v : pyval) : M string := fun w s => (Ok (str_of w v), s).

Definition when (b : bool) (m : M unit) : M unit := if b then m else ret tt.

Definition is_None {A} (o : option A) : bool := match o with None => true | Some _ => false end.

(** A method of [str] applied to an arbitrary value. *)
Definition as_str (method : string) (v : pyval) : M string :=
  match v with
  | VStr s => ret s
  | _ => raise (AttributeError ("object has no attribute '" +:+ method +:+ "'"))
  end.

Definition initialize_browser (headless browser_type : pyval) : M (option nat) :=
  (let! c := get_cls in
   when (is_None (_playwright c))
     (let! h := create StartPlaywright in
      set_cls (fun c => {| _playwright := Some h; _browser := _browser c;
                           _context := _context c; _page := _page c;
                           _screenshot_dir := _screenshot_dir c;
                           _is_headless := _is_headless c |}))) >>
  (let! c := get_cls in
   when (is_None (_browser c))
     (set_cls (fun c => {| _playwright := _playwright c; _browser := _browser c;
                           _context := _context c; _page := _page c;
                           _screenshot_dir := _screenshot_dir c;
                           _is_headless := headless |}) >>
      let engine :=
        if Py.eq_str browser_type "chromium" then "chromium"
        else if Py.eq_str browser_type "firefox" then "firefox"
        else if Py.eq_str browser_type "webkit" then "webkit"
        else "chromium" in
      let! h := create (Launch engine headless) in
      set_cls (fun c => {| _playwright := _playwright c; _browser := Some h;
                           _context := _context c; _page := _page c;
                           _screenshot_dir := _screenshot_dir c;
                           _is_headless := _is_headless c |}))) >>
  (let! c := get_cls in
   when (is_None (_context c))
     (let! h := create (NewContext (default 0 (_browser c))) in
      set_cls (fun c => {| _playwright := _playwright c; _browser := _browser c;
                           _context := Some h; _page := _page c;
                           _screenshot_dir := _screenshot_dir c;
                           _is_headless := _is_headless c |}))) >>
  (let! c := get_cls in
   when (is_None (_page c))
     (let! h := create (NewPage (default 0 (_context c))) in
      set_cls (fun c => {| _playwright := _playwright c; _browser := _browser c;
                           _context := _context c; _page := Some h;
                           _screenshot_dir := _screenshot_dir c;
                           _is_headless := _is_headless c |}))) >>
  (let! c := get_cls in
   when (is_None (_screenshot_dir c))
     (let! stamp := clock "%Y%m%d_%H%M%S" in
      let dir := "test_results/" +:+ stamp in
      set_cls (fun c => {| _playwright := _playwright c; _browser := _browser c;
                           _context := _context c; _page := _page c;
                           _screenshot_dir := Some dir;
                           _is_headless := _is_headless c |}) >>
      let! _ := await (Mkdir dir) in ret tt)) >>
  let! c := get_cls in
  ret (_page c).

Definition close_browser : M unit :=
  (let! c := get_cls in
   match _page c with
   | Some p =>
       let! _ := await (ClosePage p) in
       set_cls (fun c => {| _playwright := _playwright c; _browser := _browser c;
                            _context := _context c; _page := None;
                            _screenshot_dir := _screenshot_dir c;
                            _is_headless := _is_headless c |})
   | None => ret tt
   end) >>
  (let! c := get_cls in
   match _context c with
   | Some x =>
       let! _ := await (CloseContext x) in
       set_cls (fun c => {| _playwright := _playwright c; _browser := _browser c;
                            _context := None; _page := _page c;
                            _screenshot_dir := _screenshot_dir c;
                            _is_headless := _is_headless c |})
   | None => ret tt
   end) >>
  (let! c := get_cls in
   match _browser c with
   | Some b =>
       let! _ := await (CloseBrowser b) in
       set_cls (fun c => {| _playwright := _playwright c; _browser := None;
                            _context := _context c; _page := _page c;
                            _screenshot_dir := _screenshot_dir c;
                            _is_headless := _is_headless c |})
   | None => ret tt
   end) >>
  (let! c := get_cls in
   match _playwright c with
   | Some p =>
       let! _ := await (StopPlaywright p) in
       set_cls (fun c => {| _playwright := None; _browser := _browser c;
                            _context := _context c; _page := _page c;
                            _screenshot_dir := _screenshot_dir c;
                            _is_headless := _is_headless c |})
   | None => ret tt
   end).

(** [take_screenshot(step_name)]: the path of the file, or the empty
    string when there is no page or no directory. *)
Definition take_screenshot (step_name : string) : M string :=
  let! c := get_cls in
  match _page c, _screenshot_dir c with
  | Some _, Some dir =>
      let! timestamp := clock "%H%M%S" in
      let filename := timestamp +:+ "_" +:+ Py.replace " " "_" step_name +:+ ".png" in
      let filepath := dir +:+ "/" +:+ filename in
      let! _ := await (PageScreenshot filepath) in
      ret filepath
  | _, _ => ret ""
  end.

(** The names of the actions covered here: the kinds of interpreted
    actions, and [close_browser].  (The read-only queries and the batch
    runner of [execute_action] are not part of this development.) *)
Inductive action_name : Type :=
| navigate | click | fill | type | select | wait | hover | press_key | close_browser_.

Definition name (a : action_name) : string :=
  match a with
  | navigate => "navigate" | click => "click" | fill => "fill" | type => "type"
  | select => "select" | wait => "wait" | hover => "hover" | press_key => "press_key"
  | close_browser_ => "close_browser"
  end.

(** [selector.replace('#', 'id_').replace('.', 'class_')] *)
Definition selector_slug (selector : pyval) : M string :=
  let! s := as_str "replace" selector in
  ret (Py.replace "." "class_" (Py.replace "#" "id_" s)).

Definition timeout_of (params : dict) : pyval := Py.get_or params "timeout" (VInt 30000).

Definition iso_now : M pyval := let! t := clock "iso" in ret (VStr t).

(** The three tiers of waiting of the [navigate] branch. *)
Definition navigate_wait (url : string) (params : dict) : M unit :=
  try_except
    (let! _ := await (Goto url (Py.get_or params "wait_until" (VStr "networkidle")) 30000) in
     let! _ := await (WaitForTimeout (VInt 500)) in
     ret tt)
    (fun nav_error =>
       try_except
         (let! _ := await (WaitForLoadState "domcontentloaded" 10000) in
          let! _ := await (WaitForTimeout (VInt 500)) in
          ret tt)
         (fun _ =>
            let! _ := await (WaitForTimeout (VInt 1000)) in
            ret tt)).

(** The branches of [execute_action], after the browser has been
    initialised. *)
Definition branch (action : action_name) (params : dict) : M dict :=
  match action with
  | navigate =>
      let url := Py.get params "url" in
      if negb (Py.truthy url) then
        ret {[ "error" := VStr "url is required for navigate action" ]}
      else
        let! u := as_str "replace" url in
        let step_name := "navigate_to_" +:+ Py.replace "/" "_" (Py.replace "://" "_" u) in
        navigate_wait u params >>
        let! screenshot := take_screenshot step_name in
        let! current := current_url in
        let! title := await Title in
        let! timestamp := iso_now in
        ret {[ "success" := VBool true;
               "action" := VStr "navigate";
               "url" := url;
               "current_url" := VStr current;
               "title" := title;
               "screenshot" := VStr screenshot;
               "timestamp" := timestamp ]}
  | click =>
      let selector := Py.get params "selector" in
      let text := Py.get params "text" in
      if negb (Py.truthy selector) && negb (Py.truthy text) then
        ret {[ "error" := VStr "Either selector or text is required for click action" ]}
      else
        let! step_name :=
          (if Py.truthy text then
             let! _ := await (ClickText text (Py.get_or params "exact" (VBool false))
                                (timeout_of params)) in
             let! t := as_str "replace" text in
             ret ("click_text_" +:+ Py.replace " " "_" t)
           else
             let! _ := await (ClickSelector selector (timeout_of params)) in
             let! slug := selector_slug selector in
             ret ("click_" +:+ slug)) in
        try_except
          (let! _ := await (WaitForLoadState "networkidle" 5000) in ret tt)
          (fun _ => let! _ := await (WaitForTimeout (VInt 500)) in ret tt) >>
        let! screenshot := take_screenshot step_name in
        let! shown :=
          (if Py.truthy selector then ret selector
           else let! t := format text in ret (VStr ("text=" +:+ t))) in
        let! timestamp := iso_now in
        ret {[ "success" := VBool true;
               "action" := VStr "click";
               "selector" := shown;
               "screenshot" := VStr screenshot;
               "timestamp" := timestamp ]}
  | fill =>
      let selector := Py.get params "selector" in
      let value := Py.get_or params "value" (VStr "") in
      if negb (Py.truthy selector) then
        ret {[ "error" := VStr "selector is required for fill action" ]}
      else
        let! _ := await (FillSelector selector value (timeout_of params)) in
        let! slug := selector_slug selector in
        let! screenshot := take_screenshot ("fill_" +:+ slug) in
        let! timestamp := iso_now in
        ret {[ "success" := VBool true;
               "action" := VStr "fill";
               "selector" := selector;
               "value" := value;
               "screenshot" := VStr screenshot;
               "timestamp" := timestamp ]}
  | type =>
      let selector := Py.get params "selector" in
      let text := Py.get_or params "text" (VStr "") in
      let delay := Py.get_or params "delay" (VInt 100) in
      if negb (Py.truthy selector) then
        ret {[ "error" := VStr "selector is required for type action" ]}
      else
        let! _ := await (TypeSelector selector text delay (timeout_of params)) in
        let! slug := selector_slug selector in
        let! screenshot := take_screenshot ("type_" +:+ slug) in
        let! timestamp := iso_now in
        ret {[ "success" := VBool true;
               "action" := VStr "type";
               "selector" := selector;
               "text" := text;
               "screenshot" := VStr screenshot;
               "timestamp" := timestamp ]}
  | select =>
      let selector := Py.get params "selector" in
      let value := Py.get params "value" in
      if negb (Py.truthy selector) || negb (Py.truthy value) then
        ret {[ "error" := VStr "selector and value are required for select action" ]}
      else
        let! _ := await (SelectOption selector value (timeout_of params)) in
        let! slug := selector_slug selector in
        let! screenshot := take_screenshot ("select_" +:+ slug) in
        let! timestamp := iso_now in
        ret {[ "success" := VBool true;
               "action" := VStr "select";
               "selector" := selector;
               "value" := value;
               "screenshot" := VStr screenshot;
               "timestamp" := timestamp ]}
  | wait =>
      let timeout := Py.get_or params "timeout" (VInt 5000) in
      let selector := Py.get params "selector" in
      let! step_name :=
        (if Py.truthy selector then
           let! _ := await (WaitForSelector selector timeout) in
           let! slug := selector_slug selector in
           ret ("wait_for_" +:+ slug)
         else
           let! _ := await (WaitForTimeout timeout) in
           let! t := format timeout in
           ret ("wait_" +:+ t +:+ "ms")) in
      let! screenshot := take_screenshot step_name in
      let! timestamp := iso_now in
      ret {[ "success" := VBool true;
             "action" := VStr "wait";
             "timeout" := timeout;
             "selector" := selector;
             "screenshot" := VStr screenshot;
             "timestamp" := timestamp ]}
  | hover =>
      let selector := Py.get params "selector" in
      if negb (Py.truthy selector) then
        ret {[ "error" := VStr "selector is required for hover action" ]}
      else
        let! _ := await (HoverSelector selector (timeout_of params)) in
        let! slug := selector_slug selector in
        let! screenshot := take_screenshot ("hover_" +:+ slug) in
        let! timestamp := iso_now in
        ret {[ "success" := VBool true;
               "action" := VStr "hover";
               "selector" := selector;
               "screenshot" := VStr screenshot;
               "timestamp" := timestamp ]}
  | press_key =>
      let key := Py.get params "key" in
      if negb (Py.truthy key) then
        ret {[ "error" := VStr "key is required for press_key action" ]}
      else
        let! _ := await (KeyboardPress key) in
        let! k := format key in
        let! screenshot := take_screenshot ("press_" +:+ k) in
        let! timestamp := iso_now in
        ret {[ "success" := VBool true;
               "action" := VStr "press_key";
               "key" := key;
               "screenshot" := VStr screenshot;
               "timestamp" := timestamp ]}
  | close_browser_ =>
      close_browser >>
      let! timestamp := iso_now in
      ret {[ "success" := VBool true;
             "action" := VStr "close_browser";
             "timestamp" := timestamp ]}
  end.

(** The two [except] clauses of [execute_action]. *)
Definition on_error (action : action_name) (e : exn) : M dict :=
  match e with
  | TimeoutError msg =>
      let! screenshot := take_screenshot ("timeout_error_" +:+ name action) in
      let! timestamp := iso_now in
      ret {[ "error" := VStr ("Timeout error during " +:+ name action +:+ ": " +:+ msg);
             "screenshot" := VStr screenshot;
             "timestamp" := timestamp ]}
  | _ =>
      let! screenshot := take_screenshot ("error_" +:+ name action) in
      let! timestamp := iso_now in
      ret {[ "error" := VStr ("Error during " +:+ name action +:+ ": "
                              +:+ exn_str e);
             "screenshot" := VStr screenshot;
             "timestamp" := timestamp ]}
  end.

Definition execute_action (action : action_name) (params : dict) : M dict :=
  try_except
    ((match action with
      | close_browser_ => ret tt
      | _ =>
          let! page := initialize_browser (Py.get_or params "headless" (VBool true))
                         (Py.get_or params "browser_type" (VStr "chromium")) in
          ret tt
      end) >>
     branch action params)
    (on_error action).

(** Whether the [k]-th call, if it is [c], raises. *)
Definition raises_at (w : world) (k : nat) (c : call) : bool :=
  match driver w k c with Raises _ => true | Returns _ => false end.

(** A session on which [initialize_browser] has nothing left to do. *)
Definition initialized (c : session) : Prop :=
  is_Some (_playwright c) /\ is_Some (_browser c) /\ is_Some (_context c)
  /\ is_Some (_page c) /\ is_Some (_screenshot_dir c).

End PlaywrightHandler.

(* ===================================================================== *)
(** ** [backend/server.py]: [execute_test_background] *)
(* ===================================================================== *)

Module Server.

(** What the run sends to its sinks: the progress channel and the
    database.  The sinks are recorded, they are not part of the
    development; progress messages are left out. *)
Inductive event : Type :=
| SendProgress (stage : string) (progress : Z)
| UpdateTestRun (fields : dict)
| CreateTestStep (step_number : nat) (fields : dict)
| CreateScreenshot (step_number : nat) (file_path : pyval)
| UpdateDailyMetrics (fields : dict)
| Broadcast (message : dict).

Record state : Type := { events : list event; playwright_calls : nat }.

Definition O (A : Type) : Type := state -> res A * state.

Definition ret {A} (a : A) : O A := fun s => (Ok a, s).
Definition raise {A} (e : exn) : O A := fun s => (Raise e, s).
Definition bind {A B} (m : O A) (k : A -> O B) : O B :=
  fun s => match m s with
           | (Ok a, s') => k a s'
           | (Raise e, s') => (Raise e, s')
           end.
Definition lift {A} (r : res A) : O A := fun s => (r, s).
Definition emit (e : event) : O unit :=
  fun s => (Ok tt, {| events := events s ++ [e]; playwright_calls := playwright_calls s |}).

Declare Scope server_scope.
Delimit Scope server_scope with server.
Notation "'let!' x ':=' m 'in' k" := (bind m (fun x => k))
  (at level 10, x name, m at level 100, k at level 200) : server_scope.
Notation "m '>>' k" := (bind m (fun _ => k))
  (at level 100, k at level 200, right associativity) : server_scope.
Local Open Scope server_scope.

Definition dummy_step : pyval :=
  VDict {[ "content" := VStr "Default step - no steps found in TestRail" ]}.

Definition dummy_action : dict :=
  {[ "action" := VStr "wait";
     "params" := VDict {[ "timeout" := VInt 1000 ]};
     "description" := VStr "Default action" ]}.

Definition str_field (v : pyval) : option string :=
  match v with VStr s => Some s | _ => None end.

(** [x.get(...)] on a value that has to be a dict. *)
Definition as_dict (v : pyval) : res dict :=
  match v with
  | VDict d => Ok d
  | _ => Raise (AttributeError "object has no attribute 'get'")
  end.

(** What the run reads from an answer of the browser handler.  The answer
    of [PlaywrightApp.handle_action_async] is always a dict (exceptions
    are turned into one).  By [handler.py] its [screenshot], when present,
    is the str returned by [take_screenshot]; its [text], in the answer to
    [get_text], is the result of [text_content()], a str or [None]; its
    [page_data] is whatever the page evaluates to; and no reachable branch
    sets a [duration], so that [int(exec_result.get("duration", 0) * 1000)]
    is 0.  A field that is absent is given with the default of its read:
    [success] as [None], [screenshot] and [text] as the empty string,
    [page_data] as the empty dict. *)
Record answer : Type := {
  success : pyval;
  screenshot : string;
  page_data : pyval;
  text : option string
}.

Section WithCollaborators.

(** Builtins and the standard library. *)
Variable feed : string -> Html.fed.
Variable str_of : pyval -> string.
Variable str_of_dict : gmap string string -> string.
(** The text built from the page data for the validation by the f-strings
    and loops of lines 567-584, or the exception they raise (on a page
    data that is not a dict, a field or a dropdown that is not one, an
    option without [text], a button that is not a str); and the
    percentage shown while executing, [60 + int((idx + 1) / n * 30)] in
    floating point. *)
Variable render_page_data : pyval -> res string.
Variable step_progress : nat -> nat -> Z.

(** The collaborators: the answer of [agent.handle("testrail", ...)],
    the answer to the [k]-th [agent.handle("playwright", ...)] of the run,
    and the language model behind [ai_interpreter]. *)
Variable testrail : res pyval.
Variable playwright : nat -> pyval -> pyval -> answer.
Variable enabled : bool.
Variable complete : nat -> AIInterpreter.prompt -> res pyval.
Variable judge : string -> string -> dict -> res pyval.

Definition handle_playwright (action params : pyval) : O answer :=
  fun s => (Ok (playwright (playwright_calls s) action params),
            {| events := events s; playwright_calls := S (playwright_calls s) |}).

(** The elements of [steps], as the loops see them.  The string fields of
    a dict step are kept. *)
Definition to_step (v : pyval) : step :=
  match v with
  | VDict d => DictStep (omap str_field d)
  | _ => OtherStep (str_of v)
  end.

Definition elements (steps : pyval) : res (list step) :=
  match steps with
  | VList l => Ok (map to_step l)
  | VStr s => Ok (map (fun c => OtherStep (String c EmptyString)) (list_ascii_of_string s))
  | VDict d => Ok (map (fun kv => OtherStep (fst kv)) (map_to_list d))
  | _ => Raise (TypeError "object is not iterable")
  end.




(** Stage 1: fetching.  The result is the list [steps]. *)
Definition fetching : O pyval :=
  emit (SendProgress "fetching" 20) >>
  let! testrail_result := lift testrail in
  let failed msg := raise (Exception ("Failed to fetch test case: " +:+ msg)) in
  match testrail_result with
  | VDict result =>
      if negb (Py.truthy testrail_result) then failed "No response from TestRail"
      else if bool_decide (is_Some (result !! "error"))
      then failed (str_of (Py.get_or result "error" (VStr "Unknown error")))
      else
        let! test_case :=
          (if Py.truthy (Py.get result "test_case")
           then lift (as_dict (Py.get result "test_case"))
           else ret result) in
        let test_name := Py.get_or test_case "title" (VStr "Test Case") in
        let steps :=
          Py.or_ (Py.get test_case "custom_steps_separated")
            (Py.or_ (Py.get test_case "custom_steps")
               (Py.or_ (Py.get test_case "steps") (VList []))) in
        let steps := if negb (Py.truthy steps) then VList [dummy_step] else steps in
        let! n := lift (Py.len steps) in
        emit (UpdateTestRun {[ "test_name" := test_name;
                               "total_steps" := VInt (Z.of_nat n) ]}) >>
        ret steps
  | _ =>
      if negb (Py.truthy testrail_result) then failed "No response from TestRail"
      else raise (TypeError "argument is not iterable")
  end.

(** Stage 2: interpretation. *)
Definition add_description (action : dict) : dict :=
  match action !! "original_step", action !! "description" with
  | Some (VStr original_step), None =>
      <[ "description" := VStr (Py.take 100 original_step) ]> action
  | _, _ => action
  end.

Definition list_truthy {A} (l : list A) : bool := match l with [] => false | _ => true end.

Definition interpreting (steps : pyval) : O (list dict) :=
  let! n := lift (Py.len steps) in
  emit (SendProgress "ai_processing" 40) >>
  let! playwright_actions :=
    (if enabled then
       let! sts := lift (elements steps) in
       let! r := lift (AIInterpreter.interpret_multiple_steps enabled str_of_dict complete sts
                         {| AIInterpreter.base_url := None;
                            AIInterpreter.previous_steps := [] |}) in
       match r with
       | Some actions =>
           if list_truthy actions then ret (Some (map add_description actions))
           else ret None
       | None => ret None
       end
     else ret None) in
  let! playwright_actions :=
    (match playwright_actions with
     | Some actions => ret actions
     | None =>
         let! sts := lift (elements steps) in
         ret (RuleBased.interpret feed str_of_dict sts)
     end) in
  let playwright_actions :=
    if list_truthy playwright_actions then playwright_actions
    else playwright_actions ++ [dummy_action] in
  emit (SendProgress "ai_processing" 50) >>
  ret playwright_actions.

(** Stage 3: execution of one action. *)
Definition expected_of (action : dict) : pyval := Py.get_or action "expected" (VStr "").

(** [expected_result and expected_result.strip()], as a condition: a
    value that is truthy and not a str has no [strip]. *)
Definition has_validation (expected_result : pyval) : res bool :=
  match expected_result with
  | VStr s => Ok (Py.str_truthy s && Py.str_truthy (Py.strip s))
  | _ =>
      if Py.truthy expected_result
      then Raise (AttributeError "object has no attribute 'strip'")
      else Ok false
  end.

Definition strip_html (html : string) : string :=
  if Html.raised (feed html) then html
  else Py.strip (Py.join " " (Html.text (Html.run Html.new (feed html)))).

(** The page content handed to the validation: the rendering of the page
    data, or the text of the page, which may be [None]. *)
Definition page_content_for_validation : O (option string) :=
  let! page_validation :=
    handle_playwright (VStr "get_page_content_for_validation") (VDict ∅) in
  if Py.truthy (success page_validation)
  then
    let! page_content := lift (render_page_data (page_data page_validation)) in
    ret (Some page_content)
  else
    let! page_validation_fallback := handle_playwright (VStr "get_text") (VDict ∅) in
    ret (text page_validation_fallback).

(** The same, as a function of the number of answers the handler has
    given when the page is read. *)
Definition page_content_at (k : nat) : res (option string) :=
  let page_validation := playwright k (VStr "get_page_content_for_validation") (VDict ∅) in
  if Py.truthy (success page_validation)
  then
    match render_page_data (page_data page_validation) with
    | Ok page_content => Ok (Some page_content)
    | Raise e => Raise e
    end
  else Ok (text (playwright (S k) (VStr "get_text") (VDict ∅))).

Definition validation_context (action : dict) : dict :=
  {[ "action_performed" := Py.get action "action";
     "step_description" := Py.get_or action "description" (VStr "");
     "action_params" := Py.get_or action "params" (VDict ∅) ]}.

(** [ai_interpreter.validate_expected_result] on a page content that may
    be [None].  On [None] the method raises on each of its paths: without
    model at [page_content.strip()]; with the model at
    [page_content[:4000]], inside the [try], and then at
    [page_content.strip()] in the [except] clause. *)
Definition validate (expected_text : string) (page_content : option string)
    (context : dict) : res dict :=
  match page_content with
  | Some content =>
      Ok (AIInterpreter.validate_expected_result enabled judge expected_text content context)
  | None => Raise (AttributeError "'NoneType' object has no attribute 'strip'")
  end.

(** The validation block, for an expected result that is a str:
    [validation_passed] and [validation_message]. *)
Definition validating (action : dict) (expected_result : string) : O (pyval * pyval) :=
  let expected_text := strip_html expected_result in
  let! page_content := page_content_for_validation in
  let! validation_result :=
    lift (validate expected_text page_content (validation_context action)) in
  let validation_passed := Py.get_or validation_result "passed" (VBool false) in
  let validation_message := Py.get_or validation_result "message" (VStr "") in
  let confidence := Py.get_or validation_result "confidence" (VFloat 0.0) in
  (* both log lines format the confidence with [:.2f] *)
  if AIInterpreter.formats_2f confidence
  then ret (validation_passed, validation_message)
  else raise (TypeError "unsupported format string").

Definition step_status (has_validation : bool) (validation_passed : pyval)
    (exec_result : answer) : string :=
  if has_validation then
    if Py.truthy validation_passed then "PASSED" else "FAILED"
  else
    if Py.truthy (success exec_result) then "PASSED" else "FAILED".

(** One iteration of the loop over the actions: the status of the step.
    Of the step record, the parameters of the action and the execution
    time (0, as no answer carries a duration) are left out. *)
Definition executing_one (n idx : nat) (action : dict) : O string :=
  emit (SendProgress "executing" (step_progress idx n)) >>
  let! exec_result :=
    handle_playwright (Py.get action "action") (Py.get_or action "params" (VDict ∅)) in
  let! validates := lift (has_validation (expected_of action)) in
  let! v :=
    (if validates
     then validating action (default "" (str_field (expected_of action)))  (* a str here *)
     else ret (VBool true, VStr "")) in
  let '(validation_passed, validation_message) := v in
  let status := step_status validates validation_passed exec_result in
  emit (CreateTestStep (idx + 1)
          {[ "description" := Py.get_or action "description" (VStr (str_of (VDict action)));
             "action_type" := Py.get action "action";
             "status" := VStr status;
             "error_message" := (if Py.truthy validation_passed then VNone
                                 else validation_message);
             "screenshot_path" := VStr (screenshot exec_result) ]}) >>
  (if Py.str_truthy (screenshot exec_result)
   then emit (CreateScreenshot (idx + 1) (VStr (screenshot exec_result)))
   else ret tt) >>
  emit (Broadcast {[ "type" := VStr "step";
                     "status" := VStr (if String.eqb status "PASSED" then "success"
                                       else "failed") ]}) >>
  ret status.

(** The loop, with the counters [passed_steps] and [failed_steps]. *)
Fixpoint executing_loop (n idx : nat) (passed_steps failed_steps : nat)
    (actions : list dict) : O (nat * nat) :=
  match actions with
  | [] => ret (passed_steps, failed_steps)
  | action :: rest =>
      let! status := executing_one n idx action in
      if String.eqb status "PASSED"
      then executing_loop n (S idx) (S passed_steps) failed_steps rest
      else executing_loop n (S idx) passed_steps (S failed_steps) rest
  end.

(** The body of the [try]. *)
Definition run_body : O unit :=
  let! steps := fetching in
  let! playwright_actions := interpreting steps in
  emit (SendProgress "executing" 60) >>
  let! counts :=
    executing_loop (length playwright_actions) 0 0 0 playwright_actions in
  let '(passed_steps, failed_steps) := counts in
  let final_status := if failed_steps =? 0 then "PASSED" else "FAILED" in
  emit (SendProgress "complete" 100) >>
  emit (UpdateTestRun {[ "status" := VStr final_status;
                         "passed_steps" := VInt (Z.of_nat passed_steps);
                         "total_steps" := VInt (Z.of_nat (length playwright_actions)) ]}) >>
  emit (UpdateDailyMetrics
          {[ "tests_run" := VInt 1;
             "tests_passed" := VInt (if String.eqb final_status "PASSED" then 1 else 0);
             "tests_failed" := VInt (if String.eqb final_status "FAILED" then 1 else 0) ]}).

(** [execute_test_background]: what the run has sent to its sinks. *)
Definition execute_test_background : list event :=
  match run_body {| events := []; playwright_calls := 0 |} with
  | (Ok _, s) => events s
  | (Raise e, s) =>
      events s ++
      [ SendProgress "error" 0;
        UpdateTestRun {[ "status" := VStr "FAILED" ]};
        UpdateDailyMetrics {[ "tests_run" := VInt 1; "tests_failed" := VInt 1 ]} ]
  end.

End WithCollaborators.
End Server.

(* ===================================================================== *)
(** ** Sample inputs *)
(* ===================================================================== *)

Module Sample.

Definition login_link : string :=
  "Open <a href='http://example.test/login'>the login page</a>".

(** What [html.parser] delivers for [login_link], and for a text without
    markup: the text itself, in one piece. *)
Definition feed (s : string) : Html.fed :=
  if String.eqb s login_link then
    {| Html.events := [ Html.Data "Open ";
                        Html.StartTag "a" [("href", Some "http://example.test/login")];
                        Html.Data "the login page" ];
       Html.raised := false |}
  else if String.eqb s "" then {| Html.events := []; Html.raised := false |}
  else {| Html.events := [Html.Data s]; Html.raised := false |}.

Definition str_of_dict (d : gmap string string) : string := "{...}".

Definition step_of (content : string) : step := DictStep {[ "content" := content ]}.

Definition navigate_reply (url : pyval) : pyval :=
  VDict {[ "action" := VStr "navigate";
           "params" := VDict {[ "url" := url ]};
           "confidence" := VFloat 0.9;
           "reasoning" := VStr "the step names a page" ]}.

(** A model that answers the first request with a navigation to one
    host, the second with a navigation to another host, and fails on the
    others. *)
Definition complete_two (k : nat) (p : AIInterpreter.prompt) : res pyval :=
  match k with
  | 0 => Ok (navigate_reply (VStr "http://example.test/login"))
  | 1 => Ok (navigate_reply (VStr "https://other.test/home"))
  | _ => Raise (Exception "connection error")
  end.

(** A model that answers with a navigation whose url is [null]. *)
Definition complete_null_url (k : nat) (p : AIInterpreter.prompt) : res pyval :=
  Ok (navigate_reply VNone).

(** A browser that answers every call, and one on which every page load
    and every wait for a load state times out. *)
Definition clock (k : nat) (format : string) : string :=
  if String.eqb format "%H%M%S" then "101500" else "20240101_101500".

Definition world_ok : PlaywrightHandler.world :=
  {| PlaywrightHandler.driver := fun _ _ => PlaywrightHandler.Returns VNone;
     PlaywrightHandler.now := clock;
     PlaywrightHandler.page_url := fun _ => "about:blank";
     PlaywrightHandler.str_of := fun _ => "?" |}.

Definition world_unreachable : PlaywrightHandler.world :=
  {| PlaywrightHandler.driver := fun _ c =>
       match c with
       | PlaywrightHandler.Goto _ _ _ =>
           PlaywrightHandler.Raises (Exception "net::ERR_NAME_NOT_RESOLVED")
       | PlaywrightHandler.WaitForLoadState _ _ =>
           PlaywrightHandler.Raises (TimeoutError "Timeout 10000ms exceeded")
       | _ => PlaywrightHandler.Returns VNone
       end;
     PlaywrightHandler.now := clock;
     PlaywrightHandler.page_url := fun _ => "about:blank";
     PlaywrightHandler.str_of := fun _ => "?" |}.

Definition start : PlaywrightHandler.state :=
  {| PlaywrightHandler.cls := PlaywrightHandler.fresh; PlaywrightHandler.calls := [] |}.

(** The session after a first initialisation: the four objects are named
    by the calls that created them. *)
Definition session_ready : PlaywrightHandler.session :=
  {| PlaywrightHandler._playwright := Some 0;
     PlaywrightHandler._browser := Some 1;
     PlaywrightHandler._context := Some 2;
     PlaywrightHandler._page := Some 3;
     PlaywrightHandler._screenshot_dir := Some "test_results/20240101_101500";
     PlaywrightHandler._is_headless := VBool true |}.

Definition ready : PlaywrightHandler.state :=
  {| PlaywrightHandler.cls := session_ready;
     PlaywrightHandler.calls :=
       [ PlaywrightHandler.StartPlaywright;
         PlaywrightHandler.Launch "chromium" (VBool true);
         PlaywrightHandler.NewContext 1;
         PlaywrightHandler.NewPage 2;
         PlaywrightHandler.Mkdir "test_results/20240101_101500" ] |}.

Definition params_unreachable : dict := {[ "url" := VStr "http://unreachable.test/" ]}.

(** A navigation that asks for the [load] event instead of the default. *)
Definition params_load : dict :=
  {[ "url" := VStr "http://example.test/"; "wait_until" := VStr "load" ]}.

Definition empty_context : AIInterpreter.context :=
  {| AIInterpreter.base_url := None; AIInterpreter.previous_steps := [] |}.

(** Scenario A of the specification, followed by two more steps. *)
Definition steps_A : list step :=
  [ step_of "Navigate to http://example.test/login";
    step_of "Click `Sign In`";
    step_of "Go to /abp page";
    step_of "Open the settings" ].

(** Collaborators of a run: a test case without steps, a test-case
    source that reports an error, and a browser handler that reports
    success without screenshot. *)
Definition case_without_steps : pyval :=
  VDict {[ "id" := VInt 596349; "title" := VStr "Login"; "custom_steps_separated" := VNone ]}.


Definition playwright_ok (k : nat) (action params : pyval) : Server.answer :=
  {| Server.success := VBool true; Server.screenshot := "";
     Server.page_data := VDict ∅; Server.text := Some "" |}.

(** A handler on which every action fails (its answer is a dict with an
    [error] and nothing else), while the page shows the selected
    option. *)
Definition playwright_failing (k : nat) (action params : pyval) : Server.answer :=
  if Py.eq_str action "get_page_content_for_validation"
  then {| Server.success := VBool true; Server.screenshot := "";
          Server.page_data :=
            VDict {[ "visible_text" := VStr "Selected: Longitudinal Welding" ]};
          Server.text := Some "" |}
  else {| Server.success := VNone; Server.screenshot := "";
          Server.page_data := VDict ∅; Server.text := Some "" |}.

Definition str_of (v : pyval) : string :=
  match v with VStr s => s | _ => "?" end.

(** The text built from the page data (lines 567-584), with [str_of] for
    the conversions of the f-strings. *)
Definition newline : string := String (ascii_of_nat 10) EmptyString.

Definition fetch (v : pyval) (k : string) (dflt : pyval) : res pyval :=   (* [v.get(k, dflt)] *)
  match v with
  | VDict d => Ok (Py.get_or d k dflt)
  | _ => Raise (AttributeError "object has no attribute 'get'")
  end.

Definition iterate (v : pyval) : res (list pyval) :=                      (* [for x in v] *)
  match v with
  | VList l => Ok l
  | VStr s => Ok (map (fun c => VStr (String c EmptyString)) (list_ascii_of_string s))
  | VDict d => Ok (map (fun kv => VStr (fst kv)) (map_to_list d))
  | _ => Raise (TypeError "object is not iterable")
  end.

Fixpoint each {A} (f : pyval -> res A) (l : list pyval) : res (list A) :=
  match l with
  | [] => Ok []
  | x :: rest =>
      match f x with
      | Ok a => match each f rest with Ok r => Ok (a :: r) | Raise e => Raise e end
      | Raise e => Raise e
      end
  end.

Definition joined (v : pyval) : res string :=                               (* [', '.join(v)] *)
  match iterate v with
  | Ok l =>
      match each (fun x => match x with
                           | VStr s => Ok s
                           | _ => Raise (TypeError "sequence item: expected str instance")
                           end) l with
      | Ok strs => Ok (Py.join ", " strs)
      | Raise e => Raise e
      end
  | Raise e => Raise e
  end.

Definition field_line (field : pyval) : res string :=
  match field with
  | VDict d =>
      Ok ("- " +:+ str_of (Py.get_or d "label" (VStr "Unlabeled"))
          +:+ " (" +:+ str_of (Py.get_or d "type" (VStr "input")) +:+ "): "
          +:+ str_of (Py.get_or d "value" (VStr "empty")) +:+ newline)
  | _ => Raise (AttributeError "object has no attribute 'get'")
  end.

Definition option_text (opt : pyval) : res pyval :=                        (* [opt['text']] *)
  match opt with
  | VDict d =>
      match d !! "text" with
      | Some t => Ok t
      | None => Raise (Exception "KeyError: 'text'")
      end
  | _ => Raise (TypeError "object is not subscriptable with a str")
  end.

Definition dropdown_lines (dropdown : pyval) : res string :=
  match dropdown with
  | VDict d =>
      match iterate (Py.get_or d "options" (VList [])) with
      | Ok options =>
          match each option_text options with
          | Ok texts =>
              match joined (VList texts) with
              | Ok line =>
                  Ok ("- " +:+ str_of (Py.get_or d "label"
                                         (Py.get_or d "name" (VStr "Unlabeled")))
                      +:+ " dropdown:" +:+ newline
                      +:+ "  Selected: " +:+ str_of (Py.get_or d "selected_text" (VStr "None"))
                      +:+ newline
                      +:+ "  Options: " +:+ line +:+ newline)
              | Raise e => Raise e
              end
          | Raise e => Raise e
          end
      | Raise e => Raise e
      end
  | _ => Raise (AttributeError "object has no attribute 'get'")
  end.

Definition lines_of (f : pyval -> res string) (v : pyval) : res string :=
  match iterate v with
  | Ok l =>
      match each f l with
      | Ok lines => Ok (Py.join "" lines)
      | Raise e => Raise e
      end
  | Raise e => Raise e
  end.

Definition render_page_data (page_data : pyval) : res string :=
  match page_data with
  | VDict d =>
      match lines_of field_line (Py.get_or d "form_fields" (VList [])) with
      | Ok fields =>
          match lines_of dropdown_lines (Py.get_or d "dropdowns" (VList [])) with
          | Ok dropdowns =>
              match joined (Py.get_or d "buttons" (VList [])) with
              | Ok buttons =>
                  Ok ("Visible Text:" +:+ newline
                      +:+ str_of (Py.get_or d "visible_text" (VStr "")) +:+ newline
                      +:+ newline +:+ "Form Fields:" +:+ newline +:+ fields
                      +:+ newline +:+ "Dropdowns:" +:+ newline +:+ dropdowns
                      +:+ newline +:+ "Buttons: " +:+ buttons +:+ newline)
              | Raise e => Raise e
              end
          | Raise e => Raise e
          end
      | Raise e => Raise e
      end
  | _ => Raise (AttributeError "object has no attribute 'get'")
  end.

(** The page content rendered from the page data of
    [playwright_failing]. *)
Definition page_shown : string :=
  "Visible Text:" +:+ newline +:+ "Selected: Longitudinal Welding" +:+ newline
  +:+ newline +:+ "Form Fields:" +:+ newline
  +:+ newline +:+ "Dropdowns:" +:+ newline
  +:+ newline +:+ "Buttons: " +:+ newline.

Definition step_progress (idx n : nat) : Z := 60 + Z.of_nat ((idx + 1) * 30 / n).

Definition no_model (k : nat) (p : AIInterpreter.prompt) : res pyval :=
  Raise (Exception "no client").
Definition no_judge (expected page : string) (ctx : dict) : res pyval :=
  Raise (Exception "no client").

Definition verify_action : dict :=
  {[ "action" := VStr "click";
     "params" := VDict {[ "text" := VStr "Welding type" ]};
     "description" := VStr "Verify dropdown";
     "expected" := VStr "longitudinal welding" ]}.

End Sample.

(* ===================================================================== *)
(** ** Further definitions: sessions, batches, the second interpreter *)
(* ===================================================================== *)

Module Session.

Import PlaywrightHandler.

(** The number of objects [initialize_browser] still has to create. *)
Definition missing (c : session) : nat :=
  (if is_None (_playwright c) then 1 else 0) + (if is_None (_browser c) then 1 else 0)
  + (if is_None (_context c) then 1 else 0) + (if is_None (_page c) then 1 else 0)
  + (if is_None (_screenshot_dir c) then 1 else 0).

(** The calls with which [close_browser] releases the objects of a
    session: the page, the context, the browser, the driver, in this
    order, each one only when it exists. *)
Definition release_calls (c : session) : list call :=
  match _page c with Some p => [ClosePage p] | None => [] end
  ++ match _context c with Some x => [CloseContext x] | None => [] end
  ++ match _browser c with Some b => [CloseBrowser b] | None => [] end
  ++ match _playwright c with Some p => [StopPlaywright p] | None => [] end.

Definition is_release (c : call) : bool :=
  match c with
  | ClosePage _ | CloseContext _ | CloseBrowser _ | StopPlaywright _ => true
  | _ => false
  end.

(** The session once everything has been released: only the screenshot
    directory and the head-less flag are left. *)
Definition closed (c : session) : session :=
  {| _playwright := None; _browser := None; _context := None; _page := None;
     _screenshot_dir := _screenshot_dir c; _is_headless := _is_headless c |}.

(** The engine launched for a [browser_type]. *)
Definition engine_of (browser_type : pyval) : string :=
  if Py.eq_str browser_type "firefox" then "firefox"
  else if Py.eq_str browser_type "webkit" then "webkit"
  else "chromium".

(** A result reports success, or it is a failure: an [error] and no
    [success] field. *)
Definition well_formed_result (d : dict) : Prop :=
  d !! "success" = Some (VBool true)
  \/ (is_Some (d !! "error") /\ d !! "success" = None).

(** Every value a computation of the handler returns satisfies [P]. *)
Definition returns_only {A} (P : A -> Prop) (m : M A) : Prop :=
  forall w s a s1, m w s = (Ok a, s1) -> P a.




End Session.

Module Sample2.

(** The session left by an initialisation whose launch of the browser
    raised: the driver is started, nothing else exists. *)
Definition after_failed_launch : PlaywrightHandler.state :=
  {| PlaywrightHandler.cls :=
       {| PlaywrightHandler._playwright := Some 0;
          PlaywrightHandler._browser := None;
          PlaywrightHandler._context := None;
          PlaywrightHandler._page := None;
          PlaywrightHandler._screenshot_dir := None;
          PlaywrightHandler._is_headless := VBool false |};
     PlaywrightHandler.calls :=
       [ PlaywrightHandler.StartPlaywright;
         PlaywrightHandler.Launch "firefox" (VBool false) ] |}.

(** A world in which no browser can be launched. *)
Definition world_no_browser : PlaywrightHandler.world :=
  {| PlaywrightHandler.driver := fun _ c =>
       match c with
       | PlaywrightHandler.Launch _ _ =>
           PlaywrightHandler.Raises (Exception "Executable doesn't exist")
       | _ => PlaywrightHandler.Returns VNone
       end;
     PlaywrightHandler.now := Sample.clock;
     PlaywrightHandler.page_url := fun _ => "about:blank";
     PlaywrightHandler.str_of := fun _ => "?" |}.

(** A world in which filling a field times out. *)
Definition world_fill_timeout : PlaywrightHandler.world :=
  {| PlaywrightHandler.driver := fun _ c =>
       match c with
       | PlaywrightHandler.FillSelector _ _ _ =>
           PlaywrightHandler.Raises (TimeoutError "Timeout 30000ms exceeded")
       | _ => PlaywrightHandler.Returns VNone
       end;
     PlaywrightHandler.now := Sample.clock;
     PlaywrightHandler.page_url := fun _ => "about:blank";
     PlaywrightHandler.str_of := fun _ => "?" |}.

(** The session after an initialisation that resumes from
    [after_failed_launch]. *)
Definition resumed : PlaywrightHandler.state :=
  {| PlaywrightHandler.cls :=
       {| PlaywrightHandler._playwright := Some 0;
          PlaywrightHandler._browser := Some 2;
          PlaywrightHandler._context := Some 3;
          PlaywrightHandler._page := Some 4;
          PlaywrightHandler._screenshot_dir := Some "test_results/20240101_101500";
          PlaywrightHandler._is_headless := VBool true |};
     PlaywrightHandler.calls :=
       [ PlaywrightHandler.StartPlaywright;
         PlaywrightHandler.Launch "firefox" (VBool false);
         PlaywrightHandler.Launch "chromium" (VBool true);
         PlaywrightHandler.NewContext 2; PlaywrightHandler.NewPage 3;
         PlaywrightHandler.Mkdir "test_results/20240101_101500" ] |}.

(** The session [Sample.ready], closed and initialised again. *)
Definition reopened : PlaywrightHandler.state :=
  {| PlaywrightHandler.cls :=
       {| PlaywrightHandler._playwright := Some 5;
          PlaywrightHandler._browser := Some 6;
          PlaywrightHandler._context := Some 7;
          PlaywrightHandler._page := Some 8;
          PlaywrightHandler._screenshot_dir := Some "test_results/20240101_101500";
          PlaywrightHandler._is_headless := VBool false |};
     PlaywrightHandler.calls :=
       PlaywrightHandler.calls Sample.ready ++
       [ PlaywrightHandler.StartPlaywright;
         PlaywrightHandler.Launch "chromium" (VBool false);
         PlaywrightHandler.NewContext 6; PlaywrightHandler.NewPage 7 ] |}.

Definition params_fill : dict := {[ "selector" := VStr "#name"; "value" := VStr "Ada" ]}.

(** A world in which the driver can do nothing at all, not even take a
    screenshot. *)
Definition world_down : PlaywrightHandler.world :=
  {| PlaywrightHandler.driver := fun _ _ =>
       PlaywrightHandler.Raises (Exception "Target closed");
     PlaywrightHandler.now := Sample.clock;
     PlaywrightHandler.page_url := fun _ => "about:blank";
     PlaywrightHandler.str_of := fun _ => "?" |}.

End Sample2.

(* ===================================================================== *)
(** ** [handler.py]: the entry point [PlaywrightApp.handle_action_async] *)
(* ===================================================================== *)

Module PlaywrightApp.

Import PlaywrightHandler.

(** [handle_action_async(action_json)], for an [action_json] that names
    one of the actions of this development and gives its [params]. *)
Definition handle_action_async (action : action_name) (params : dict) : M dict :=
  try_except (execute_action action params)
    (fun e => ret {[ "error" := VStr ("Playwright execution error: " +:+ exn_str e);
                     "traceback" := VStr (exn_str e) ]}).

End PlaywrightApp.

(* ===================================================================== *)
(** ** [handler.py]: the batch runner [execute_test_steps] *)
(* ===================================================================== *)

Module Batch.

Import PlaywrightHandler.
Local Open Scope handler_scope.

(** One element of the [steps] array of the batch that is a dict: it names
    an action among those of this development, gives its parameters (a
    dict) and, possibly, a description. *)
Record batch_step : Type := {
  step_action : action_name;
  step_params : dict;
  step_description : option pyval
}.

(** An element of [steps]: such a dict, or a value that is not a dict, on
    which [step.get] raises. *)
Inductive item : Type :=
| DictItem (st : batch_step)
| OtherItem.

Definition is_dict (x : item) : Prop :=
  match x with DictItem _ => True | OtherItem => False end.

Definition entry (i : nat) (description : pyval) (st : batch_step)
    (outcome : dict + exn) : dict :=
  match outcome with
  | inl result =>
      {[ "step_number" := VInt (Z.of_nat i + 1);
         "description" := description;
         "action" := VStr (name (step_action st));
         "result" := VDict result;
         "status" := VStr (if Py.truthy (Py.get result "success") then "passed"
                           else "failed") ]}
  | inr e =>
      {[ "step_number" := VInt (Z.of_nat i + 1);
         "description" := description;
         "action" := VStr (name (step_action st));
         "error" := VStr (exn_str e);
         "status" := VStr "failed" ]}
  end.

Definition succeeded (outcome : dict + exn) : bool :=
  match outcome with
  | inl result => Py.truthy (Py.get result "success")
  | inr _ => false
  end.

(** The loop over the steps: the list [results] and the flag [failed].
    The reads [step.get(...)] stand before the [try] of the loop. *)
Fixpoint run_steps (stop_on_failure : bool) (i : nat) (steps : list item)
    (results : list dict) (failed : bool) : M (list dict * bool) :=
  match steps with
  | [] => ret (results, failed)
  | OtherItem :: _ => raise (AttributeError "object has no attribute 'get'")
  | DictItem st :: rest =>
      let! description :=
        (match step_description st with
         | Some d => ret d
         | None => let! n := format (VInt (Z.of_nat i + 1)) in ret (VStr ("Step " +:+ n))
         end) in
      let! outcome :=
        try_except
          (let! result := execute_action (step_action st) (step_params st) in
           ret (inl result))
          (fun e => ret (inr e)) in
      let results := results ++ [entry i description st outcome] in
      if succeeded outcome then run_steps stop_on_failure (S i) rest results failed
      else if stop_on_failure then ret (results, true)
      else run_steps stop_on_failure (S i) rest results true
  end.

Definition has_status (status : string) (r : dict) : bool :=
  Py.eq_str (Py.get r "status") status.

(** The branch [execute_test_steps] of [execute_action], for an array
    [steps]; [logs] is the content of the log buffer when the batch
    ends. *)
Definition branch_execute_test_steps (steps : list item) (params : dict) (logs : pyval)
    : M dict :=
  match steps with
  | [] => ret {[ "error" := VStr "steps array is required for execute_test_steps action" ]}
  | _ =>
      let! r := run_steps (Py.truthy (Py.get_or params "stop_on_failure" (VBool true)))
                  0 steps [] false in
      let '(results, failed) := r in
      let! c := get_cls in
      let! timestamp := iso_now in
      ret {[ "success" := VBool (negb failed);
             "action" := VStr "execute_test_steps";
             "test_name" := Py.get_or params "test_name" (VStr "unnamed_test");
             "total_steps" := VInt (Z.of_nat (length steps));
             "executed_steps" := VInt (Z.of_nat (length results));
             "passed_steps" := VInt (Z.of_nat (length (filter (has_status "passed") results)));
             "failed_steps" := VInt (Z.of_nat (length (filter (has_status "failed") results)));
             "results" := VList (VDict <$> results);
             "logs" := logs;
             "screenshot_directory" := VStr (default "None" (_screenshot_dir c));
             "timestamp" := timestamp ]}
  end.

(** The two [except] clauses of [execute_action], for this action. *)
Definition on_error (e : exn) : M dict :=
  match e with
  | TimeoutError msg =>
      let! screenshot := take_screenshot "timeout_error_execute_test_steps" in
      let! timestamp := iso_now in
      ret {[ "error" := VStr ("Timeout error during execute_test_steps: " +:+ msg);
             "screenshot" := VStr screenshot;
             "timestamp" := timestamp ]}
  | _ =>
      let! screenshot := take_screenshot "error_execute_test_steps" in
      let! timestamp := iso_now in
      ret {[ "error" := VStr ("Error during execute_test_steps: " +:+ exn_str e);
             "screenshot" := VStr screenshot;
             "timestamp" := timestamp ]}
  end.

(** [execute_action("execute_test_steps", params)]: the browser is
    initialised, the branch is run, and what either raises is turned into
    an error result. *)
Definition execute_test_steps (steps : list item) (params : dict) (logs : pyval)
    : M dict :=
  try_except
    (let! page := initialize_browser (Py.get_or params "headless" (VBool true))
                    (Py.get_or params "browser_type" (VStr "chromium")) in
     branch_execute_test_steps steps params logs)
    on_error.

(** The two shapes of the result of a batch: an error result without
    counts, and a result whose counts add up. *)
Definition aborted (d : dict) : Prop :=
  is_Some (d !! "error") /\ d !! "success" = None /\ d !! "total_steps" = None.

Definition counted (steps : list item) (params : dict) (d : dict) : Prop :=
  exists executed passed failed,
    d !! "total_steps" = Some (VInt (Z.of_nat (length steps)))
    /\ d !! "executed_steps" = Some (VInt (Z.of_nat executed))
    /\ d !! "passed_steps" = Some (VInt (Z.of_nat passed))
    /\ d !! "failed_steps" = Some (VInt (Z.of_nat failed))
    /\ d !! "success" = Some (VBool (failed =? 0))
    /\ passed + failed = executed
    /\ executed <= length steps
    /\ (Py.truthy (Py.get_or params "stop_on_failure" (VBool true)) = false ->
        executed = length steps)
    /\ (Py.truthy (Py.get_or params "stop_on_failure" (VBool true)) = true ->
        failed <= 1 /\ (failed = 0 -> executed = length steps)).

End Batch.

Module Sample3.

(** A batch of three steps whose second step times out. *)
Definition batch : list Batch.item :=
  [ Batch.DictItem
      {| Batch.step_action := PlaywrightHandler.navigate;
         Batch.step_params := {[ "url" := VStr "http://example.test/" ]};
         Batch.step_description := Some (VStr "open the site") |};
    Batch.DictItem
      {| Batch.step_action := PlaywrightHandler.fill;
         Batch.step_params := Sample2.params_fill;
         Batch.step_description := None |};
    Batch.DictItem
      {| Batch.step_action := PlaywrightHandler.click;
         Batch.step_params := {[ "text" := VStr "Save" ]};
         Batch.step_description := None |} ].

End Sample3.

(* ===================================================================== *)
(** ** Observations on the interpreters *)
(* ===================================================================== *)

Module Observe.

(** The [href] values an event contributes to [links]: those of an [a]
    start tag, in the order of its attributes. *)
Definition hrefs_of (e : Html.event) : list (option string) :=
  match e with
  | Html.StartTag tag attrs =>
      if String.eqb tag "a"
      then snd <$> List.filter (fun av => String.eqb (fst av) "href") attrs
      else []
  | Html.Data _ => []
  end.

Definition data_of (e : Html.event) : list string :=
  match e with
  | Html.Data d => [d]
  | Html.StartTag _ _ => []
  end.

(** What a document shows, read off the events of its parse and not off
    the parser object: the targets of its hyperlinks, and its visible
    text (the raw text when the parse failed). *)
Definition hyperlinks (doc : Html.fed) : list (option string) :=
  flat_map hrefs_of (Html.events doc).

Definition visible_text (raw : string) (doc : Html.fed) : string :=
  if Html.raised doc then raw
  else Py.strip (Py.join " " (flat_map data_of (Html.events doc))).

(** The first hyperlink of a document, if it has one, has a non-empty
    target. *)
Definition first_link_usable (links : list (option string)) : bool :=
  match links with
  | [] => true
  | Some target :: _ => Py.str_truthy target
  | None :: _ => false
  end.

(** [a] occurs in [s] between [pre] and [post]. *)
Definition occurs_in (a s : string) : Prop := exists pre post, s = pre +:+ a +:+ post.

(** The text and the expected result of a step on the AI path. *)
Definition ai_step_text (str_of_dict : gmap string string -> string) (d : gmap string string)
    : string :=
  RuleBased.str_or (RuleBased.field d "content")
    (RuleBased.str_or (RuleBased.field d "step") (str_of_dict d)).

Definition ai_expected (d : gmap string string) : string :=
  RuleBased.str_or (RuleBased.field d "expected") (RuleBased.field d "expected_result").

(** What an iteration of the execution loop sends after the validation:
    the step record, the screenshot record if the answer of the handler
    has a screenshot, and the status of the step. *)
Definition recording (str_of : pyval -> string) (idx : nat) (action : dict)
    (exec_result : Server.answer) (validation_passed validation_message : pyval)
    (status : string) : list Server.event :=
  [ Server.CreateTestStep (idx + 1)
      {[ "description" := Py.get_or action "description" (VStr (str_of (VDict action)));
         "action_type" := Py.get action "action";
         "status" := VStr status;
         "error_message" := (if Py.truthy validation_passed then VNone
                             else validation_message);
         "screenshot_path" := VStr (Server.screenshot exec_result) ]} ]
  ++ (if Py.str_truthy (Server.screenshot exec_result)
      then [Server.CreateScreenshot (idx + 1) (VStr (Server.screenshot exec_result))]
      else [])
  ++ [ Server.Broadcast {[ "type" := VStr "step";
                           "status" := VStr (if String.eqb status "PASSED" then "success"
                                             else "failed") ]} ].

(** The step numbers of the step records created by a run, in order. *)
Definition created_steps (events : list Server.event) : list nat :=
  flat_map (fun e => match e with Server.CreateTestStep n _ => [n] | _ => [] end) events.

(** The number of step records created with the given status. *)
Definition records_with (status : string) (events : list Server.event) : nat :=
  length (List.filter
            (fun e => match e with
                      | Server.CreateTestStep _ fields => Py.eq_str (Py.get fields "status") status
                      | _ => false
                      end) events).

(** The prompts a model is asked about by [interpret_step]: they list at
    most three previous actions. *)
Definition short_prompt (p : AIInterpreter.prompt) : bool :=
  length (AIInterpreter.p_previous_actions p) <=? 3.

End Observe.

Module Sample5.

(** A step whose hyperlink has an empty target, while its text names the
    page. *)
Definition empty_link : string :=
  "Open <a href=''>portal</a> at http://example.test/login".

(** What [html.parser] delivers for [empty_link]; [Sample.feed] for the
    other texts. *)
Definition feed (s : string) : Html.fed :=
  if String.eqb s empty_link then
    {| Html.events := [ Html.Data "Open ";
                        Html.StartTag "a" [("href", Some "")];
                        Html.Data "portal";
                        Html.Data " at http://example.test/login" ];
       Html.raised := false |}
  else Sample.feed s.

End Sample5.

Module Sample4.

(** A model that answers every request with a click, as long as the
    prompt lists at most three previous actions. *)
Definition click_reply : pyval :=
  VDict {[ "action" := VStr "click";
           "params" := VDict {[ "text" := VStr "Next" ]};
           "confidence" := VFloat 0.9 ]}.

Definition complete_short (k : nat) (p : AIInterpreter.prompt) : res pyval :=
  if Observe.short_prompt p then Ok click_reply
  else Raise (Exception "context length exceeded").

Definition complete_always (k : nat) (p : AIInterpreter.prompt) : res pyval := Ok click_reply.

(** Five steps, so that the context grows beyond three actions. *)
Definition five_steps : list step :=
  [ Sample.step_of "Click Next"; Sample.step_of "Click Next"; Sample.step_of "Click Next";
    Sample.step_of "Click Next"; Sample.step_of "Click Next" ].

(** A test case whose steps are plain strings. *)
Definition plain_steps : list step :=
  [ Sample.step_of "Open the page"; OtherStep "Click Next" ].

(** The steps of a test case, as the test-case source delivers them. *)
Definition two_steps : pyval :=
  VList [ VDict {[ "content" := VStr "Navigate to http://example.test/login" ]};
          VDict {[ "content" := VStr "Click `Sign In`" ]} ].

Definition two_actions : list dict :=
  [ Action.navigate "http://example.test/login" "Navigate to http://example.test/login" "";
    Action.click "Sign In" "Click `Sign In`" "" ].

Definition idle : Server.state := {| Server.events := []; Server.playwright_calls := 0 |}.

Definition interpreted : Server.state :=
  {| Server.events := [ Server.SendProgress "ai_processing" 40;
                        Server.SendProgress "ai_processing" 50 ];
     Server.playwright_calls := 0 |}.

(** The state after the test case [Sample.case_without_steps] has been
    fetched. *)
Definition fetched : Server.state :=
  {| Server.events := [ Server.SendProgress "fetching" 20;
                        Server.UpdateTestRun {[ "test_name" := VStr "Login";
                                                "total_steps" := VInt 1 ]} ];
     Server.playwright_calls := 0 |}.

End Sample4.

(* ===================================================================== *)
(** * Properties *)
(* ===================================================================== *)

(** ** Strings and patterns *)

(* [simpl] may unfold a concatenation whose first argument is known. *)
Arguments String.append !s1 s2 : simpl nomatch.

Section PatternFacts.

Lemma prefix_app (p s : string) :
  String.prefix p s = true -> exists r, s = p +:+ r.
Proof.
  revert s; induction p as [|c p IH]; intros s H.
  - exists s; reflexivity.
  - destruct s as [|a s]; simpl in H; [discriminate|].
    revert H. destruct (ascii_dec c a) as [->|]; [|done].
    intros H. destruct (IH _ H) as [r ->]. exists r; reflexivity.
Qed.

Lemma match_at_One cls p s m :
  Re.match_at (Re.One cls :: p) s = Some m ->
  exists a s' m', s = String a s' /\ cls a = true /\ m = String a m'
                  /\ Re.match_at p s' = Some m'.
Proof.
  simpl. destruct s as [|a s']; [discriminate|].
  destruct (cls a) eqn:E; [|discriminate].
  destruct (Re.match_at p s') as [m'|] eqn:E'; [|discriminate].
  intros [= <-]. eauto 10.
Qed.

Lemma match_at_chr c p s m :
  Re.match_at (Re.One (Re.chr c) :: p) s = Some m ->
  exists s' m', s = String c s' /\ m = String c m' /\ Re.match_at p s' = Some m'.
Proof.
  intros H. apply match_at_One in H as (a & s' & m' & -> & Ha & -> & H).
  unfold Re.chr in Ha. apply Ascii.eqb_eq in Ha as <-. eauto.
Qed.

Lemma match_at_Opt cls p s m :
  Re.match_at (Re.Opt cls :: p) s = Some m ->
  (exists a s' m', s = String a s' /\ cls a = true /\ m = String a m'
                   /\ Re.match_at p s' = Some m')
  \/ Re.match_at p s = Some m.
Proof.
  simpl. destruct s as [|a s']; [auto|].
  destruct (cls a) eqn:E; [|auto].
  destruct (Re.match_at p s') as [m'|] eqn:E'; [|auto].
  intros [= <-]. left. eauto 10.
Qed.

(** What a final [+] matches: a non-empty run of the class, which is a
    prefix of the text and cannot be extended. *)
Lemma match_at_Plus_last cls s m :
  Re.match_at [Re.Plus cls] s = Some m ->
  m <> "" /\ Py.all_in cls m = true /\
  exists r, s = m +:+ r /\ match r with String a _ => cls a = false | EmptyString => True end.
Proof.
  simpl. revert m. induction s as [|a s' IH]; intros m; [discriminate|].
  destruct (cls a) eqn:E; [|discriminate].
  match goal with |- context [match ?f s' with _ => _ end] => destruct (f s') as [r|] eqn:E' end.
  - intros [= <-]. destruct (IH r eq_refl) as (Hne & Hall & r' & -> & Hr').
    split; [discriminate|]. split; [simpl; rewrite E; exact Hall|].
    exists r'. split; [reflexivity | exact Hr'].
  - simpl. intros [= <-]. split; [discriminate|]. split; [simpl; rewrite E; reflexivity|].
    exists s'. split; [reflexivity|].
    destruct s' as [|b s'']; [exact I|].
    destruct (cls b) eqn:Eb; [|reflexivity].
    exfalso. revert E'. simpl. rewrite ?Eb.
    match goal with |- context [match ?f s'' with _ => _ end] => destruct (f s'') end; discriminate.
Qed.

(** The shape of a match of [(https?://[^/]+)]. *)
Lemma base_pattern_shape u m :
  Re.match_ Re.base_pattern u = Some m ->
  exists scheme host rest,
    (scheme = "http://" \/ scheme = "https://") /\
    host <> "" /\ Py.all_in Re.not_slash host = true /\
    m = scheme +:+ host /\ u = m +:+ rest /\
    match rest with String a _ => a = "/"%char | EmptyString => True end.
Proof.
  unfold Re.match_, Re.base_pattern. simpl app.
  intros H.
  apply match_at_chr in H as (s1 & m1 & -> & -> & H).
  apply match_at_chr in H as (s2 & m2 & -> & -> & H).
  apply match_at_chr in H as (s3 & m3 & -> & -> & H).
  apply match_at_chr in H as (s4 & m4 & -> & -> & H).
  assert (Htail : forall s m, Re.match_at (Re.lit "://" ++ [Re.Plus Re.not_slash]) s = Some m ->
            exists host rest, host <> "" /\ Py.all_in Re.not_slash host = true /\
              m = "://" +:+ host /\ s = m +:+ rest /\
              match rest with String a _ => a = "/"%char | EmptyString => True end).
  { clear. intros s m H. simpl app in H.
    apply match_at_chr in H as (s1 & m1 & -> & -> & H).
    apply match_at_chr in H as (s2 & m2 & -> & -> & H).
    apply match_at_chr in H as (s3 & m3 & -> & -> & H).
    apply match_at_Plus_last in H as (Hne & Hall & r & -> & Hr).
    exists m3, r. repeat split; try assumption.
    destruct r as [|a r]; [exact I|].
    unfold Re.not_slash in Hr. apply negb_false_iff in Hr.
    apply Ascii.eqb_eq in Hr. exact Hr. }
  apply match_at_Opt in H as [(a & s' & m' & -> & Ha & -> & H)|H].
  - unfold Re.chr in Ha. apply Ascii.eqb_eq in Ha as <-.
    apply Htail in H as (host & rest & Hne & Hall & -> & -> & Hr).
    exists "https://", host, rest. repeat split; auto.
  - apply Htail in H as (host & rest & Hne & Hall & -> & -> & Hr).
    exists "http://", host, rest. repeat split; auto.
Qed.

Lemma rstrip_char_app_keep ch s t :
  t <> "" -> Py.rstrip_char ch t = t -> Py.rstrip_char ch (s +:+ t) = s +:+ t.
Proof.
  intros Hne Ht. induction s as [|c s IH]; [exact Ht|].
  change (String c s +:+ t) with (String c (s +:+ t)).
  cbn [Py.rstrip_char]. rewrite IH.
  destruct (s +:+ t) eqn:E; [|reflexivity].
  destruct s; simpl in E; [congruence | discriminate].
Qed.

Lemma rstrip_char_all_not ch t :
  Py.all_in (fun c => negb (Ascii.eqb c ch)) t = true -> Py.rstrip_char ch t = t.
Proof.
  induction t as [|c t IH]; [reflexivity|].
  simpl. intros H. apply andb_true_iff in H as [Hc Ht].
  rewrite (IH Ht). destruct t; [|reflexivity].
  apply negb_true_iff in Hc. rewrite Hc. reflexivity.
Qed.

(** A matched base url is not empty and does not end with a slash:
    [base_url.rstrip('/')] leaves it as it is. *)
Lemma base_pattern_rstrip u m :
  Re.match_ Re.base_pattern u = Some m ->
  m <> "" /\ Py.rstrip_char "/" m = m.
Proof.
  intros H. apply base_pattern_shape in H
    as (scheme & host & rest & Hs & Hne & Hall & -> & _ & _).
  split.
  - destruct Hs as [-> | ->]; discriminate.
  - apply rstrip_char_app_keep; [exact Hne|].
    apply rstrip_char_all_not. exact Hall.
Qed.

End PatternFacts.

(** ** The rule-based interpreter *)

Arguments Re.match_ : simpl never.
Arguments Re.search : simpl never.

Lemma navigate_url_navigate u d e : navigate_url (Action.navigate u d e) = Some u.
Proof. reflexivity. Qed.

Lemma navigate_url_click t d e : navigate_url (Action.click t d e) = None.
Proof. reflexivity. Qed.

Lemma navigate_url_wait d e : navigate_url (Action.wait d e) = None.
Proof. reflexivity. Qed.

Section RuleBasedFacts.

Variable feed : string -> Html.fed.
Variable str_of_dict : gmap string string -> string.

Local Abbreviation interpret_one := (RuleBased.interpret_one feed str_of_dict).
Local Abbreviation loop := (RuleBased.loop feed str_of_dict).
Local Abbreviation interpret := (RuleBased.interpret feed str_of_dict).
Local Abbreviation base_url_after := (RuleBased.base_url_after feed str_of_dict).

(** The loop only appends to the list it is given. *)
Lemma loop_acc b acc steps :
  loop b acc steps = (fst (loop b [] steps), acc ++ snd (loop b [] steps)).
Proof.
  revert b acc. induction steps as [|st rest IH]; intros b acc; simpl.
  - by rewrite app_nil_r.
  - destruct (interpret_one b st) as [b' a].
    rewrite (IH b' (acc ++ [a])), (IH b' [a]). simpl.
    by rewrite <- app_assoc.
Qed.

Lemma loop_cons b st rest :
  loop b [] (st :: rest) =
    (fst (loop (fst (interpret_one b st)) [] rest),
     snd (interpret_one b st) :: snd (loop (fst (interpret_one b st)) [] rest)).
Proof.
  simpl. destruct (interpret_one b st) as [b' a]. simpl. by rewrite loop_acc.
Qed.

Lemma loop_app b l1 l2 :
  loop b [] (l1 ++ l2) =
    (fst (loop (fst (loop b [] l1)) [] l2),
     snd (loop b [] l1) ++ snd (loop (fst (loop b [] l1)) [] l2)).
Proof.
  revert b. induction l1 as [|st l1 IH]; intros b.
  - simpl. by destruct (loop b [] l2).
  - rewrite <- app_comm_cons, !loop_cons, IH. reflexivity.
Qed.

Lemma loop_length b steps : length (snd (loop b [] steps)) = length steps.
Proof.
  revert b. induction steps as [|st rest IH]; intros b; [reflexivity|].
  rewrite loop_cons. simpl. by rewrite IH.
Qed.

(** Every action of the result is the action of its step, interpreted
    with the base url left by the steps before it. *)
Lemma interpret_lookup pre st rest :
  interpret (pre ++ st :: rest) !! length pre
  = Some (snd (interpret_one (base_url_after pre) st)).
Proof.
  unfold RuleBased.interpret, RuleBased.base_url_after.
  rewrite loop_app. cbn [snd].
  rewrite lookup_app_r; rewrite loop_length; [|lia].
  rewrite Nat.sub_diag, loop_cons. reflexivity.
Qed.

Lemma interpret_elem a steps :
  a ∈ interpret steps -> exists b st, st ∈ steps /\ a = snd (interpret_one b st).
Proof.
  unfold RuleBased.interpret. generalize (@None string).
  induction steps as [|st rest IH]; intros b.
  - simpl. intros H. by apply elem_of_nil in H.
  - rewrite loop_cons. cbn [snd]. intros [->|H]%elem_of_cons.
    + exists b, st. split; [left|reflexivity].
    + destruct (IH _ H) as (b' & st' & Hin & ->).
      exists b', st'. split; [by right|reflexivity].
Qed.

(** The three shapes of an action. *)
Lemma interpret_one_kind b st :
  let a := snd (interpret_one b st) in
  let d := Py.take 100 (RuleBased.clean_text feed str_of_dict st) in
  let e := RuleBased.expected_result st in
  (exists u, u <> "" /\ a = Action.navigate u d e)
  \/ (exists t, a = Action.click t d e)
  \/ a = Action.wait d e.
Proof.
  unfold RuleBased.interpret_one. cbv zeta.
  destruct (RuleBased.is_navigation _).
  - destruct (RuleBased.resolve_url _ _ _ _) as [u|]; simpl RuleBased.opt_truthy.
    + unfold Py.str_truthy. destruct (String.eqb_spec u ""); simpl; [by auto|].
      left. by exists u.
    + by auto.
  - destruct (RuleBased.is_click _); [|by auto].
    destruct (Re.search _ _); simpl; [right; left; eauto | auto].
Qed.

Lemma save_base_url_tidy b u : tidy b -> tidy (RuleBased.save_base_url b u).
Proof.
  intros Hb. unfold RuleBased.save_base_url.
  destruct (_ && _); [|exact Hb].
  destruct (Re.match_ Re.base_pattern u) as [m|] eqn:E; [|exact Hb].
  exact (base_pattern_rstrip _ _ E).
Qed.

Lemma interpret_one_tidy b st : tidy b -> tidy (fst (interpret_one b st)).
Proof.
  intros Hb. unfold RuleBased.interpret_one. cbv zeta.
  destruct (RuleBased.is_navigation _).
  - destruct (RuleBased.opt_truthy (RuleBased.resolve_url _ _ _ _)); simpl; [|exact Hb].
    by apply save_base_url_tidy.
  - destruct (RuleBased.is_click _); [|exact Hb].
    destruct (Re.search _ _); exact Hb.
Qed.

Lemma loop_tidy b steps : tidy b -> tidy (fst (loop b [] steps)).
Proof.
  revert b. induction steps as [|st rest IH]; intros b Hb; [exact Hb|].
  rewrite loop_cons. cbn [fst]. apply IH. by apply interpret_one_tidy.
Qed.

Lemma base_url_after_tidy steps : tidy (base_url_after steps).
Proof. apply loop_tidy. exact I. Qed.

Lemma tidy_truthy b s : tidy b -> b = Some s -> RuleBased.opt_truthy b = true.
Proof.
  intros Hb ->. destruct Hb as [Hne _]. simpl. unfold Py.str_truthy.
  by destruct (String.eqb_spec s "").
Qed.

(** Once the base url is truthy, no step changes it. *)
Lemma save_base_url_keeps b u :
  RuleBased.opt_truthy b = true -> RuleBased.save_base_url b u = b.
Proof. intros H. unfold RuleBased.save_base_url. by rewrite H. Qed.

Lemma interpret_one_keeps b st :
  RuleBased.opt_truthy b = true -> fst (interpret_one b st) = b.
Proof.
  intros Hb. unfold RuleBased.interpret_one. cbv zeta.
  destruct (RuleBased.is_navigation _).
  - destruct (RuleBased.opt_truthy (RuleBased.resolve_url _ _ _ _)); simpl; [|reflexivity].
    by apply save_base_url_keeps.
  - destruct (RuleBased.is_click _); [|reflexivity].
    by destruct (Re.search _ _).
Qed.

Lemma loop_keeps b steps :
  RuleBased.opt_truthy b = true -> fst (loop b [] steps) = b.
Proof.
  revert b. induction steps as [|st rest IH]; intros b Hb; [reflexivity|].
  rewrite loop_cons. cbn [fst]. rewrite interpret_one_keeps by exact Hb. by apply IH.
Qed.

(** A pattern that starts with the letters of [http] only matches
    strings that start with them. *)
Lemma base_pattern_startswith u m :
  Re.match_ Re.base_pattern u = Some m -> Py.startswith "http" u = true.
Proof.
  intros H. apply base_pattern_shape in H
    as (scheme & host & rest & Hs & _ & _ & -> & -> & _).
  by destruct Hs as [-> | ->].
Qed.

(** The update of the base url, read off the action of the step. *)
Lemma interpret_one_sets b st :
  RuleBased.opt_truthy b = false ->
  fst (interpret_one b st) =
    match navigate_url (snd (interpret_one b st)) with
    | Some u => match Re.match_ Re.base_pattern u with Some m => Some m | None => b end
    | None => b
    end.
Proof.
  intros Hb. unfold RuleBased.interpret_one. cbv zeta.
  destruct (RuleBased.is_navigation _).
  - destruct (RuleBased.resolve_url _ _ _ _) as [u|]; cbn [RuleBased.opt_truthy].
    + destruct (Py.str_truthy u); cbn [fst snd from_option id]; [|by rewrite navigate_url_wait].
      rewrite navigate_url_navigate.
      unfold RuleBased.save_base_url. rewrite Hb. cbn [negb andb].
      destruct (Re.match_ Re.base_pattern u) as [m|] eqn:E.
      * by rewrite (base_pattern_startswith _ _ E).
      * by destruct (Py.startswith "http" u).
    + cbn [fst snd]. by rewrite navigate_url_wait.
  - destruct (RuleBased.is_click _); [|cbn [fst snd]; by rewrite navigate_url_wait].
    destruct (Re.search _ _); cbn [fst snd];
      by rewrite ?navigate_url_wait, ?navigate_url_click.
Qed.

End RuleBasedFacts.
(** ** The parser of the steps *)

Lemma stripper_run f : forall self,
  Html.text (fold_left Html.dispatch f self)
    = Html.text self ++ flat_map Observe.data_of f
  /\ Html.links (fold_left Html.dispatch f self)
    = Html.links self ++ flat_map Observe.hrefs_of f.
Proof.
  induction f as [|e rest IH]; intros self; simpl.
  - by rewrite !app_nil_r.
  - destruct (IH (Html.dispatch self e)) as [-> ->].
    destruct e as [d|tag attrs]; simpl.
    + by rewrite <- app_assoc.
    + unfold Html.handle_starttag. destruct (String.eqb tag "a"); simpl.
      * assert (H : forall acc,
                  Html.text (fold_left
                     (fun (acc : Html.HTMLStripper) (av : string * option string) =>
                        if String.eqb (fst av) "href"
                        then {| Html.text := Html.text acc;
                                Html.links := Html.links acc ++ [snd av] |}
                        else acc) attrs acc) = Html.text acc
                  /\ Html.links (fold_left
                     (fun (acc : Html.HTMLStripper) (av : string * option string) =>
                        if String.eqb (fst av) "href"
                        then {| Html.text := Html.text acc;
                                Html.links := Html.links acc ++ [snd av] |}
                        else acc) attrs acc)
                     = Html.links acc
                       ++ (snd <$> List.filter (fun av => String.eqb (fst av) "href") attrs)).
        { clear. induction attrs as [|av attrs IHa]; intros acc; simpl.
          - by rewrite app_nil_r.
          - destruct (IHa (if String.eqb (fst av) "href"
                           then {| Html.text := Html.text acc;
                                   Html.links := Html.links acc ++ [snd av] |}
                           else acc)) as [-> ->].
            destruct (String.eqb (fst av) "href"); simpl; [|done].
            by rewrite <- app_assoc. }
        destruct (H self) as [-> ->]. by rewrite <- app_assoc.
      * done.
Qed.

Section Documents.

Variable feed : string -> Html.fed.
Variable str_of_dict : gmap string string -> string.

(** The links and the clean text the rule-based path works with are the
    hyperlinks and the visible text of the document. *)
Lemma stripper_links st :
  Html.links (RuleBased.stripper feed str_of_dict st)
  = Observe.hyperlinks (feed (RuleBased.step_text str_of_dict st)).
Proof.
  unfold RuleBased.stripper, Html.run, Observe.hyperlinks.
  by destruct (stripper_run (Html.events (feed (RuleBased.step_text str_of_dict st))) Html.new)
    as [_ ->].
Qed.

Lemma clean_text_visible st :
  RuleBased.clean_text feed str_of_dict st
  = Observe.visible_text (RuleBased.step_text str_of_dict st)
      (feed (RuleBased.step_text str_of_dict st)).
Proof.
  unfold RuleBased.clean_text, RuleBased.stripper, Html.run, Observe.visible_text.
  by destruct (stripper_run (Html.events (feed (RuleBased.step_text str_of_dict st))) Html.new)
    as [-> _].
Qed.

End Documents.

(** ** Claims on the rule-based path *)

(** A match of a pattern that starts with one character is not empty;
    so every url the three tiers resolve is non-empty. *)
Lemma search_One_nonempty cls p s m :
  Re.search (Re.One cls :: p) s = Some m -> m <> "".
Proof.
  induction s as [|a s IH].
  - change (Re.search (Re.One cls :: p) "") with (@None string). discriminate.
  - change (Re.search (Re.One cls :: p) (String a s))
      with (match Re.match_at (Re.One cls :: p) (String a s) with
            | Some r => Some r
            | None => Re.search (Re.One cls :: p) s
            end).
    destruct (Re.match_at (Re.One cls :: p) (String a s)) as [r|] eqn:E; [|exact IH].
    intros [= <-]. apply match_at_One in E as (? & ? & ? & _ & _ & -> & _). discriminate.
Qed.

Lemma url_by_priority_nonempty links raw visible b u :
  url_by_priority links raw visible b = Some u -> Py.str_truthy u = true.
Proof.
  unfold url_by_priority, first_target.
  assert (Hne : forall v, v <> "" -> Py.str_truthy v = true).
  { intros v Hv. unfold Py.str_truthy. by destruct (String.eqb_spec v ""). }
  destruct links as [|[target|] links].
  2:{ destruct (Py.str_truthy target) eqn:Ht; [by intros [= <-]|]. revert u. clear Ht.
      change (forall u, match Re.search Re.url_pattern raw with
                        | Some u0 => Some u0
                        | None => match Re.search Re.path_pattern visible with
                                  | Some p => Some match b with
                                                   | Some b0 => b0 +:+ p
                                                   | None => p
                                                   end
                                  | None => None
                                  end
                        end = Some u -> Py.str_truthy u = true).
      intros u.
      destruct (Re.search Re.url_pattern raw) as [v|] eqn:E.
      - intros [= <-]. apply Hne. exact (search_One_nonempty _ _ _ _ E).
      - destruct (Re.search Re.path_pattern visible) as [q|] eqn:Eq; [|discriminate].
        intros [= <-]. apply Hne. apply search_One_nonempty in Eq.
        destruct b as [b0|]; [|exact Eq]. destruct b0; [exact Eq | discriminate]. }
  all: destruct (Re.search Re.url_pattern raw) as [v|] eqn:E;
    [ intros [= <-]; apply Hne; exact (search_One_nonempty _ _ _ _ E)
    | destruct (Re.search Re.path_pattern visible) as [q|] eqn:Eq; [|discriminate];
      intros [= <-]; apply Hne; apply search_One_nonempty in Eq;
      destruct b as [b0|]; [|exact Eq]; destruct b0; [exact Eq | discriminate] ].
Qed.

Section RuleBasedClaims.

Variable feed : string -> Html.fed.
Variable str_of_dict : gmap string string -> string.

Local Abbreviation interpret_one := (RuleBased.interpret_one feed str_of_dict).
Local Abbreviation interpret := (RuleBased.interpret feed str_of_dict).
Local Abbreviation base_url_after := (RuleBased.base_url_after feed str_of_dict).
Local Abbreviation clean_text := (RuleBased.clean_text feed str_of_dict).
Local Abbreviation step_text := (RuleBased.step_text str_of_dict).
Local Abbreviation stripper := (RuleBased.stripper feed str_of_dict).

(** With a tidy base url and a first hyperlink that is usable, the code
    resolves the url in the order of the specification; with a first
    hyperlink that has no target or an empty one, it resolves none. *)
Lemma resolve_url_priority b st :
  tidy b ->
  let links := Observe.hyperlinks (feed (step_text st)) in
  let visible := Observe.visible_text (step_text st) (feed (step_text st)) in
  (Observe.first_link_usable links = true ->
   RuleBased.resolve_url feed str_of_dict b st
   = url_by_priority links (step_text st) visible b)
  /\ (Observe.first_link_usable links = false ->
      RuleBased.opt_truthy (RuleBased.resolve_url feed str_of_dict b st) = false).
Proof.
  intros Hb. cbv zeta. unfold RuleBased.resolve_url, url_by_priority, first_target.
  rewrite stripper_links, clean_text_visible.
  destruct (Observe.hyperlinks _) as [|[target|] links]; cbn [Observe.first_link_usable].
  - split; [intros _|discriminate].
    destruct (Re.search Re.url_pattern _); [reflexivity|].
    destruct (Re.search Re.path_pattern _) as [p|]; [|reflexivity].
    destruct b as [s|]; [|reflexivity].
    destruct Hb as [Hne Hs]. cbn [RuleBased.opt_truthy from_option id].
    unfold Py.str_truthy. destruct (String.eqb_spec s ""); [done|].
    cbn [negb]. by rewrite Hs.
  - split; [by intros ->|]. intros H. cbn [RuleBased.opt_truthy]. exact H.
  - split; [discriminate | reflexivity].
Qed.

(** The action of a navigation step, in terms of the document of the
    step. *)
Lemma navigation_action (pre : list step) (st : step) (rest : list step) :
  let raw := step_text st in
  let links := Observe.hyperlinks (feed raw) in
  let visible := Observe.visible_text raw (feed raw) in
  let description := Py.take 100 visible in
  let expected := RuleBased.expected_result st in
  RuleBased.is_navigation visible = true ->
  interpret (pre ++ st :: rest) !! length pre
  = Some (if Observe.first_link_usable links then
            match url_by_priority links raw visible (base_url_after pre) with
            | Some u => Action.navigate u description expected
            | None => Action.wait description expected
            end
          else Action.wait description expected).
Proof.
  cbv zeta. intros Hnav. rewrite interpret_lookup. f_equal.
  unfold RuleBased.interpret_one. cbv zeta.
  rewrite clean_text_visible, Hnav.
  destruct (resolve_url_priority (base_url_after pre) st (base_url_after_tidy _ _ _))
    as [Hyes Hno].
  destruct (Observe.first_link_usable _) eqn:Hl.
  - rewrite (Hyes eq_refl).
    destruct (url_by_priority _ _ _ _) as [u|] eqn:Hu;
      cbn [RuleBased.opt_truthy from_option id]; [|reflexivity].
    by rewrite (url_by_priority_nonempty _ _ _ _ _ Hu).
  - by rewrite (Hno eq_refl).
Qed.

Lemma navigate_url_nonempty (steps : list step) (a : dict) :
  a ∈ interpret steps -> a !! "action" = Some (VStr "navigate") ->
  exists u, u <> "" /\ a !! "params" = Some (VDict {[ "url" := VStr u ]}).
Proof.
  intros Ha Hact. apply interpret_elem in Ha as (b & st' & _ & ->).
  destruct (interpret_one_kind feed str_of_dict b st')
    as [(u & Hu & E) | [(t & E) | E]]; rewrite E in Hact |- *.
  - exists u. split; [exact Hu | reflexivity].
  - discriminate Hact.
  - discriminate Hact.
Qed.

(** C3.  The rule-based path produces exactly one action per step, in the
    order of the steps: a navigate, a click or a wait. *)
Theorem C3_one_action_per_step (steps : list step) :
  length (interpret steps) = length steps
  /\ (forall i st, steps !! i = Some st ->
        exists a, interpret steps !! i = Some a /\
          a = snd (interpret_one (base_url_after (take i steps)) st))
  /\ Forall (fun a => a !! "action" = Some (VStr "navigate")
                      \/ a !! "action" = Some (VStr "click")
                      \/ a !! "action" = Some (VStr "wait")) (interpret steps).
Proof.
  split; [apply loop_length|]. split.
  - intros i st Hi. eexists. split; [|reflexivity].
    assert (Hlen : length (take i steps) = i).
    { apply length_take_le. apply lookup_lt_Some in Hi. lia. }
    pose proof (interpret_lookup feed str_of_dict (take i steps) st (drop (S i) steps)) as H.
    rewrite take_drop_middle in H by exact Hi.
    rewrite Hlen in H. exact H.
  - apply Forall_forall. intros a Ha.
    apply interpret_elem in Ha as (b & st & _ & ->).
    destruct (interpret_one_kind feed str_of_dict b st)
      as [(u & _ & E) | [(t & E) | E]]; rewrite E; auto.
Qed.

End RuleBasedClaims.

(** C2.  The rule-based path does not resolve the url of a navigation step
    in the order of the specification on every step.  On a step whose
    first hyperlink has an empty target while its raw text holds an
    absolute url, tier (b) of the specification resolves that url, and
    the code emits a wait: it takes the first hyperlink target whatever it
    is and tries no other tier.  On every navigation step, a first
    hyperlink without usable target gives a wait of 1000 ms; on every
    other navigation step the action is the navigate to the url resolved
    in the order (a) first hyperlink target, (b) first absolute url of the
    raw text, (c) first relative path of the visible text, prefixed with
    the base url when one is set, and a wait of 1000 ms when no tier
    resolves a url.  No navigate action of a result carries an empty
    url. *)
Theorem C2_navigation_url_priority :
  (let raw := Sample5.empty_link in
   let doc := Sample5.feed raw in
   RuleBased.is_navigation (Observe.visible_text raw doc) = true
   /\ url_by_priority (Observe.hyperlinks doc) raw (Observe.visible_text raw doc) None
      = Some "http://example.test/login"
   /\ RuleBased.interpret Sample5.feed Sample.str_of_dict [Sample.step_of raw]
      = [Action.wait "Open  portal  at http://example.test/login" ""])
  /\ (forall feed str_of_dict (pre : list step) (st : step) (rest : list step),
        let raw := RuleBased.step_text str_of_dict st in
        let links := Observe.hyperlinks (feed raw) in
        let visible := Observe.visible_text raw (feed raw) in
        let description := Py.take 100 visible in
        let expected := RuleBased.expected_result st in
        RuleBased.is_navigation visible = true ->
        RuleBased.interpret feed str_of_dict (pre ++ st :: rest) !! length pre
        = Some (if Observe.first_link_usable links then
                  match url_by_priority links raw visible
                          (RuleBased.base_url_after feed str_of_dict pre) with
                  | Some u => Action.navigate u description expected
                  | None => Action.wait description expected
                  end
                else Action.wait description expected))
  /\ (forall feed str_of_dict (steps : list step) (a : dict),
        a ∈ RuleBased.interpret feed str_of_dict steps ->
        a !! "action" = Some (VStr "navigate") ->
        exists u, u <> "" /\ a !! "params" = Some (VDict {[ "url" := VStr u ]})).
Proof.
  split; [|split].
  - cbv zeta. split; [reflexivity|]. split; reflexivity.
  - intros feed str_of_dict pre st rest. apply navigation_action.
  - intros feed str_of_dict steps a. apply navigate_url_nonempty.
Qed.

(** Scenario A: the absolute url of the first step, then a click by text,
    then a relative path completed with the memoised base url, then a
    navigation keyword without any url. *)
Example scenario_A :
  RuleBased.interpret Sample.feed Sample.str_of_dict Sample.steps_A
  = [ Action.navigate "http://example.test/login" "Navigate to http://example.test/login" "";
      Action.click "Sign In" "Click `Sign In`" "";
      Action.navigate "http://example.test/abp" "Go to /abp page" "";
      Action.wait "Open the settings" "" ].
Proof. reflexivity. Qed.

Example scenario_link :
  RuleBased.interpret Sample.feed Sample.str_of_dict [Sample.step_of Sample.login_link]
  = [ Action.navigate "http://example.test/login" "Open  the login page" "" ].
Proof. reflexivity. Qed.

Lemma C2_witness :
  RuleBased.interpret Sample.feed Sample.str_of_dict Sample.steps_A !! 2
  = Some (Action.navigate "http://example.test/abp" "Go to /abp page" "").
Proof.
  exact (proj1 (proj2 C2_navigation_url_priority) Sample.feed Sample.str_of_dict
           [Sample.step_of "Navigate to http://example.test/login";
            Sample.step_of "Click `Sign In`"]
           (Sample.step_of "Go to /abp page")
           [Sample.step_of "Open the settings"] eq_refl).
Defined.

(** ** The AI interpreter *)

Lemma origin_tidy b : origin b -> tidy (Some b).
Proof.
  intros (scheme & host & Hs & Hne & Hall & ->). split.
  - destruct Hs as [-> | ->]; discriminate.
  - apply rstrip_char_app_keep; [exact Hne|].
    by apply rstrip_char_all_not.
Qed.

Lemma base_pattern_origin u m : Re.match_ Re.base_pattern u = Some m -> origin m.
Proof.
  intros H. apply base_pattern_shape in H
    as (scheme & host & rest & Hs & Hne & Hall & -> & _ & _).
  by exists scheme, host.
Qed.

Lemma origin_truthy b : origin b -> RuleBased.opt_truthy (Some b) = true.
Proof. intros H. exact (tidy_truthy _ _ (origin_tidy _ H) eq_refl). Qed.

Section RuleBasedOrigin.

Variable feed : string -> Html.fed.
Variable str_of_dict : gmap string string -> string.

Lemma interpret_one_origin b st :
  unset_or_origin b -> unset_or_origin (fst (RuleBased.interpret_one feed str_of_dict b st)).
Proof.
  intros Hb. unfold RuleBased.interpret_one. cbv zeta.
  destruct (RuleBased.is_navigation _).
  - destruct (RuleBased.opt_truthy (RuleBased.resolve_url _ _ _ _)); cbn [fst]; [|exact Hb].
    unfold RuleBased.save_base_url. destruct (_ && _); [|exact Hb].
    destruct (Re.match_ Re.base_pattern _) as [m|] eqn:E; [|exact Hb].
    exact (base_pattern_origin _ _ E).
  - destruct (RuleBased.is_click _); [|exact Hb].
    destruct (Re.search _ _); exact Hb.
Qed.

Lemma loop_origin b steps :
  unset_or_origin b -> unset_or_origin (fst (RuleBased.loop feed str_of_dict b [] steps)).
Proof.
  revert b. induction steps as [|st rest IH]; intros b Hb; [exact Hb|].
  rewrite loop_cons. cbn [fst]. apply IH. by apply interpret_one_origin.
Qed.

End RuleBasedOrigin.

Section AIFacts.

Variable enabled : bool.
Variable str_of_dict : gmap string string -> string.
Variable complete : nat -> AIInterpreter.prompt -> res pyval.

Local Abbreviation interpret_step := (AIInterpreter.interpret_step enabled complete).
Local Abbreviation interpret_one := (AIInterpreter.interpret_one enabled str_of_dict complete).
Local Abbreviation loop := (AIInterpreter.loop enabled str_of_dict complete).

Lemma store_base_url_keeps ctx action ctx' :
  RuleBased.opt_truthy (AIInterpreter.base_url ctx) = true ->
  AIInterpreter.store_base_url ctx action = Ok ctx' -> ctx' = ctx.
Proof.
  intros Hb. unfold AIInterpreter.store_base_url. rewrite Hb, andb_false_r.
  by intros [= <-].
Qed.

(** What [store_base_url] leaves in the context when none was set. *)
Lemma store_base_url_sets ctx action ctx' :
  RuleBased.opt_truthy (AIInterpreter.base_url ctx) = false ->
  AIInterpreter.store_base_url ctx action = Ok ctx' ->
  AIInterpreter.base_url ctx' =
    match navigate_url action with
    | Some u =>
        match Re.match_ Re.base_pattern u with
        | Some m => Some m
        | None => AIInterpreter.base_url ctx
        end
    | None => AIInterpreter.base_url ctx
    end
  /\ AIInterpreter.previous_steps ctx' = AIInterpreter.previous_steps ctx.
Proof.
  intros Hb. unfold AIInterpreter.store_base_url, navigate_url.
  rewrite Hb, andb_true_r.
  destruct (Py.eq_str (Py.get action "action") "navigate"); [|by intros [= <-]].
  unfold Py.get_or.
  destruct (action !! "params") as [p|]; cbn [from_option id].
  - destruct p as [| | | | | |params]; try discriminate.
    destruct (params !! "url") as [url|]; cbn [from_option id].
    + destruct url as [| | | |u| |]; try discriminate.
      destruct (Re.match_ Re.base_pattern u) as [m|] eqn:E.
      * rewrite (base_pattern_startswith _ _ E). by intros [= <-].
      * destruct (Py.startswith "http" u); by intros [= <-].
    + cbn. by intros [= <-].
  - rewrite lookup_empty. cbn. by intros [= <-].
Qed.

Lemma navigate_url_insert_other k v (a : dict) :
  k <> "action" -> k <> "params" -> navigate_url (<[k := v]> a) = navigate_url a.
Proof.
  intros H1 H2. unfold navigate_url, Py.get.
  by rewrite !lookup_insert_ne.
Qed.

(** One iteration keeps a base url that is set. *)
Lemma ai_interpret_one_keeps idx ctx st ctx' a :
  RuleBased.opt_truthy (AIInterpreter.base_url ctx) = true ->
  interpret_one idx ctx st = Ok (ctx', a) ->
  AIInterpreter.base_url ctx' = AIInterpreter.base_url ctx.
Proof.
  intros Hb. unfold AIInterpreter.interpret_one.
  destruct st as [d|s]; [|discriminate].
  cbv zeta. destruct (interpret_step _ _ _ _) as [action|]; [|by intros [= <- _]].
  destruct (AIInterpreter.store_base_url ctx action) as [c|e] eqn:E; [|discriminate].
  apply (store_base_url_keeps _ _ _ Hb) in E as ->. by intros [= <- _].
Qed.

(** One iteration, from a context without base url: the base url is the
    origin of the url of the action, when the action is a navigation to
    an absolute url. *)
Lemma ai_interpret_one_sets idx ctx st ctx' a :
  RuleBased.opt_truthy (AIInterpreter.base_url ctx) = false ->
  interpret_one idx ctx st = Ok (ctx', a) ->
  AIInterpreter.base_url ctx' =
    match navigate_url a with
    | Some u =>
        match Re.match_ Re.base_pattern u with
        | Some m => Some m
        | None => AIInterpreter.base_url ctx
        end
    | None => AIInterpreter.base_url ctx
    end.
Proof.
  intros Hb. unfold AIInterpreter.interpret_one.
  destruct st as [d|s]; [|discriminate].
  cbv zeta. destruct (interpret_step _ _ _ _) as [action|].
  - destruct (AIInterpreter.store_base_url ctx action) as [c|e] eqn:E; [|discriminate].
    apply (store_base_url_sets _ _ _ Hb) in E as [E _].
    intros [= <- <-]. exact E.
  - by intros [= <- <-].
Qed.

Lemma ai_loop_keeps idx ctx acc steps ctx' actions :
  RuleBased.opt_truthy (AIInterpreter.base_url ctx) = true ->
  loop idx ctx acc steps = Ok (ctx', actions) ->
  AIInterpreter.base_url ctx' = AIInterpreter.base_url ctx.
Proof.
  revert idx ctx acc. induction steps as [|st rest IH]; intros idx ctx acc Hb; simpl.
  - by intros [= <- _].
  - destruct (interpret_one idx ctx st) as [[c a]|e] eqn:E; [|discriminate].
    intros H. pose proof (ai_interpret_one_keeps _ _ _ _ _ Hb E) as Hc.
    rewrite <- Hc. apply (IH _ _ _ ltac:(by rewrite Hc) H).
Qed.

(** If the loop returns, it returns one action per step. *)
Lemma ai_loop_length idx ctx acc steps ctx' actions :
  loop idx ctx acc steps = Ok (ctx', actions) ->
  length actions = length acc + length steps.
Proof.
  revert idx ctx acc. induction steps as [|st rest IH]; intros idx ctx acc; simpl.
  - intros [= _ <-]. lia.
  - destruct (interpret_one idx ctx st) as [[c a]|e]; [|discriminate].
    intros H. apply IH in H. rewrite length_app in H. simpl in H. lia.
Qed.

(** The base url the loop sets is an origin. *)
Lemma ai_loop_origin idx ctx acc steps ctx' actions :
  unset_or_origin (AIInterpreter.base_url ctx) ->
  loop idx ctx acc steps = Ok (ctx', actions) ->
  unset_or_origin (AIInterpreter.base_url ctx').
Proof.
  revert idx ctx acc. induction steps as [|st rest IH]; intros idx ctx acc Hb; simpl.
  - by intros [= <- _].
  - destruct (interpret_one idx ctx st) as [[c a]|e] eqn:E; [|discriminate].
    apply IH.
    destruct (RuleBased.opt_truthy (AIInterpreter.base_url ctx)) eqn:Ht.
    + by rewrite (ai_interpret_one_keeps _ _ _ _ _ Ht E).
    + rewrite (ai_interpret_one_sets _ _ _ _ _ Ht E).
      destruct (navigate_url a) as [u|]; [|exact Hb].
      destruct (Re.match_ Re.base_pattern u) as [m|] eqn:Em; [|exact Hb].
      exact (base_pattern_origin _ _ Em).
Qed.

End AIFacts.

(** ** Claims on the base url *)

(** C4.  Within one interpretation pass the base url is set at most once
    and never overwritten, on the rule-based path and on the AI path:
    a base url that is set is an origin [http(s)://host]; once it is set,
    whatever steps follow leave it unchanged; and a step changes an unset
    base url exactly when its action is a navigation to an absolute url,
    to the origin of that url. *)
Theorem C4_base_url_set_once
    (feed : string -> Html.fed) (str_of_dict : gmap string string -> string)
    (enabled : bool) (complete : nat -> AIInterpreter.prompt -> res pyval) :
  (* rule-based path *)
  (forall pre b, RuleBased.base_url_after feed str_of_dict pre = Some b ->
     origin b /\
     forall rest, RuleBased.base_url_after feed str_of_dict (pre ++ rest) = Some b)
  /\ (forall pre st, RuleBased.base_url_after feed str_of_dict pre = None ->
       RuleBased.base_url_after feed str_of_dict (pre ++ [st]) =
         match navigate_url (snd (RuleBased.interpret_one feed str_of_dict None st)) with
         | Some u => Re.match_ Re.base_pattern u
         | None => None
         end)
  (* AI path *)
  /\ (forall idx ctx acc steps ctx' actions b,
       AIInterpreter.base_url ctx = Some b -> b <> "" ->
       AIInterpreter.loop enabled str_of_dict complete idx ctx acc steps = Ok (ctx', actions) ->
       AIInterpreter.base_url ctx' = Some b)
  /\ (forall idx ctx st ctx' a,
       AIInterpreter.base_url ctx = None ->
       AIInterpreter.interpret_one enabled str_of_dict complete idx ctx st = Ok (ctx', a) ->
       AIInterpreter.base_url ctx' =
         match navigate_url a with
         | Some u => Re.match_ Re.base_pattern u
         | None => None
         end
       /\ unset_or_origin (AIInterpreter.base_url ctx')).
Proof.
  repeat split.
  - pose proof (loop_origin feed str_of_dict None pre I) as Ho.
    unfold RuleBased.base_url_after in H. by rewrite H in Ho.
  - intros rest. unfold RuleBased.base_url_after in *.
    rewrite loop_app. cbn [fst]. rewrite H.
    apply loop_keeps. apply origin_truthy.
    pose proof (loop_origin feed str_of_dict None pre I) as Ho.
    by rewrite H in Ho.
  - intros pre st H. unfold RuleBased.base_url_after in *.
    rewrite loop_app. cbn [fst]. rewrite H. rewrite loop_cons. cbn [fst RuleBased.loop].
    rewrite interpret_one_sets by reflexivity.
    destruct (navigate_url _) as [u|]; [|reflexivity].
    by destruct (Re.match_ Re.base_pattern u).
  - intros idx ctx acc steps ctx' actions b Hb Hne Hl.
    rewrite <- Hb. eapply ai_loop_keeps; [|exact Hl].
    rewrite Hb. cbn. unfold Py.str_truthy. by destruct (String.eqb_spec b "").
  - rewrite (ai_interpret_one_sets _ _ _ _ _ _ _ _ ltac:(by rewrite H) H0), H.
    destruct (navigate_url a) as [u|]; [|reflexivity].
    by destruct (Re.match_ Re.base_pattern u).
  - rewrite (ai_interpret_one_sets _ _ _ _ _ _ _ _ ltac:(by rewrite H) H0), H.
    destruct (navigate_url a) as [u|]; [|exact I].
    destruct (Re.match_ Re.base_pattern u) as [m|] eqn:E; [|exact I].
    exact (base_pattern_origin _ _ E).
Qed.
(** ** The fields the AI interpreter writes into an action *)

Section AIFields.

Variable enabled : bool.
Variable str_of_dict : gmap string string -> string.
Variable complete : nat -> AIInterpreter.prompt -> res pyval.

Local Abbreviation interpret_step := (AIInterpreter.interpret_step enabled complete).
Local Abbreviation interpret_one := (AIInterpreter.interpret_one enabled str_of_dict complete).
Local Abbreviation loop := (AIInterpreter.loop enabled str_of_dict complete).

(** Whatever the model answered, the two fields written after the answer
    was decoded are those of the step. *)
Lemma interpret_step_fields k step_text expected ctx a :
  interpret_step k step_text expected ctx = Some a ->
  a !! "expected" = Some (VStr expected) /\ a !! "original_step" = Some (VStr step_text).
Proof.
  unfold AIInterpreter.interpret_step.
  destruct (negb enabled); [discriminate|].
  destruct (complete _ _) as [[| | | | | |result]|e]; try discriminate.
  cbv zeta. destruct (AIInterpreter.formats_2f _); [|discriminate].
  intros [= <-]. split.
  - rewrite lookup_insert_ne by discriminate. by rewrite lookup_insert_eq.
  - by rewrite lookup_insert_eq.
Qed.

Lemma ai_interpret_one_fields idx ctx d ctx' a :
  interpret_one idx ctx (DictStep d) = Ok (ctx', a) ->
  a !! "expected" = Some (VStr (Observe.ai_expected d))
  /\ a !! "original_step" = Some (VStr (Observe.ai_step_text str_of_dict d)).
Proof.
  unfold AIInterpreter.interpret_one. cbv zeta.
  destruct (interpret_step _ _ _ _) as [action|] eqn:E.
  - destruct (AIInterpreter.store_base_url ctx action); [|discriminate].
    intros [= _ <-]. exact (interpret_step_fields _ _ _ _ _ E).
  - intros [= _ <-]. split; reflexivity.
Qed.

(** The loop only appends to the actions it has collected. *)
Lemma ai_loop_acc idx ctx acc steps ctx' actions :
  loop idx ctx acc steps = Ok (ctx', actions) ->
  exists new, actions = acc ++ new /\ length new = length steps.
Proof.
  revert idx ctx acc. induction steps as [|st rest IH]; intros idx ctx acc; simpl.
  - intros [= _ <-]. exists []. by rewrite app_nil_r.
  - destruct (interpret_one idx ctx st) as [[c a]|e]; [|discriminate].
    intros H. apply IH in H as (new & -> & Hl).
    exists (a :: new). rewrite <- app_assoc. split; [reflexivity | simpl; lia].
Qed.

Lemma ai_loop_fields steps : forall idx ctx acc ctx' actions i d,
  loop idx ctx acc steps = Ok (ctx', actions) ->
  steps !! i = Some (DictStep d) ->
  exists a, actions !! (length acc + i) = Some a
    /\ a !! "expected" = Some (VStr (Observe.ai_expected d))
    /\ a !! "original_step" = Some (VStr (Observe.ai_step_text str_of_dict d)).
Proof.
  induction steps as [|st rest IH]; intros idx ctx acc ctx' actions i d; simpl.
  - intros _ H. by rewrite lookup_nil in H.
  - destruct (interpret_one idx ctx st) as [[c a]|e] eqn:E; [|discriminate].
    intros H Hi. destruct i as [|i]; simpl in Hi.
    + injection Hi as ->. exists a.
      apply ai_loop_acc in H as (new & -> & _).
      split; [|exact (ai_interpret_one_fields _ _ _ _ _ E)].
      rewrite Nat.add_0_r, lookup_app_l by (rewrite length_app; simpl; lia).
      by rewrite lookup_app_r, Nat.sub_diag by lia.
    + destruct (IH _ _ _ _ _ i d H Hi) as (b & Hb & Hf).
      exists b. split; [|exact Hf].
      rewrite length_app in Hb. simpl in Hb.
      by replace (length acc + S i) with (length acc + 1 + i) by lia.
Qed.

Lemma ai_interpret_fields steps ctx actions i d :
  AIInterpreter.interpret_multiple_steps enabled str_of_dict complete steps ctx
    = Ok (Some actions) ->
  steps !! i = Some (DictStep d) ->
  exists a, actions !! i = Some a
    /\ a !! "expected" = Some (VStr (Observe.ai_expected d))
    /\ a !! "original_step" = Some (VStr (Observe.ai_step_text str_of_dict d)).
Proof.
  unfold AIInterpreter.interpret_multiple_steps.
  destruct (negb enabled); [discriminate|].
  destruct (loop 0 _ [] steps) as [[c acts]|e] eqn:E; [|discriminate].
  intros [= <-] Hi. exact (ai_loop_fields _ _ _ _ _ _ _ _ E Hi).
Qed.

End AIFields.


(** ** The browser session manager *)

Section HandlerFacts.

Import PlaywrightHandler.

Ltac unfold_handler :=
  cbv [initialize_browser close_browser take_screenshot execute_action branch on_error
       navigate_wait selector_slug iso_now as_str
       bind ret raise try_except await create get_cls set_cls clock current_url format
       when is_None cls calls
       _playwright _browser _context _page _screenshot_dir _is_headless].

(** On an initialised session [initialize_browser] makes no call and
    changes nothing. *)
Lemma initialize_browser_noop w s headless browser_type :
  initialized (cls s) ->
  initialize_browser headless browser_type w s = (Ok (_page (cls s)), s).
Proof.
  destruct s as [[pw br cx pg dir hl] cs].
  unfold initialized. cbn.
  intros ([a ->] & [b ->] & [c ->] & [d ->] & [e ->]).
  reflexivity.
Qed.

(** A call of [initialize_browser] that returns leaves an initialised
    session, and returns its page. *)
Lemma initialize_browser_initialized w s headless browser_type p s1 :
  initialize_browser headless browser_type w s = (Ok p, s1) ->
  initialized (cls s1) /\ p = _page (cls s1).
Proof.
  destruct s as [[pw br cx pg dir hl] cs].
  unfold_handler.
  destruct pw, br, cx, pg, dir;
    repeat match goal with
           | |- context [driver w ?n ?c] => destruct (driver w n c)
           end;
    intros [= <- <-]; unfold initialized; cbn; eauto 10.
Qed.

(** C9.  Initialisation is idempotent: after a call of
    [initialize_browser] that returned, a second call, with any
    arguments, returns the same page, makes no call to the driver and
    leaves every attribute of the session as it is. *)
Theorem C9_initialize_idempotent w s headless1 browser_type1 headless2 browser_type2 p s1 :
  initialize_browser headless1 browser_type1 w s = (Ok p, s1) ->
  initialize_browser headless2 browser_type2 w s1 = (Ok p, s1).
Proof.
  intros H. apply initialize_browser_initialized in H as [Hi ->].
  by apply initialize_browser_noop.
Qed.

(** On an initialised session [execute_action] goes straight to the
    branch of the action. *)
Lemma execute_action_initialized w s action params :
  initialized (cls s) ->
  execute_action action params w s
  = try_except (branch action params) (on_error action) w s.
Proof.
  intros Hi. unfold execute_action, try_except.
  destruct action; try reflexivity;
    unfold bind at 1; unfold bind at 1;
    by rewrite initialize_browser_noop.
Qed.

(** C8 (amended).  On an initialised session, an action executed
    without a required parameter returns normally a failure of the shape
    [{error: "... required ..."}], which carries no [success] field;
    the driver is not called and the session is left as it is. *)
Theorem C8_missing_param_failure w s action params msg :
  initialized (cls s) ->
  (action = navigate /\ Py.truthy (Py.get params "url") = false
     /\ msg = "url is required for navigate action")
  \/ (action = click /\ Py.truthy (Py.get params "selector") = false
        /\ Py.truthy (Py.get params "text") = false
        /\ msg = "Either selector or text is required for click action")
  \/ (action = fill /\ Py.truthy (Py.get params "selector") = false
        /\ msg = "selector is required for fill action")
  \/ (action = type /\ Py.truthy (Py.get params "selector") = false
        /\ msg = "selector is required for type action")
  \/ (action = select
        /\ (Py.truthy (Py.get params "selector") = false
             \/ Py.truthy (Py.get params "value") = false)
        /\ msg = "selector and value are required for select action") ->
  execute_action action params w s = (Ok {[ "error" := VStr msg ]}, s)
  /\ ({[ "error" := VStr msg ]} : dict) !! "success" = None.
Proof.
  intros Hi Hcase. split; [|reflexivity].
  unfold execute_action, try_except, bind.
  assert (Hinit : forall h b, initialize_browser h b w s = (Ok (_page (cls s)), s))
    by (intros; by apply initialize_browser_noop).
  destruct Hcase as [(-> & Hu & ->) | [(-> & Hs & Ht & ->) | [(-> & Hs & ->)
                    | [(-> & Hs & ->) | (-> & Hsv & ->)]]]];
    rewrite Hinit; cbn [ret branch].
  - by rewrite Hu.
  - by rewrite Hs, Ht.
  - by rewrite Hs.
  - by rewrite Hs.
  - destruct Hsv as [Hs | Hv].
    + by rewrite Hs.
    + rewrite Hv. by rewrite orb_true_r.
Qed.

Lemma app_slash_nonempty (dir rest : string) : dir +:+ "/" +:+ rest <> "".
Proof. by destruct dir. Qed.

Lemma raises_at_false w k c :
  raises_at w k c = false -> exists v, driver w k c = Returns v.
Proof. unfold raises_at. destruct (driver w k c); [eauto | discriminate]. Qed.

Lemma await_eq w s c :
  await c w s
  = (match driver w (length (calls s)) c with Returns v => Ok v | Raises e => Raise e end,
     {| cls := cls s; calls := calls s ++ [c] |}).
Proof. unfold await. by destruct (driver w (length (calls s)) c). Qed.

(** The calls made by the three tiers of waiting. *)
Lemma navigate_wait_tiers w s u params :
  (forall k, raises_at w k (WaitForTimeout (VInt 1000)) = false) ->
  let n := length (calls s) in
  let load := Goto u (Py.get_or params "wait_until" (VStr "networkidle")) 30000 in
  let settle := WaitForTimeout (VInt 500) in
  let dom := WaitForLoadState "domcontentloaded" 10000 in
  let tier1 := if raises_at w n load then [load] else [load; settle] in
  let failed1 := raises_at w n load || raises_at w (n + 1) settle in
  let m := n + length tier1 in
  let tier2 :=
    if failed1 then (if raises_at w m dom then [dom] else [dom; settle]) else [] in
  let failed2 := failed1 && (raises_at w m dom || raises_at w (m + 1) settle) in
  let tier3 := if failed2 then [WaitForTimeout (VInt 1000)] else [] in
  navigate_wait u params w s
  = (Ok tt, {| cls := cls s; calls := calls s ++ tier1 ++ tier2 ++ tier3 |}).
Proof.
  intros Hdelay. cbv zeta.
  unfold navigate_wait, try_except, bind, ret. unfold raises_at in *.
  repeat (cbv beta iota; rewrite ?await_eq; cbn [cls calls length orb andb];
          rewrite ?length_app; cbn [length]; rewrite <- ?Nat.add_assoc; cbn [Nat.add];
          try match goal with
              | |- context [driver w ?k (WaitForTimeout (VInt 1000))] =>
                  let H := fresh in
                  pose proof (Hdelay k) as H;
                  destruct (driver w k (WaitForTimeout (VInt 1000))); [clear H|discriminate H]
              | |- context [driver w ?k ?c] => destruct (driver w k c)
              end);
    by rewrite <- ?app_assoc.
Qed.

(** [take_screenshot] on an initialised session. *)
Lemma take_screenshot_initialized w s step_name :
  initialized (cls s) ->
  (forall k path, raises_at w k (PageScreenshot path) = false) ->
  exists path, path <> "" /\
    take_screenshot step_name w s
    = (Ok path, {| cls := cls s; calls := calls s ++ [PageScreenshot path] |}).
Proof.
  intros (_ & _ & _ & [pg Hpg] & [dir Hdir]) Hshot.
  unfold take_screenshot, bind, get_cls, clock, ret. rewrite Hpg, Hdir.
  rewrite await_eq.
  match goal with |- context [PageScreenshot ?p] => exists p end.
  split; [apply app_slash_nonempty|].
  specialize (Hshot (length (calls s))
    (dir +:+ "/" +:+ now w (length (calls s)) "%H%M%S" +:+ "_"
       +:+ Py.replace " " "_" step_name +:+ ".png")).
  unfold raises_at in Hshot.
  by destruct (driver w _ _).
Qed.

(** C1 (amended).  A navigate call with a non-empty url on an initialised
    session first loads the page, waiting for the [wait_until] condition
    of its parameters (network-idle when there is none) with a timeout of
    30 s; if that tier raises it waits for dom-content-loaded with a
    timeout of 10 s; if that tier raises too it waits for 1000 ms.  In all
    three cases it then captures a screenshot and, when the driver answers
    the calls that follow the tiers, returns a result with
    [success = True] and the path of the screenshot. *)
Theorem C1_navigate_best_effort w s params u :
  initialized (cls s) ->
  Py.get params "url" = VStr u -> u <> "" ->
  (forall k, raises_at w k (WaitForTimeout (VInt 1000)) = false) ->
  (forall k path, raises_at w k (PageScreenshot path) = false) ->
  (forall k, raises_at w k Title = false) ->
  let n := length (calls s) in
  let load := Goto u (Py.get_or params "wait_until" (VStr "networkidle")) 30000 in
  let settle := WaitForTimeout (VInt 500) in
  let dom := WaitForLoadState "domcontentloaded" 10000 in
  let tier1 := if raises_at w n load then [load] else [load; settle] in
  let failed1 := raises_at w n load || raises_at w (n + 1) settle in
  let m := n + length tier1 in
  let tier2 :=
    if failed1 then (if raises_at w m dom then [dom] else [dom; settle]) else [] in
  let failed2 := failed1 && (raises_at w m dom || raises_at w (m + 1) settle) in
  let tier3 := if failed2 then [WaitForTimeout (VInt 1000)] else [] in
  exists path result s',
    execute_action navigate params w s = (Ok result, s')
    /\ calls s' = calls s ++ tier1 ++ tier2 ++ tier3 ++ [PageScreenshot path; Title]
    /\ cls s' = cls s
    /\ result !! "success" = Some (VBool true)
    /\ result !! "screenshot" = Some (VStr path)
    /\ path <> "".
Proof.
  intros Hi Hurl Hne Hdelay Hshot Htitle. cbv zeta.
  rewrite execute_action_initialized by exact Hi.
  cbn [branch]. rewrite Hurl. cbn [Py.truthy].
  destruct (String.eqb_spec u ""); [done|]. cbn [negb].
  unfold try_except, bind at 1. cbn [as_str ret].
  unfold bind at 1.
  pose proof (navigate_wait_tiers w s u params Hdelay) as Hw. cbv zeta in Hw.
  rewrite Hw. clear Hw.
  set (s1 := {| cls := cls s; calls := _ |}).
  destruct (take_screenshot_initialized w s1
              ("navigate_to_" +:+ Py.replace "/" "_" (Py.replace "://" "_" u)) Hi Hshot)
    as (path & Hpath & Hts).
  unfold bind at 1. rewrite Hts.
  unfold bind, current_url, iso_now, clock, ret. rewrite await_eq. cbn [cls calls].
  specialize (Htitle (length (calls s1 ++ [PageScreenshot path]))).
  unfold raises_at in Htitle.
  destruct (driver w _ Title) as [title|]; [|discriminate].
  eexists path, _, _. split; [reflexivity|].
  cbn [cls calls]. subst s1. cbn [calls].
  split; [by rewrite <- !app_assoc|].
  split; [reflexivity|].
  split; [reflexivity|].
  split; [reflexivity|exact Hpath].
Qed.

End HandlerFacts.

Lemma C9_witness :
  PlaywrightHandler.initialize_browser (VBool true) (VStr "chromium")
    Sample.world_ok Sample.start = (Ok (Some 3), Sample.ready)
  /\ PlaywrightHandler.initialize_browser (VBool false) (VStr "firefox")
       Sample.world_ok Sample.ready = (Ok (Some 3), Sample.ready).
Proof.
  split; [reflexivity|].
  exact (C9_initialize_idempotent Sample.world_ok Sample.start
           (VBool true) (VStr "chromium") (VBool false) (VStr "firefox")
           (Some 3) Sample.ready eq_refl).
Defined.

Lemma ready_initialized : PlaywrightHandler.initialized Sample.session_ready.
Proof. repeat split; eexists; reflexivity. Defined.

(** The claim C1 as stated fails on a call that names its own wait
    condition: the first tier then waits for that condition, not for
    network-idle. *)
Lemma C1_counterexample :
  PlaywrightHandler.calls
    (snd (PlaywrightHandler.execute_action PlaywrightHandler.navigate Sample.params_load
            Sample.world_ok Sample.ready)) !! 5
  = Some (PlaywrightHandler.Goto "http://example.test/" (VStr "load") 30000)
  /\ PlaywrightHandler.Goto "http://example.test/" (VStr "load") 30000
     <> PlaywrightHandler.Goto "http://example.test/" (VStr "networkidle") 30000.
Proof. split; [reflexivity | discriminate]. Qed.

(** An unreachable url: the three tiers are gone through, the screenshot
    is taken and the result reports success. *)
Lemma C1_witness :
  exists path result s',
    PlaywrightHandler.execute_action PlaywrightHandler.navigate Sample.params_unreachable
      Sample.world_unreachable Sample.ready = (Ok result, s')
    /\ PlaywrightHandler.calls s'
       = PlaywrightHandler.calls Sample.ready ++
         [ PlaywrightHandler.Goto "http://unreachable.test/" (VStr "networkidle") 30000;
           PlaywrightHandler.WaitForLoadState "domcontentloaded" 10000;
           PlaywrightHandler.WaitForTimeout (VInt 1000);
           PlaywrightHandler.PageScreenshot path;
           PlaywrightHandler.Title ]
    /\ PlaywrightHandler.cls s' = PlaywrightHandler.cls Sample.ready
    /\ result !! "success" = Some (VBool true)
    /\ result !! "screenshot" = Some (VStr path)
    /\ path <> "".
Proof.
  exact (C1_navigate_best_effort Sample.world_unreachable Sample.ready
           Sample.params_unreachable "http://unreachable.test/"
           ready_initialized eq_refl ltac:(discriminate)
           (fun _ => eq_refl) (fun _ _ => eq_refl) (fun _ => eq_refl)).
Defined.

(** The claim C8 as stated fails on the shape of the result: a navigate
    call without url returns a dict with the single key [error]; there is
    no [success] field, so none that holds [False]. *)
Lemma C8_counterexample :
  PlaywrightHandler.execute_action PlaywrightHandler.navigate ∅ Sample.world_ok Sample.ready
  = (Ok {[ "error" := VStr "url is required for navigate action" ]}, Sample.ready)
  /\ ({[ "error" := VStr "url is required for navigate action" ]} : dict) !! "success"
     <> Some (VBool false).
Proof. split; [reflexivity | discriminate]. Qed.

Lemma C8_witness :
  PlaywrightHandler.execute_action PlaywrightHandler.click ∅ Sample.world_ok Sample.ready
  = (Ok {[ "error" := VStr "Either selector or text is required for click action" ]},
     Sample.ready)
  /\ ({[ "error" := VStr "Either selector or text is required for click action" ]} : dict)
       !! "success" = None.
Proof.
  exact (C8_missing_param_failure Sample.world_ok Sample.ready PlaywrightHandler.click ∅
           "Either selector or text is required for click action"
           ready_initialized
           (or_intror (or_introl (conj eq_refl (conj eq_refl (conj eq_refl eq_refl)))))).
Defined.

(** ** The orchestrator *)

(** Scenario C: the source answers with a test case without steps; one
    placeholder step is run and the run is recorded with one step. *)
Example scenario_C :
  Server.execute_test_background Sample.feed Sample.str_of Sample.str_of_dict
    Sample.render_page_data Sample.step_progress
    (Ok Sample.case_without_steps) Sample.playwright_ok false Sample.no_model Sample.no_judge
  = [ Server.SendProgress "fetching" 20;
      Server.UpdateTestRun {[ "test_name" := VStr "Login"; "total_steps" := VInt 1 ]};
      Server.SendProgress "ai_processing" 40;
      Server.SendProgress "ai_processing" 50;
      Server.SendProgress "executing" 60;
      Server.SendProgress "executing" 90;
      Server.CreateTestStep 1
        {[ "description" := VStr "Default step - no steps found in TestRail";
           "action_type" := VStr "wait";
           "status" := VStr "PASSED";
           "error_message" := VNone;
           "screenshot_path" := VStr "" ]};
      Server.Broadcast {[ "type" := VStr "step"; "status" := VStr "success" ]};
      Server.SendProgress "complete" 100;
      Server.UpdateTestRun {[ "status" := VStr "PASSED";
                              "passed_steps" := VInt 1;
                              "total_steps" := VInt 1 ]};
      Server.UpdateDailyMetrics {[ "tests_run" := VInt 1;
                                   "tests_passed" := VInt 1;
                                   "tests_failed" := VInt 0 ]} ].
Proof. vm_compute. reflexivity. Qed.

Section ServerFacts.

Variable feed : string -> Html.fed.
Variable str_of : pyval -> string.
Variable str_of_dict : gmap string string -> string.
Variable render_page_data : pyval -> res string.
Variable step_progress : nat -> nat -> Z.
Variable testrail : res pyval.
Variable playwright : nat -> pyval -> pyval -> Server.answer.
Variable enabled : bool.
Variable complete : nat -> AIInterpreter.prompt -> res pyval.
Variable judge : string -> string -> dict -> res pyval.

Local Abbreviation validating :=
  (Server.validating feed render_page_data playwright enabled judge).
Local Abbreviation page_content_at := (Server.page_content_at render_page_data playwright).
Local Abbreviation validate := (Server.validate enabled judge).
Local Abbreviation executing_one :=
  (Server.executing_one feed str_of render_page_data step_progress playwright enabled judge).
Local Abbreviation executing_loop :=
  (Server.executing_loop feed str_of render_page_data step_progress playwright enabled judge).
Local Abbreviation fetching := (Server.fetching str_of testrail).
Local Abbreviation interpreting :=
  (Server.interpreting feed str_of str_of_dict enabled complete).
Local Abbreviation execute_test_background :=
  (Server.execute_test_background feed str_of str_of_dict render_page_data step_progress
     testrail playwright enabled complete judge).


(** The result of the validation method carries a confidence that
    formats. *)
Lemma validation_result_confidence en expected_result page_content ctx :
  AIInterpreter.formats_2f
    (Py.get_or (AIInterpreter.validate_expected_result en judge expected_result page_content ctx)
       "confidence" (VFloat 0.0)) = true.
Proof.
  unfold AIInterpreter.validate_expected_result.
  destruct en; cbn [negb].
  - destruct (judge _ _ _) as [v|e]; [|reflexivity].
    destruct v as [| | | | | |validation_result]; try reflexivity.
    destruct (AIInterpreter.formats_2f (Py.get validation_result "confidence")) eqn:E;
      [|reflexivity].
    unfold Py.get in E. unfold Py.get_or.
    by destruct (validation_result !! "confidence").
  - unfold AIInterpreter.disabled_result.
    by destruct (AIInterpreter.substring_passed _ _).
Qed.

(** The validation block reads the page content with one or two requests
    to the browser handler, and returns the verdict of the validation
    method on it; it raises when the page data cannot be rendered or when
    the text of the page is [None]. *)
Lemma validating_outcome action expected_result s :
  exists k, 1 <= k <= 2 /\
    validating action expected_result s
    = (match page_content_at (Server.playwright_calls s) with
       | Ok page_content =>
           match validate (Server.strip_html feed expected_result) page_content
                   (Server.validation_context action) with
           | Ok validation_result =>
               Ok (Py.get_or validation_result "passed" (VBool false),
                   Py.get_or validation_result "message" (VStr ""))
           | Raise e => Raise e
           end
       | Raise e => Raise e
       end,
       {| Server.events := Server.events s;
          Server.playwright_calls := Server.playwright_calls s + k |}).
Proof.
  unfold Server.validating, Server.page_content_for_validation, Server.page_content_at,
    Server.bind, Server.handle_playwright, Server.lift, Server.ret, Server.raise.
  cbn [Server.events Server.playwright_calls].
  destruct (Py.truthy (Server.success (playwright _ _ _))).
  - exists 1. split; [lia|]. rewrite Nat.add_1_r.
    destruct (render_page_data _) as [content|e]; [|reflexivity].
    cbn [Server.validate]. by rewrite validation_result_confidence.
  - exists 2. split; [lia|]. rewrite Nat.add_succ_r, Nat.add_1_r.
    destruct (Server.text (playwright _ _ _)) as [content|]; [|reflexivity].
    cbn [Server.validate]. by rewrite validation_result_confidence.
Qed.



Lemma step_status_cases validates validation_passed exec_result :
  Server.step_status validates validation_passed exec_result = "PASSED"
  \/ Server.step_status validates validation_passed exec_result = "FAILED".
Proof.
  unfold Server.step_status.
  destruct validates, (Py.truthy validation_passed),
    (Py.truthy (Server.success exec_result)); auto.
Qed.


(** One iteration, step by step. *)
Lemma executing_one_eq n idx action s :
  let exec_result :=
    playwright (Server.playwright_calls s) (Py.get action "action")
      (Py.get_or action "params" (VDict ∅)) in
  let s1 := {| Server.events :=
                 Server.events s ++ [Server.SendProgress "executing" (step_progress idx n)];
               Server.playwright_calls := S (Server.playwright_calls s) |} in
  executing_one n idx action s
  = match Server.has_validation (Server.expected_of action) with
    | Raise e => (Raise e, s1)
    | Ok validates =>
        match (if validates
               then validating action
                      (default "" (Server.str_field (Server.expected_of action))) s1
               else (Ok (VBool true, VStr ""), s1)) with
        | (Ok (validation_passed, validation_message), s2) =>
            let status := Server.step_status validates validation_passed exec_result in
            (Ok status,
             {| Server.events :=
                  Server.events s2
                  ++ Observe.recording str_of idx action exec_result validation_passed
                       validation_message status;
                Server.playwright_calls := Server.playwright_calls s2 |})
        | (Raise e, s2) => (Raise e, s2)
        end
    end.
Proof.
  cbv zeta. unfold Server.executing_one.
  unfold Server.bind at 1. cbn [Server.emit].
  unfold Server.bind at 1. unfold Server.handle_playwright at 1.
  cbn [Server.events Server.playwright_calls].
  unfold Server.bind at 1. unfold Server.lift at 1.
  destruct (Server.has_validation _) as [validates|e]; [|reflexivity].
  unfold Server.bind at 1.
  destruct validates.
  - destruct (validating action _ _) as [[[vp vm]|e] s2]; [|reflexivity].
    unfold Server.bind, Server.emit, Server.ret, Observe.recording.
    cbn [Server.events Server.playwright_calls].
    destruct (Py.str_truthy (Server.screenshot _));
      cbn [Server.events Server.playwright_calls app]; rewrite <- ?app_assoc; reflexivity.
  - unfold Server.ret at 1.
    unfold Server.bind, Server.emit, Server.ret, Observe.recording.
    cbn [Server.events Server.playwright_calls].
    destruct (Py.str_truthy (Server.screenshot _));
      cbn [Server.events Server.playwright_calls app]; rewrite <- ?app_assoc; reflexivity.
Qed.





Lemma created_steps_app a b :
  Observe.created_steps (a ++ b) = Observe.created_steps a ++ Observe.created_steps b.
Proof. unfold Observe.created_steps. by rewrite flat_map_app. Qed.

Lemma records_with_app status a b :
  Observe.records_with status (a ++ b)
  = Observe.records_with status a + Observe.records_with status b.
Proof. unfold Observe.records_with. by rewrite List.filter_app, length_app. Qed.

Lemma records_with_none status ev :
  Observe.created_steps ev = [] -> Observe.records_with status ev = 0.
Proof.
  unfold Observe.created_steps, Observe.records_with.
  induction ev as [|e ev IH]; [reflexivity|].
  destruct e; simpl; try exact IH. discriminate.
Qed.

(** What an iteration of the execution loop leaves.  It asks the browser
    handler between one and three times.  When it returns, it has created
    one step record, numbered [idx + 1], with the status it returns; when
    it raises, it has created none.  It returns whenever no validation is
    required. *)
Lemma executing_one_outcome n idx action s :
  exists r ev k,
    executing_one n idx action s
    = (r, {| Server.events := Server.events s ++ ev;
             Server.playwright_calls := Server.playwright_calls s + k |})
    /\ 1 <= k <= 3
    /\ match r with
       | Ok status =>
           (status = "PASSED" \/ status = "FAILED")
           /\ Observe.created_steps ev = [idx + 1]
           /\ Observe.records_with "PASSED" ev = (if String.eqb status "PASSED" then 1 else 0)
           /\ Observe.records_with "FAILED" ev = (if String.eqb status "PASSED" then 0 else 1)
       | Raise _ => Observe.created_steps ev = []
       end
    /\ (Server.has_validation (Server.expected_of action) = Ok false ->
        exists status, r = Ok status).
Proof.
  rewrite executing_one_eq. cbv zeta.
  assert (Hrec : forall exec_result vp vm status,
            status = "PASSED" \/ status = "FAILED" ->
            let ev := Server.SendProgress "executing" (step_progress idx n)
                      :: Observe.recording str_of idx action exec_result vp vm status in
            (status = "PASSED" \/ status = "FAILED")
            /\ Observe.created_steps ev = [idx + 1]
            /\ Observe.records_with "PASSED" ev = (if String.eqb status "PASSED" then 1 else 0)
            /\ Observe.records_with "FAILED" ev
               = (if String.eqb status "PASSED" then 0 else 1)).
  { intros exec_result vp vm status Hst. cbv zeta. split; [exact Hst|].
    unfold Observe.recording.
    destruct Hst as [-> | ->], (Py.str_truthy (Server.screenshot exec_result));
      repeat split; reflexivity. }
  destruct (Server.has_validation (Server.expected_of action)) as [validates|e].
  - destruct validates.
    + match goal with |- context [validating action ?x ?s1] =>
        destruct (validating_outcome action x s1) as (k & Hk & ->)
      end.
      cbn [Server.events Server.playwright_calls].
      match goal with |- context [match ?m with Ok _ => _ | Raise _ => _ end] =>
        destruct m as [[vp vm]|e]
      end.
      * eexists _, (_ :: _), (S k).
        split; [rewrite <- app_assoc;
                replace (Server.playwright_calls s + S k)
                  with (S (Server.playwright_calls s) + k) by lia; reflexivity|].
        split; [lia|]. split; [|discriminate].
        apply Hrec. apply step_status_cases.
      * exists (Raise e), [Server.SendProgress "executing" (step_progress idx n)], (S k).
        split; [replace (Server.playwright_calls s + S k)
                  with (S (Server.playwright_calls s) + k) by lia; reflexivity|].
        split; [lia|]. split; [reflexivity | discriminate].
    + eexists _, (_ :: _), 1. cbn [Server.events Server.playwright_calls].
      split; [rewrite <- app_assoc, Nat.add_1_r; reflexivity|].
      split; [lia|]. split; [|by eexists].
      apply Hrec. apply step_status_cases.
  - exists (Raise e), [Server.SendProgress "executing" (step_progress idx n)], 1.
    split; [by rewrite Nat.add_1_r|]. split; [lia|]. split; [reflexivity | discriminate].
Qed.

(** What the execution loop leaves.  When it returns, it has created one
    step record per action, numbered consecutively; its two counters
    count the records with status PASSED and FAILED; and the browser
    handler has been asked between one and three times per action.  It
    returns whenever no action requires a validation. *)
Lemma executing_loop_outcome n actions :
  forall idx p f s, exists r ev k,
    executing_loop n idx p f actions s
    = (r, {| Server.events := Server.events s ++ ev;
             Server.playwright_calls := Server.playwright_calls s + k |})
    /\ match r with
       | Ok (p', f') =>
           Observe.created_steps ev = seq (idx + 1) (length actions)
           /\ p' = p + Observe.records_with "PASSED" ev
           /\ f' = f + Observe.records_with "FAILED" ev
           /\ p' + f' = p + f + length actions
           /\ length actions <= k <= 3 * length actions
       | Raise _ => True
       end
    /\ (Forall (fun action =>
                  Server.has_validation (Server.expected_of action) = Ok false) actions ->
        exists counts, r = Ok counts).
Proof.
  induction actions as [|action rest IH]; intros idx p f s.
  - exists (Ok (p, f)), [], 0. cbn. rewrite app_nil_r, Nat.add_0_r. destruct s.
    split; [reflexivity|]. split; [|by eexists].
    repeat match goal with |- _ /\ _ => split end; try reflexivity; lia.
  - cbn [Server.executing_loop]. unfold Server.bind at 1.
    destruct (executing_one_outcome n idx action s)
      as (r1 & ev & k & -> & Hk & Hr1 & Hblank).
    destruct r1 as [status|e].
    2:{ exists (Raise e), ev, k. split; [reflexivity|]. split; [exact I|].
        intros Hall. apply Forall_cons in Hall as [Ha _].
        destruct (Hblank Ha) as [? [=]]. }
    destruct Hr1 as (Hst & Hc & Hp & Hf).
    assert (Hnext : forall p1 f1,
              p1 + f1 = S (p + f) ->
              p1 = p + Observe.records_with "PASSED" ev ->
              f1 = f + Observe.records_with "FAILED" ev ->
              exists r ev0 k0,
                executing_loop n (S idx) p1 f1 rest
                  {| Server.events := Server.events s ++ ev;
                     Server.playwright_calls := Server.playwright_calls s + k |}
                = (r, {| Server.events := Server.events s ++ ev0;
                         Server.playwright_calls := Server.playwright_calls s + k0 |})
                /\ match r with
                   | Ok (p', f') =>
                       Observe.created_steps ev0 = seq (idx + 1) (length (action :: rest))
                       /\ p' = p + Observe.records_with "PASSED" ev0
                       /\ f' = f + Observe.records_with "FAILED" ev0
                       /\ p' + f' = p + f + length (action :: rest)
                       /\ length (action :: rest) <= k0 <= 3 * length (action :: rest)
                   | Raise _ => True
                   end
                /\ (Forall (fun action =>
                              Server.has_validation (Server.expected_of action) = Ok false)
                      (action :: rest) ->
                    exists counts, r = Ok counts)).
    { intros p1 f1 Hsum Hp1 Hf1.
      destruct (IH (S idx) p1 f1
                  {| Server.events := Server.events s ++ ev;
                     Server.playwright_calls := Server.playwright_calls s + k |})
        as (r & ev' & k' & -> & Hr & Hret).
      exists r, (ev ++ ev'), (k + k'). cbn [Server.events Server.playwright_calls].
      rewrite app_assoc, Nat.add_assoc. split; [reflexivity|]. split.
      - destruct r as [[p' f']|e]; [|exact I].
        destruct Hr as (Hc' & Hp' & Hf' & Hsum' & Hk').
        rewrite created_steps_app, !records_with_app, Hc, Hc'.
        replace (S idx + 1) with (S (idx + 1)) by lia.
        repeat match goal with |- _ /\ _ => split end; try reflexivity; cbn [length]; lia.
      - intros Hall. apply Forall_cons in Hall as [_ Hall]. by apply Hret. }
    destruct (String.eqb status "PASSED").
    + apply Hnext; lia.
    + apply Hnext; lia.
Qed.





End ServerFacts.
(** Scenario B inside a run: the click fails, the page shows the expected
    option, the fallback validation passes, and the step is PASSED. *)
Example step_passes_on_validation :
  fst (Server.executing_one Sample.feed Sample.str_of Sample.render_page_data
         Sample.step_progress Sample.playwright_failing false Sample.no_judge
         1 0 Sample.verify_action {| Server.events := []; Server.playwright_calls := 0 |})
  = Ok "PASSED".
Proof. vm_compute. reflexivity. Qed.

(** The page content rendered from what the page shows: the visible
    text, a form field, a dropdown with two options, two buttons. *)
Example page_rendering :
  Sample.render_page_data
    (VDict {[ "visible_text" := VStr "Selected: Longitudinal Welding" ]})
  = Ok Sample.page_shown
  /\ Sample.render_page_data
       (VDict {[ "form_fields" := VList [VDict {[ "label" := VStr "L"; "value" := VStr "v" ]}];
                 "dropdowns" :=
                   VList [VDict {[ "name" := VStr "N";
                                   "options" := VList [VDict {[ "text" := VStr "a" ]};
                                                       VDict {[ "text" := VStr "b" ]}] ]}];
                 "buttons" := VList [VStr "X"; VStr "Y"] ]})
     = Ok ("Visible Text:" +:+ Sample.newline +:+ Sample.newline +:+ Sample.newline
           +:+ "Form Fields:" +:+ Sample.newline
           +:+ "- L (input): v" +:+ Sample.newline +:+ Sample.newline
           +:+ "Dropdowns:" +:+ Sample.newline
           +:+ "- N dropdown:" +:+ Sample.newline
           +:+ "  Selected: None" +:+ Sample.newline
           +:+ "  Options: a, b" +:+ Sample.newline +:+ Sample.newline
           +:+ "Buttons: X, Y" +:+ Sample.newline)
  /\ Sample.render_page_data (VStr "Selected: Longitudinal Welding")
     = Raise (AttributeError "object has no attribute 'get'").
Proof. repeat split; vm_compute; reflexivity. Qed.

(** A step is not recorded when its validation cannot read the page: the
    page data is not a dict, or the text of the page is [None]. *)
Example step_without_page :
  fst (Server.executing_one Sample.feed Sample.str_of Sample.render_page_data
         Sample.step_progress
         (fun _ _ _ => {| Server.success := VBool true; Server.screenshot := "";
                          Server.page_data := VStr "Selected: Longitudinal Welding";
                          Server.text := Some "" |})
         false Sample.no_judge 1 0 Sample.verify_action
         {| Server.events := []; Server.playwright_calls := 0 |})
  = Raise (AttributeError "object has no attribute 'get'")
  /\ fst (Server.executing_one Sample.feed Sample.str_of Sample.render_page_data
            Sample.step_progress
            (fun _ _ _ => {| Server.success := VNone; Server.screenshot := "";
                             Server.page_data := VDict ∅; Server.text := None |})
            false Sample.no_judge 1 0 Sample.verify_action
            {| Server.events := []; Server.playwright_calls := 0 |})
     = Raise (AttributeError "'NoneType' object has no attribute 'strip'").
Proof. split; vm_compute; reflexivity. Qed.





(** ** Claims on the AI interpreter and on the validation oracle *)

(** Two navigations to different hosts, on the rule-based path and on the
    AI path: the base url of the first one stays. *)
Lemma C4_witness :
  (RuleBased.base_url_after Sample.feed Sample.str_of_dict
     [Sample.step_of "Navigate to http://example.test/login"] = Some "http://example.test"
   /\ RuleBased.base_url_after Sample.feed Sample.str_of_dict
        ([Sample.step_of "Navigate to http://example.test/login"]
         ++ [Sample.step_of "Open https://other.test/home"]) = Some "http://example.test")
  /\ exists ctx' actions,
       AIInterpreter.loop true Sample.str_of_dict Sample.complete_two 1
         {| AIInterpreter.base_url := Some "http://example.test";
            AIInterpreter.previous_steps := [] |} []
         [Sample.step_of "Open the other site"] = Ok (ctx', actions)
       /\ navigate_url <$> actions = [Some "https://other.test/home"]
       /\ AIInterpreter.base_url ctx' = Some "http://example.test".
Proof.
  pose proof (C4_base_url_set_once Sample.feed Sample.str_of_dict true Sample.complete_two)
    as (Hrule & _ & Hai & _).
  split.
  - split; [reflexivity|].
    exact (proj2 (Hrule [Sample.step_of "Navigate to http://example.test/login"]
                    "http://example.test" eq_refl)
             [Sample.step_of "Open https://other.test/home"]).
  - eexists _, _. split; [reflexivity|]. split; [reflexivity|].
    eapply (Hai 1 {| AIInterpreter.base_url := Some "http://example.test";
                    AIInterpreter.previous_steps := [] |}
              [] [Sample.step_of "Open the other site"] _ _ "http://example.test");
      [reflexivity | discriminate | reflexivity].
Defined.

(** C10.  While the AI interpreter is enabled, [interpret_multiple_steps]
    does not return one action per step on every reply of the model: a
    reply that is a well-formed JSON object for a navigation whose url is
    [null] is not replaced by a wait action; the bookkeeping of the base
    url raises, the function returns nothing and the run of the
    orchestrator ends on its error path.  The same happens on a step that
    is not a dict.  When the function does return, it returns one action
    per step. *)
Theorem C10_malformed_reply_aborts :
  AIInterpreter.interpret_multiple_steps true Sample.str_of_dict Sample.complete_null_url
    [Sample.step_of "Open the dashboard"] Sample.empty_context
  = Raise (AttributeError "object has no attribute 'startswith'")
  /\ Server.execute_test_background Sample.feed Sample.str_of Sample.str_of_dict
       Sample.render_page_data Sample.step_progress
       (Ok (VDict {[ "title" := VStr "Dashboard";
                     "custom_steps_separated" :=
                       VList [VDict {[ "content" := VStr "Open the dashboard" ]}] ]}))
       Sample.playwright_ok true Sample.complete_null_url Sample.no_judge
     = [ Server.SendProgress "fetching" 20;
         Server.UpdateTestRun {[ "test_name" := VStr "Dashboard"; "total_steps" := VInt 1 ]};
         Server.SendProgress "ai_processing" 40;
         Server.SendProgress "error" 0;
         Server.UpdateTestRun {[ "status" := VStr "FAILED" ]};
         Server.UpdateDailyMetrics {[ "tests_run" := VInt 1; "tests_failed" := VInt 1 ]} ]
  /\ AIInterpreter.interpret_multiple_steps true Sample.str_of_dict Sample.complete_two
       [OtherStep "1. Open the dashboard"] Sample.empty_context
     = Raise (AttributeError "object has no attribute 'get'")
  /\ forall str_of_dict complete steps ctx actions,
       AIInterpreter.interpret_multiple_steps true str_of_dict complete steps ctx
       = Ok (Some actions) ->
       length actions = length steps.
Proof.
  split; [reflexivity|]. split; [vm_compute; reflexivity|]. split; [reflexivity|].
  intros str_of_dict complete steps ctx actions H.
  unfold AIInterpreter.interpret_multiple_steps in H. cbn [negb] in H.
  destruct (AIInterpreter.loop _ _ _ _ _ _ _) as [[c acts]|e] eqn:Hl; [|discriminate].
  injection H as <-. by apply ai_loop_length in Hl.
Qed.

(** A step the model fails on is replaced by the wait action. *)
Example ai_fallback_wait :
  AIInterpreter.interpret_multiple_steps true Sample.str_of_dict Sample.no_model
    [Sample.step_of "Do something unusual"] Sample.empty_context
  = Ok (Some [AIInterpreter.fallback_wait "" "Do something unusual"]).
Proof. reflexivity. Qed.

(** The claim C7 as stated fails at two of the fallback entry points: when
    the call of the model fails the confidence is 0.3 although the text is
    found, and [_simple_validation] reports 0.8. *)
Lemma C7_counterexample :
  AIInterpreter.validate_expected_result true
    (fun _ _ _ => Raise (Exception "rate limit")) "longitudinal welding"
    "Selected: Longitudinal Welding" ∅ !! "passed" = Some (VBool true)
  /\ AIInterpreter.validate_expected_result true
       (fun _ _ _ => Raise (Exception "rate limit")) "longitudinal welding"
       "Selected: Longitudinal Welding" ∅ !! "confidence" = Some (VFloat 0.3)
  /\ ValidationService._simple_validation "longitudinal welding"
       "Selected: Longitudinal Welding" !! "confidence" = Some (VFloat 0.8)
  /\ ~ (0.3 == 0.5)%Q /\ ~ (0.8 == 0.5)%Q.
Proof. repeat split; try reflexivity; discriminate. Qed.

(** C7 (amended).  Every non-AI fallback judges by case-insensitive
    substring containment: [AIInterpreter] compares the expected text and
    the page text stripped of surrounding white space and lower-cased,
    [_simple_validation] compares them lower-cased.  The confidence is 0.5
    when found and 0.3 when not found on the AI-disabled branch only; it
    is 0.3 in both cases when the call of the model fails, and 0.8 in both
    cases in [_simple_validation]. *)
Theorem C7_fallback_validation
    (judge : string -> string -> dict -> res pyval)
    (expected_result page_content : string) (ctx : dict) :
  let found :=
    Py.contains (Py.lower (Py.strip expected_result)) (Py.lower (Py.strip page_content)) in
  (AIInterpreter.validate_expected_result false judge expected_result page_content ctx
     !! "passed" = Some (VBool found)
   /\ AIInterpreter.validate_expected_result false judge expected_result page_content ctx
        !! "confidence" = Some (VFloat (if found then 0.5 else 0.3)))
  /\ (forall e, judge expected_result page_content ctx = Raise e ->
        AIInterpreter.validate_expected_result true judge expected_result page_content ctx
          !! "passed" = Some (VBool found)
        /\ AIInterpreter.validate_expected_result true judge expected_result page_content ctx
             !! "confidence" = Some (VFloat 0.3))
  /\ (ValidationService._simple_validation expected_result page_content !! "passed"
      = Some (VBool (Py.contains (Py.lower expected_result) (Py.lower page_content)))
      /\ ValidationService._simple_validation expected_result page_content !! "confidence"
         = Some (VFloat 0.8)).
Proof.
  cbv zeta. split; [split; reflexivity|]. split.
  - intros e He. unfold AIInterpreter.validate_expected_result. cbn [negb].
    rewrite He. split; reflexivity.
  - unfold ValidationService._simple_validation.
    destruct (Py.contains _ _); split; reflexivity.
Qed.

Lemma C7_witness :
  AIInterpreter.validate_expected_result true
    (fun _ _ _ => Raise (Exception "rate limit")) "no such text" "Selected: Longitudinal Welding" ∅
    !! "passed" = Some (VBool false)
  /\ AIInterpreter.validate_expected_result true
       (fun _ _ _ => Raise (Exception "rate limit")) "no such text"
       "Selected: Longitudinal Welding" ∅ !! "confidence" = Some (VFloat 0.3).
Proof.
  exact (proj1 (proj2 (C7_fallback_validation (fun _ _ _ => Raise (Exception "rate limit"))
                         "no such text" "Selected: Longitudinal Welding" ∅))
           (Exception "rate limit") eq_refl).
Defined.

(** ** More on the browser session manager *)

Section SessionFacts.

Import PlaywrightHandler.

Ltac unfold_session :=
  cbv [initialize_browser close_browser take_screenshot
       bind ret raise try_except await create get_cls set_cls clock current_url format
       when is_None cls calls
       _playwright _browser _context _page _screenshot_dir _is_headless].

(** X1.  [initialize_browser] never replaces an object of the session, whether
    it returns or raises: what exists is kept, and at most one call is
    made for each missing object. *)
Theorem initialize_browser_keeps w s headless browser_type r s1 :
  initialize_browser headless browser_type w s = (r, s1) ->
  (forall h, _playwright (cls s) = Some h -> _playwright (cls s1) = Some h)
  /\ (forall h, _browser (cls s) = Some h ->
        _browser (cls s1) = Some h /\ _is_headless (cls s1) = _is_headless (cls s))
  /\ (forall h, _context (cls s) = Some h -> _context (cls s1) = Some h)
  /\ (forall h, _page (cls s) = Some h -> _page (cls s1) = Some h)
  /\ (forall d, _screenshot_dir (cls s) = Some d -> _screenshot_dir (cls s1) = Some d)
  /\ (exists new, calls s1 = calls s ++ new /\ length new <= Session.missing (cls s)).
Proof.
  destruct s as [[pw br cx pg dir hl] cs].
  unfold_session. unfold Session.missing. cbn [is_None _playwright _browser _context _page
    _screenshot_dir].
  destruct pw, br, cx, pg, dir;
    repeat match goal with
           | |- context [driver w ?n ?c] => destruct (driver w n c)
           end;
    intros [= <- <-]; cbn;
    repeat match goal with |- _ /\ _ => split end;
    try (intros ? [= <-]; by auto); try (intros ? ?; discriminate);
    rewrite <- ?app_assoc; cbn [app];
    (eexists; split; [try reflexivity; by rewrite app_nil_r | cbn; lia]).
Qed.


(** X2.  [close_browser], when the driver answers the release calls, releases
    what exists in the order page, context, browser, driver, and leaves a
    session without any of them; the screenshot directory is kept.
    Closing a closed session calls nothing. *)
Theorem close_browser_releases w s :
  (forall k c, Session.is_release c = true -> raises_at w k c = false) ->
  close_browser w s
  = (Ok tt, {| cls := Session.closed (cls s);
               calls := calls s ++ Session.release_calls (cls s) |})
  /\ close_browser w {| cls := Session.closed (cls s);
                        calls := calls s ++ Session.release_calls (cls s) |}
     = (Ok tt, {| cls := Session.closed (cls s);
                  calls := calls s ++ Session.release_calls (cls s) |}).
Proof.
  intros Hrel. split.
  - destruct s as [[pw br cx pg dir hl] cs].
    unfold_session. unfold Session.release_calls, Session.closed, raises_at in *.
    cbn [_playwright _browser _context _page _screenshot_dir _is_headless].
    destruct pg, cx, br, pw;
      repeat match goal with
             | |- context [driver w ?k ?c] =>
                 let H := fresh in
                 pose proof (Hrel k c eq_refl) as H;
                 destruct (driver w k c); [clear H | discriminate H]
             end;
      cbn [app]; rewrite <- ?app_assoc, ?app_nil_r; reflexivity.
  - reflexivity.
Qed.

(** X3.  After a close, a new initialisation that returns has started the
    driver, launched a browser, opened a context and a page, and has
    created no new screenshot directory: screenshots go on into the
    directory of the closed session. *)
Theorem reinitialize_keeps_directory w s d headless browser_type p s1 :
  _screenshot_dir (cls s) = Some d ->
  initialize_browser headless browser_type w
    {| cls := Session.closed (cls s); calls := calls s |} = (Ok p, s1) ->
  let n := length (calls s) in
  calls s1 = calls s ++ [ StartPlaywright; Launch (Session.engine_of browser_type) headless;
                          NewContext (n + 1); NewPage (n + 2) ]
  /\ cls s1 = {| _playwright := Some n; _browser := Some (n + 1);
                 _context := Some (n + 2); _page := Some (n + 3);
                 _screenshot_dir := Some d; _is_headless := headless |}
  /\ p = Some (n + 3).
Proof.
  destruct s as [[pw br cx pg dir hl] cs]. cbn [cls calls _screenshot_dir].
  intros ->. unfold Session.closed, Session.engine_of. unfold_session.
  repeat (rewrite ?length_app; cbn [length]; rewrite <- ?Nat.add_assoc; cbn [Nat.add];
          match goal with
          | |- context [driver w ?k ?c] => destruct (driver w k c)
          end); try discriminate.
  intros [= <- <-]. rewrite <- !app_assoc. cbn [app].
  repeat split;
    destruct (Py.eq_str browser_type "chromium") eqn:Ec;
    destruct (Py.eq_str browser_type "firefox") eqn:Ef;
    destruct (Py.eq_str browser_type "webkit") eqn:Ew; try reflexivity;
    destruct browser_type; try discriminate;
    cbn in Ec, Ef, Ew;
    apply String.eqb_eq in Ec; subst; discriminate.
Qed.

End SessionFacts.


Lemma resumed_run :
  PlaywrightHandler.initialize_browser (VBool true) (VStr "chromium")
    Sample.world_ok Sample2.after_failed_launch = (Ok (Some 4), Sample2.resumed).
Proof. vm_compute. reflexivity. Defined.

Lemma initialize_browser_keeps_witness :
  PlaywrightHandler._playwright (PlaywrightHandler.cls Sample2.resumed) = Some 0
  /\ exists new,
       PlaywrightHandler.calls Sample2.resumed
       = PlaywrightHandler.calls Sample2.after_failed_launch ++ new
       /\ length new <= 4.
Proof.
  destruct (initialize_browser_keeps Sample.world_ok Sample2.after_failed_launch
              (VBool true) (VStr "chromium") (Ok (Some 4)) Sample2.resumed resumed_run)
    as (Hpw & _ & _ & _ & _ & Hnew).
  split; [exact (Hpw 0 eq_refl) | exact Hnew].
Defined.

Lemma reopened_run :
  PlaywrightHandler.initialize_browser (VBool false) (VStr "edge") Sample.world_ok
    {| PlaywrightHandler.cls := Session.closed (PlaywrightHandler.cls Sample.ready);
       PlaywrightHandler.calls := PlaywrightHandler.calls Sample.ready |}
  = (Ok (Some 8), Sample2.reopened).
Proof. vm_compute. reflexivity. Defined.

Lemma reinitialize_keeps_directory_witness :
  PlaywrightHandler.calls Sample2.reopened
  = PlaywrightHandler.calls Sample.ready ++
    [ PlaywrightHandler.StartPlaywright; PlaywrightHandler.Launch "chromium" (VBool false);
      PlaywrightHandler.NewContext 6; PlaywrightHandler.NewPage 7 ]
  /\ PlaywrightHandler._screenshot_dir (PlaywrightHandler.cls Sample2.reopened)
     = Some "test_results/20240101_101500".
Proof.
  destruct (reinitialize_keeps_directory Sample.world_ok Sample.ready
              "test_results/20240101_101500" (VBool false) (VStr "edge")
              (Some 8) Sample2.reopened eq_refl reopened_run)
    as (Hcalls & Hcls & _).
  split; [exact Hcalls|]. rewrite Hcls. reflexivity.
Defined.

Lemma close_browser_releases_witness :
  PlaywrightHandler.close_browser Sample.world_ok Sample.ready
  = (Ok tt,
     {| PlaywrightHandler.cls := Session.closed Sample.session_ready;
        PlaywrightHandler.calls :=
          PlaywrightHandler.calls Sample.ready ++
          [ PlaywrightHandler.ClosePage 3; PlaywrightHandler.CloseContext 2;
            PlaywrightHandler.CloseBrowser 1; PlaywrightHandler.StopPlaywright 0 ] |}).
Proof.
  exact (proj1 (close_browser_releases Sample.world_ok Sample.ready (fun _ _ _ => eq_refl))).
Defined.

(** ** [execute_action] as a whole *)

Section ExecuteFacts.

Import PlaywrightHandler.

(** When the driver can take screenshots, [take_screenshot] returns. *)
Lemma take_screenshot_returns w s step_name :
  (forall k path, raises_at w k (PageScreenshot path) = false) ->
  exists path s1, take_screenshot step_name w s = (Ok path, s1).
Proof.
  intros Hshot. destruct s as [[pw br cx pg dir hl] cs].
  unfold take_screenshot, bind, get_cls, clock, ret, await. cbn [cls calls _page _screenshot_dir].
  destruct pg, dir; try (by eexists _, _).
  match goal with |- context [driver w ?k ?c] =>
    pose proof (Hshot k _ : raises_at w k c = false) as H; unfold raises_at in H;
    destruct (driver w k c); [|discriminate]
  end.
  by eexists _, _.
Qed.

(** Each [except] clause returns a failure. *)
Lemma on_error_returns w s action e :
  (forall k path, raises_at w k (PageScreenshot path) = false) ->
  exists d s1, on_error action e w s = (Ok d, s1)
    /\ d !! "error" = Some (VStr ((match e with
                                   | TimeoutError _ => "Timeout error during "
                                   | _ => "Error during "
                                   end) +:+ name action +:+ ": " +:+ exn_str e))
    /\ d !! "success" = None.
Proof.
  intros Hshot.
  destruct e as [m|m|m|m]; unfold on_error, bind at 1;
    match goal with |- context [take_screenshot ?n w s] =>
      destruct (take_screenshot_returns w s n Hshot) as (path & s1 & ->)
    end;
    unfold bind, iso_now, clock, ret; eexists _, _; (split; [reflexivity|]);
    split; reflexivity.
Qed.

Lemma returns_only_ret {A} (P : A -> Prop) a : P a -> Session.returns_only P (ret a).
Proof. intros H w s a' s1 [= <- _]. exact H. Qed.

Lemma returns_only_bind {A B} (P : B -> Prop) (m : M A) (k : A -> M B) :
  (forall a, Session.returns_only P (k a)) -> Session.returns_only P (bind m k).
Proof.
  intros H w s b s1. unfold bind. destruct (m w s) as [[a|e] s0]; [|discriminate].
  apply H.
Qed.

(** Whatever a branch of [execute_action] returns is a well-formed
    result. *)
Lemma branch_well_formed action params :
  Session.returns_only Session.well_formed_result (branch action params).
Proof.
  destruct action; unfold branch;
    repeat first
      [ apply returns_only_bind; intros
      | apply returns_only_ret
      | match goal with
        | |- Session.returns_only _ (if ?b then _ else _) => destruct b
        end ];
    first [ by left | right; split; [by eexists | reflexivity] ].
Qed.

(** X4.  [execute_action] never raises as long as the driver can take
    screenshots: whatever the session, the action, its parameters and the
    answers of the driver, it returns a result that either reports success
    or carries an error and no success field. *)
Theorem execute_action_never_raises w s action params :
  (forall k path, raises_at w k (PageScreenshot path) = false) ->
  exists d s1, execute_action action params w s = (Ok d, s1)
               /\ Session.well_formed_result d.
Proof.
  intros Hshot. unfold execute_action, try_except.
  match goal with |- context [bind ?m ?k w s] =>
    destruct (bind m k w s) as [[d|e] s0] eqn:E
  end.
  - exists d, s0. split; [reflexivity|].
    revert E. apply returns_only_bind. intros _. apply branch_well_formed.
  - destruct (on_error_returns w s0 action e Hshot) as (d & s1 & -> & Herr & Hno).
    exists d, s1. split; [reflexivity|]. right. split; [by eexists | exact Hno].
Qed.














End ExecuteFacts.

Lemma execute_action_never_raises_witness :
  exists d s1,
    PlaywrightHandler.execute_action PlaywrightHandler.fill Sample2.params_fill
      Sample2.world_fill_timeout Sample.start = (Ok d, s1)
    /\ Session.well_formed_result d.
Proof.
  exact (execute_action_never_raises Sample2.world_fill_timeout Sample.start
           PlaywrightHandler.fill Sample2.params_fill (fun _ _ => eq_refl)).
Defined.



(** ** The batch runner *)

Section BatchFacts.

Import PlaywrightHandler.

Local Abbreviation failed_in := (fun l => length (filter (Batch.has_status "failed") l)).
Local Abbreviation passed_in := (fun l => length (filter (Batch.has_status "passed") l)).

Lemma entry_status i d st o :
  Batch.has_status "passed" (Batch.entry i d st o) = Batch.succeeded o
  /\ Batch.has_status "failed" (Batch.entry i d st o) = negb (Batch.succeeded o).
Proof.
  destruct o as [result|e]; cbn [Batch.entry Batch.succeeded].
  - destruct (Py.truthy (Py.get result "success")); split; reflexivity.
  - split; reflexivity.
Qed.

Lemma filter_cons_bool (f : dict -> bool) r (l : list dict) :
  filter f (r :: l) = if f r then r :: filter f l else filter f l.
Proof.
  rewrite filter_cons. destruct (f r) eqn:E; case_decide as H; try reflexivity.
  - exfalso. apply H. exact I.
  - exfalso. exact H.
Qed.

(** The loop of the batch.  When it returns, it has appended one entry
    per executed step; every entry is passed or failed; the flag tells
    whether an entry failed.  With [stop_on_failure] the first failure
    ends the loop, without it every step is executed.  It returns
    whenever every step is a dict. *)
Lemma run_steps_spec stop steps :
  forall i results failed w s,
  exists r s1,
    Batch.run_steps stop i steps results failed w s = (r, s1)
    /\ match r with
       | Ok (results1, failed1) =>
           exists new,
             results1 = results ++ new
             /\ length new <= length steps
             /\ passed_in new + failed_in new = length new
             /\ failed1 = failed || negb (failed_in new =? 0)
             /\ (stop = false -> length new = length steps)
             /\ (stop = true -> failed_in new <= 1
                                /\ (failed_in new = 0 -> length new = length steps))
       | Raise _ => True
       end
    /\ (Forall Batch.is_dict steps -> exists x, r = Ok x).
Proof.
  induction steps as [|[st|] rest IH]; intros i results failed w s.
  - exists (Ok (results, failed)), s. split; [reflexivity|]. split; [|by eexists].
    exists []. cbn. rewrite app_nil_r, orb_false_r.
    repeat split; try lia; try done.
  - cbn [Batch.run_steps]. unfold bind at 1.
    assert (Hd : exists d s0, (match Batch.step_description st with
                               | Some d => ret d
                               | None => bind (format (VInt (Z.of_nat i + 1)))
                                           (fun n => ret (VStr ("Step " +:+ n)))
                               end) w s = (Ok d, s0)).
    { destruct (Batch.step_description st); by eexists _, _. }
    destruct Hd as (d & s0 & ->).
    unfold bind at 1.
    assert (Ho : exists o s2,
               try_except (bind (execute_action (Batch.step_action st) (Batch.step_params st))
                             (fun result => ret (inl result)))
                 (fun e => ret (inr e)) w s0 = (Ok o, s2)).
    { unfold try_except, bind, ret.
      destruct (execute_action _ _ w s0) as [[r|e] s2]; by eexists _, _. }
    destruct Ho as (o & s2 & ->).
    destruct (entry_status i d st o) as [Hp Hf].
    set (r := Batch.entry i d st o) in *.
    assert (Hnext : forall failed0,
              failed0 = failed || negb (Batch.succeeded o) ->
              (Batch.succeeded o = false -> stop = false) ->
              exists r0 s1,
                Batch.run_steps stop (S i) rest (results ++ [r]) failed0 w s2 = (r0, s1)
                /\ match r0 with
                   | Ok (results1, failed1) =>
                       exists new,
                         results1 = results ++ new
                         /\ length new <= length (Batch.DictItem st :: rest)
                         /\ passed_in new + failed_in new = length new
                         /\ failed1 = failed || negb (failed_in new =? 0)
                         /\ (stop = false -> length new = length (Batch.DictItem st :: rest))
                         /\ (stop = true ->
                             failed_in new <= 1
                             /\ (failed_in new = 0 ->
                                 length new = length (Batch.DictItem st :: rest)))
                   | Raise _ => True
                   end
                /\ (Forall Batch.is_dict (Batch.DictItem st :: rest) -> exists x, r0 = Ok x)).
    { intros failed0 Hf0 Hstop.
      destruct (IH (S i) (results ++ [r]) failed0 w s2) as (r0 & s1 & -> & Hr0 & Hret).
      exists r0, s1. split; [reflexivity|]. split.
      - destruct r0 as [[results1 failed1]|e]; [|exact I].
        destruct Hr0 as (new & -> & Hlen & Hsum & Hfl & Hns & Hst).
        exists (r :: new). rewrite <- app_assoc. cbn [app]. split; [reflexivity|].
        rewrite !filter_cons_bool, Hp, Hf.
        destruct (Batch.succeeded o); cbn [negb orb length] in *.
        + split; [lia|]. split; [lia|].
          split; [subst failed1 failed0; by rewrite orb_false_r|]. split.
          * intros H. specialize (Hns H). lia.
          * intros H. destruct (Hst H) as [H1 H2]. split; [exact H1|].
            intros H0. specialize (H2 H0). lia.
        + split; [lia|]. split; [lia|]. split.
          { subst failed1 failed0. cbn. by rewrite !orb_true_r. }
          split; [intros H; specialize (Hns H); lia|].
          intros H. rewrite (Hstop eq_refl) in H. discriminate H.
      - intros Hall. apply Forall_cons in Hall as [_ Hall]. by apply Hret. }
    destruct (Batch.succeeded o) eqn:Hs.
    + apply Hnext; [by rewrite orb_false_r | discriminate].
    + destruct stop.
      * exists (Ok (results ++ [r], true)), s2. split; [reflexivity|].
        split; [|by eexists].
        exists [r]. split; [reflexivity|].
        rewrite !filter_cons_bool, !filter_nil, Hp, Hf. cbn. rewrite orb_true_r.
        split; [lia|]. split; [lia|]. split; [reflexivity|]. split; [discriminate|].
        intros _. split; [lia | discriminate].
      * apply Hnext; [by rewrite orb_true_r | done].
  - exists (Raise (AttributeError "object has no attribute 'get'")), s.
    split; [reflexivity|]. split; [exact I|].
    intros Hall. apply Forall_cons in Hall as [[] _].
Qed.

(** What the branch returns is a result with counts. *)
Lemma branch_counted steps params logs w s d s1 :
  steps <> [] ->
  Batch.branch_execute_test_steps steps params logs w s = (Ok d, s1) ->
  Batch.counted steps params d.
Proof.
  intros Hne. unfold Batch.branch_execute_test_steps.
  destruct steps as [|st rest]; [done|]. clear Hne.
  unfold bind at 1.
  destruct (run_steps_spec (Py.truthy (Py.get_or params "stop_on_failure" (VBool true)))
              (st :: rest) 0 [] false w s)
    as (r & s0 & -> & Hr & _).
  destruct r as [[results1 failed1]|e]; [|discriminate].
  destruct Hr as (new & -> & Hlen & Hsum & Hfl & Hns & Hst).
  cbn [app]. unfold bind, get_cls, iso_now, clock, ret. intros [= <- _].
  exists (length new), (passed_in new), (failed_in new).
  split; [reflexivity|]. split; [reflexivity|]. split; [reflexivity|].
  split; [reflexivity|]. split.
  { subst failed1. cbn [orb]. rewrite lookup_insert_eq. by rewrite negb_involutive. }
  split; [exact Hsum|]. split; [exact Hlen|]. split; [exact Hns | exact Hst].
Qed.

Lemma branch_returns steps params logs w s :
  Forall Batch.is_dict steps ->
  exists d s1, Batch.branch_execute_test_steps steps params logs w s = (Ok d, s1).
Proof.
  intros Hall. unfold Batch.branch_execute_test_steps.
  destruct steps as [|st rest]; [by eexists _, _|].
  unfold bind at 1.
  destruct (run_steps_spec (Py.truthy (Py.get_or params "stop_on_failure" (VBool true)))
              (st :: rest) 0 [] false w s)
    as (r & s0 & -> & _ & Hret).
  destruct (Hret Hall) as [[results1 failed1] ->].
  unfold bind, get_cls, iso_now, clock, ret. by eexists _, _.
Qed.

Lemma on_error_aborted e : Session.returns_only Batch.aborted (Batch.on_error e).
Proof.
  destruct e; unfold Batch.on_error;
    repeat first [ apply returns_only_bind; intros | apply returns_only_ret ];
    (split; [by eexists | split; reflexivity]).
Qed.

(** X6.  The batch runner, for a non-empty batch whose steps are dicts that
    name actions of this development, or are not dicts.  Whenever it
    returns, its result is an error result without counts (the
    initialisation of the browser or the read of a step that is not a dict
    raised), or a result whose counts add up: passed and failed steps
    make the executed steps, which are at most the steps given, and the
    batch succeeds exactly when no step failed; with [stop_on_failure]
    (the default) at most one step fails and a batch without failure has
    executed every step; without it every step is executed whatever
    fails.  On an initialised session, a batch of dicts returns a result
    with counts.  The runner returns whenever the driver can take
    screenshots. *)
Theorem execute_test_steps_counts steps params logs w s :
  steps <> [] ->
  (forall d s1,
     Batch.execute_test_steps steps params logs w s = (Ok d, s1) ->
     Batch.aborted d \/ Batch.counted steps params d)
  /\ (initialized (cls s) -> Forall Batch.is_dict steps ->
      exists d s1,
        Batch.execute_test_steps steps params logs w s = (Ok d, s1)
        /\ Batch.counted steps params d)
  /\ ((forall k path, raises_at w k (PageScreenshot path) = false) ->
      exists d s1, Batch.execute_test_steps steps params logs w s = (Ok d, s1)).
Proof.
  intros Hne. unfold Batch.execute_test_steps, try_except.
  split; [|split].
  - intros d s1.
    match goal with |- context [bind ?m ?k w s] =>
      destruct (bind m k w s) as [[d0|e] s0] eqn:E
    end.
    + intros [= <- <-]. right. revert E. unfold bind.
      destruct (initialize_browser _ _ w s) as [[p|e] s2]; [|discriminate].
      by apply branch_counted.
    + intros H. left. exact (on_error_aborted e _ _ _ _ H).
  - intros Hinit Hall. unfold bind.
    rewrite (initialize_browser_noop _ _ _ _ Hinit).
    destruct (branch_returns steps params logs w s Hall) as (d & s1 & E).
    rewrite E. exists d, s1. split; [reflexivity|]. by apply (branch_counted _ _ _ _ _ _ _ Hne E).
  - intros Hshot.
    match goal with |- context [bind ?m ?k w s] =>
      destruct (bind m k w s) as [[d0|e] s0]
    end; [by eexists _, _|].
    destruct e; unfold Batch.on_error, bind, iso_now, clock, ret;
      match goal with |- context [take_screenshot ?nm w s0] =>
        destruct (take_screenshot_returns w s0 nm Hshot) as (path & s2 & ->)
      end; by eexists _, _.
Qed.

End BatchFacts.

(** A batch whose second step of three times out: two steps are executed,
    one passed and one failed, and the third step is not run. *)
Example batch_stops_at_failure :
  match fst (Batch.execute_test_steps Sample3.batch ∅ (VList [])
               Sample2.world_fill_timeout Sample.ready) with
  | Ok d => (d !! "success", d !! "executed_steps", d !! "passed_steps", d !! "failed_steps")
  | Raise _ => (None, None, None, None)
  end
  = (Some (VBool false), Some (VInt 2), Some (VInt 1), Some (VInt 1)).
Proof. vm_compute. reflexivity. Qed.

(** On a new session with a driver that is down, the initialisation
    raises and the batch answers with an error result, without counts. *)
Example batch_without_browser :
  fst (Batch.execute_test_steps Sample3.batch ∅ (VList []) Sample2.world_down Sample.start)
  = Ok {[ "error" := VStr "Error during execute_test_steps: Target closed";
          "screenshot" := VStr "";
          "timestamp" := VStr "20240101_101500" ]}.
Proof. vm_compute. reflexivity. Qed.

Lemma batch_of_dicts : Forall Batch.is_dict Sample3.batch.
Proof. repeat constructor. Defined.

Lemma batch_nonempty : Sample3.batch <> [].
Proof. discriminate. Defined.

Lemma execute_test_steps_counts_witness :
  exists d s1,
    Batch.execute_test_steps Sample3.batch ∅ (VList []) Sample2.world_fill_timeout Sample.ready
    = (Ok d, s1)
    /\ Batch.counted Sample3.batch ∅ d.
Proof.
  exact (proj1 (proj2 (execute_test_steps_counts Sample3.batch ∅ (VList [])
                         Sample2.world_fill_timeout Sample.ready batch_nonempty))
           ready_initialized batch_of_dicts).
Defined.

(** ** More on patterns and on the rule-based interpreter *)

Section PatternSubstrings.

Lemma string_app_assoc (a b c : string) : (a +:+ b) +:+ c = a +:+ b +:+ c.
Proof. induction a as [|x a IH]; [reflexivity|]. simpl. by rewrite IH. Qed.

Lemma string_app_nil_r (a : string) : a +:+ "" = a.
Proof. induction a as [|x a IH]; [reflexivity|]. simpl. by rewrite IH. Qed.

(** A match starts the text it is a match of. *)
Lemma match_at_prefix p : forall s m, Re.match_at p s = Some m -> exists r, s = m +:+ r.
Proof.
  induction p as [|[cls|cls|cls] p IH]; intros s m.
  - intros [= <-]. by exists s.
  - intros H. apply match_at_One in H as (a & s' & m' & -> & _ & -> & H).
    destruct (IH _ _ H) as [r ->]. by exists r.
  - intros H. apply match_at_Opt in H as [(a & s' & m' & -> & _ & -> & H)|H].
    + destruct (IH _ _ H) as [r ->]. by exists r.
    + by apply IH.
  - simpl. revert m. induction s as [|a s' IHs]; intros m; [discriminate|].
    destruct (cls a); [|discriminate].
    match goal with |- context [match ?f s' with _ => _ end] => destruct (f s') as [r|] eqn:E end.
    + intros [= <-]. destruct (IHs r eq_refl) as [r' ->]. by exists r'.
    + destruct (Re.match_at p s') as [m'|] eqn:E'; [|discriminate].
      intros [= <-]. destruct (IH _ _ E') as [r ->]. by exists r.
Qed.

(** What [re.search] returns occurs in the text. *)
Lemma search_occurs p s m : Re.search p s = Some m -> Observe.occurs_in m s.
Proof.
  induction s as [|a s IH]; unfold Re.search; fold Re.search.
  - destruct (Re.match_at p "") as [r|] eqn:E; [|discriminate].
    intros [= <-]. destruct (match_at_prefix _ _ _ E) as [r' Hr]. by exists "", r'.
  - destruct (Re.match_at p (String a s)) as [r|] eqn:E.
    + intros [= <-]. destruct (match_at_prefix _ _ _ E) as [r' Hr]. by exists "", r'.
    + intros H. destruct (IH H) as (pre & post & ->). by exists (String a pre), post.
Qed.

(** The shape of a match of [https?://] followed by a run of a class. *)
Lemma scheme_pattern_shape cls u m :
  Re.match_at (Re.lit "http" ++ [Re.Opt (Re.chr "s")] ++ Re.lit "://" ++ [Re.Plus cls]) u
  = Some m ->
  exists scheme body rest,
    (scheme = "http://" \/ scheme = "https://") /\
    body <> "" /\ Py.all_in cls body = true /\
    m = scheme +:+ body /\ u = m +:+ rest /\
    match rest with String a _ => cls a = false | EmptyString => True end.
Proof.
  simpl app. intros H.
  apply match_at_chr in H as (s1 & m1 & -> & -> & H).
  apply match_at_chr in H as (s2 & m2 & -> & -> & H).
  apply match_at_chr in H as (s3 & m3 & -> & -> & H).
  apply match_at_chr in H as (s4 & m4 & -> & -> & H).
  assert (Htail : forall s m, Re.match_at (Re.lit "://" ++ [Re.Plus cls]) s = Some m ->
            exists body rest, body <> "" /\ Py.all_in cls body = true /\
              m = "://" +:+ body /\ s = m +:+ rest /\
              match rest with String a _ => cls a = false | EmptyString => True end).
  { clear. intros s m H. simpl app in H.
    apply match_at_chr in H as (s1 & m1 & -> & -> & H).
    apply match_at_chr in H as (s2 & m2 & -> & -> & H).
    apply match_at_chr in H as (s3 & m3 & -> & -> & H).
    apply match_at_Plus_last in H as (Hne & Hall & r & -> & Hr).
    by exists m3, r. }
  apply match_at_Opt in H as [(a & s' & m' & -> & Ha & -> & H)|H].
  - unfold Re.chr in Ha. apply Ascii.eqb_eq in Ha as <-.
    apply Htail in H as (body & rest & Hne & Hall & -> & -> & Hr).
    exists "https://", body, rest. repeat split; auto.
  - apply Htail in H as (body & rest & Hne & Hall & -> & -> & Hr).
    exists "http://", body, rest. repeat split; auto.
Qed.

Lemma search_match_at p s m :
  Re.search p s = Some m -> exists pre rest, s = pre +:+ rest /\ Re.match_at p rest = Some m.
Proof.
  induction s as [|a s IH]; unfold Re.search; fold Re.search.
  - destruct (Re.match_at p "") as [r|] eqn:E; [|discriminate].
    intros [= <-]. by exists "", "".
  - destruct (Re.match_at p (String a s)) as [r|] eqn:E.
    + intros [= <-]. by exists "", (String a s).
    + intros H. destruct (IH H) as (pre & rest & -> & Hm). by exists (String a pre), rest.
Qed.

End PatternSubstrings.

Section RuleBasedMore.

Variable feed : string -> Html.fed.
Variable str_of_dict : gmap string string -> string.

Local Abbreviation interpret_one := (RuleBased.interpret_one feed str_of_dict).
Local Abbreviation interpret := (RuleBased.interpret feed str_of_dict).
Local Abbreviation clean_text := (RuleBased.clean_text feed str_of_dict).
Local Abbreviation step_text := (RuleBased.step_text str_of_dict).
Local Abbreviation stripper := (RuleBased.stripper feed str_of_dict).

Lemma all_in_app cls (a b : string) :
  Py.all_in cls (a +:+ b) = Py.all_in cls a && Py.all_in cls b.
Proof. induction a as [|x a IH]; [reflexivity|]. simpl. by rewrite IH, andb_assoc. Qed.

(** X8.  A url taken from the text of a step is copied from it: it occurs in
    the raw text, starts with [http://] or [https://], holds no white
    space, angle bracket or double quote, and ends where the text ends or
    where such a character stands. *)
Theorem text_url_is_literal b st u :
  Html.links (stripper st) = [] ->
  Re.search Re.url_pattern (step_text st) = Some u ->
  RuleBased.is_navigation (clean_text st) = true ->
  snd (interpret_one b st)
  = Action.navigate u (Py.take 100 (clean_text st)) (RuleBased.expected_result st)
  /\ (exists pre rest,
        step_text st = pre +:+ u +:+ rest
        /\ match rest with
           | String a _ => Re.not_space_angle_quote a = false
           | EmptyString => True
           end)
  /\ (Py.startswith "http://" u = true \/ Py.startswith "https://" u = true)
  /\ Py.all_in Re.not_space_angle_quote u = true.
Proof.
  intros Hlinks Hsearch Hnav.
  destruct (search_match_at _ _ _ Hsearch) as (pre & tail & Htext & Hm).
  apply scheme_pattern_shape in Hm as (scheme & body & rest & Hs & Hne & Hall & -> & -> & Hr).
  assert (Hu : Py.str_truthy (scheme +:+ body) = true).
  { destruct Hs as [-> | ->]; reflexivity. }
  split.
  - unfold RuleBased.interpret_one. cbv zeta. rewrite Hnav.
    unfold RuleBased.resolve_url. rewrite Hlinks, Hsearch.
    cbn [RuleBased.opt_truthy from_option id]. by rewrite Hu.
  - split; [by exists pre, rest|]. split.
    + unfold Py.startswith.
      destruct Hs as [-> | ->]; [left | right]; simpl; by destruct body.
    + rewrite all_in_app, Hall. by destruct Hs as [-> | ->].
Qed.

(** What a [+] followed by the rest of a pattern matches. *)
Lemma match_at_Plus cls p s m :
  Re.match_at (Re.Plus cls :: p) s = Some m ->
  exists body m' rest,
    body <> "" /\ Py.all_in cls body = true /\ m = body +:+ m'
    /\ s = body +:+ rest /\ Re.match_at p rest = Some m'.
Proof.
  simpl. revert m. induction s as [|a s' IHs]; intros m; [discriminate|].
  destruct (cls a) eqn:Ea; [|discriminate].
  match goal with |- context [match ?f s' with _ => _ end] => destruct (f s') as [r|] eqn:E end.
  - intros [= <-]. destruct (IHs r eq_refl) as (body & m' & rest & Hne & Hall & -> & -> & Hm).
    exists (String a body), m', rest. repeat split; try done. simpl. by rewrite Ea, Hall.
  - destruct (Re.match_at p s') as [m'|] eqn:E'; [|discriminate].
    intros [= <-]. exists (String a ""), m', s'. repeat split; try done.
    simpl. by rewrite Ea.
Qed.

Lemma take_app_exact (a b : string) : Py.take (String.length a) (a +:+ b) = a.
Proof. induction a as [|x a IH]; [by destruct b|]. simpl. by rewrite IH. Qed.

Lemma string_length_app (a b : string) :
  String.length (a +:+ b) = String.length a + String.length b.
Proof. induction a as [|x a IH]; [reflexivity|]. simpl. by rewrite IH. Qed.

(** Group 1 of a match of the quoted pattern. *)
Lemma quoted_pattern_shape s m :
  Re.match_at Re.quoted_pattern s = Some m ->
  exists q1 body q2,
    m = String q1 (body +:+ String q2 "")
    /\ Re.is_quote q1 = true /\ Re.is_quote q2 = true
    /\ body <> "" /\ Py.all_in Re.not_quote body = true
    /\ Re.quoted_group m = body.
Proof.
  unfold Re.quoted_pattern. intros H.
  apply match_at_One in H as (q1 & s1 & m1 & -> & Hq1 & -> & H).
  apply match_at_Plus in H as (body & m' & rest & Hne & Hall & -> & -> & H).
  apply match_at_One in H as (q2 & s2 & m2 & -> & Hq2 & -> & H).
  injection H as <-.
  exists q1, body, q2. repeat split; try done.
  unfold Re.quoted_group. cbn [String.length Py.drop].
  rewrite string_length_app. cbn [String.length].
  replace (S (String.length body + 1) - 2) with (String.length body) by lia.
  apply take_app_exact.
Qed.

(** The action of a step, with what is known of its parameters. *)
Lemma interpret_one_click b st t d e :
  snd (interpret_one b st) = Action.click t d e ->
  t <> "" /\ Py.all_in Re.not_quote t = true
  /\ exists q1 q2, Re.is_quote q1 = true /\ Re.is_quote q2 = true
       /\ Observe.occurs_in (String q1 (t +:+ String q2 "")) (clean_text st).
Proof.
  unfold RuleBased.interpret_one. cbv zeta.
  assert (Hnw : forall u d1 e1, Action.navigate u d1 e1 <> Action.click t d e).
  { intros u d1 e1 H. apply (f_equal (fun a : dict => a !! "action")) in H. discriminate H. }
  assert (Hww : forall d1 e1, Action.wait d1 e1 <> Action.click t d e).
  { intros d1 e1 H. apply (f_equal (fun a : dict => a !! "action")) in H. discriminate H. }
  destruct (RuleBased.is_navigation _).
  - destruct (RuleBased.opt_truthy _); cbn [snd]; intros H; exfalso;
      [eapply Hnw | eapply Hww]; exact H.
  - destruct (RuleBased.is_click _); [|cbn [snd]; intros H; exfalso; eapply Hww; exact H].
    destruct (Re.search Re.quoted_pattern _) as [m|] eqn:Hs;
      cbn [snd]; [|intros H; exfalso; eapply Hww; exact H].
    intros H.
    assert (Ht : Re.quoted_group m = t).
    { apply (f_equal (fun a : dict =>
                        match a !! "params" with
                        | Some (VDict p) => p !! "text"
                        | _ => None
                        end)) in H.
      change (Some (VStr (Re.quoted_group m)) = Some (VStr t)) in H.
      by injection H. }
    destruct (search_match_at _ _ _ Hs) as (pre & tail & Htext & Hm).
    pose proof (match_at_prefix _ _ _ Hm) as [rest Hrest].
    apply quoted_pattern_shape in Hm as (q1 & body & q2 & -> & Hq1 & Hq2 & Hne & Hall & Hg).
    rewrite Hg in Ht. subst body.
    split; [exact Hne|]. split; [exact Hall|].
    exists q1, q2. split; [exact Hq1|]. split; [exact Hq2|].
    exists pre, rest. by rewrite Htext, Hrest.
Qed.

(** X9.  A click action of the rule-based path never has an empty target: the
    target is a non-empty text without quoting characters, which stands in
    the visible text of some step between two quoting characters (not
    necessarily the same one). *)
Theorem click_target_quoted steps a :
  a ∈ interpret steps -> a !! "action" = Some (VStr "click") ->
  exists t st q1 q2,
    a !! "params" = Some (VDict {[ "text" := VStr t ]})
    /\ t <> "" /\ Py.all_in Re.not_quote t = true
    /\ st ∈ steps /\ Re.is_quote q1 = true /\ Re.is_quote q2 = true
    /\ Observe.occurs_in (String q1 (t +:+ String q2 "")) (clean_text st).
Proof.
  intros Ha Hact. apply interpret_elem in Ha as (b & st & Hin & ->).
  destruct (interpret_one_kind feed str_of_dict b st) as [(u & _ & E) | [(t & E) | E]];
    rewrite E in Hact; try discriminate Hact.
  destruct (interpret_one_click _ _ _ _ _ E) as (Hne & Hall & q1 & q2 & Hq1 & Hq2 & Hocc).
  exists t, st, q1, q2. rewrite E. repeat split; try done.
Qed.

Lemma take_length n s : String.length (Py.take n s) <= n.
Proof.
  revert s. induction n as [|n IH]; intros [|c s]; simpl; try lia.
  specialize (IH s). lia.
Qed.

Lemma take_prefix n s : exists r, s = Py.take n s +:+ r.
Proof.
  revert s. induction n as [|n IH]; intros [|c s]; simpl; try (by eexists).
  destruct (IH s) as [r Hr]. exists r. by rewrite <- Hr.
Qed.

(** X10.  The action at the position of a step is bound to that step: it
    carries the expected result of the step and, as description, the
    first 100 characters at most of its visible text. *)
Theorem action_traces_step steps i st :
  steps !! i = Some st ->
  exists a description,
    interpret steps !! i = Some a
    /\ a !! "expected" = Some (VStr (RuleBased.expected_result st))
    /\ a !! "description" = Some (VStr description)
    /\ String.length description <= 100
    /\ exists r, clean_text st = description +:+ r.
Proof.
  intros Hi.
  assert (Hlen : length (take i steps) = i).
  { apply length_take_le. apply lookup_lt_Some in Hi. lia. }
  pose proof (interpret_lookup feed str_of_dict (take i steps) st (drop (S i) steps)) as H.
  rewrite take_drop_middle in H by exact Hi. rewrite Hlen in H.
  eexists _, (Py.take 100 (clean_text st)). split; [exact H|].
  destruct (interpret_one_kind feed str_of_dict
              (RuleBased.base_url_after feed str_of_dict (take i steps)) st)
    as [(u & _ & E) | [(t & E) | E]]; rewrite E;
    (split; [reflexivity|]); (split; [reflexivity|]);
    (split; [apply take_length | apply take_prefix]).
Qed.

End RuleBasedMore.

Lemma text_url_is_literal_witness :
  snd (RuleBased.interpret_one Sample.feed Sample.str_of_dict None
         (Sample.step_of "Navigate to http://example.test/login now"))
  = Action.navigate "http://example.test/login"
      "Navigate to http://example.test/login now" ""
  /\ Py.all_in Re.not_space_angle_quote "http://example.test/login" = true.
Proof.
  destruct (text_url_is_literal Sample.feed Sample.str_of_dict None
              (Sample.step_of "Navigate to http://example.test/login now")
              "http://example.test/login" eq_refl eq_refl eq_refl)
    as (Hact & _ & _ & Hall).
  split; [exact Hact | exact Hall].
Defined.

Lemma sign_in_click :
  Action.click "Sign In" "Click `Sign In`" ""
  ∈ RuleBased.interpret Sample.feed Sample.str_of_dict Sample.steps_A.
Proof. right. left. Defined.

Lemma click_target_quoted_witness :
  exists t st q1 q2,
    Action.click "Sign In" "Click `Sign In`" "" !! "params"
    = Some (VDict {[ "text" := VStr t ]})
    /\ t <> "" /\ Py.all_in Re.not_quote t = true
    /\ st ∈ Sample.steps_A /\ Re.is_quote q1 = true /\ Re.is_quote q2 = true
    /\ Observe.occurs_in (String q1 (t +:+ String q2 ""))
         (RuleBased.clean_text Sample.feed Sample.str_of_dict st).
Proof.
  exact (click_target_quoted Sample.feed Sample.str_of_dict Sample.steps_A _
           sign_in_click eq_refl).
Defined.

Lemma action_traces_step_witness :
  exists a description,
    RuleBased.interpret Sample.feed Sample.str_of_dict Sample.steps_A !! 2 = Some a
    /\ a !! "expected" = Some (VStr "")
    /\ a !! "description" = Some (VStr description)
    /\ String.length description <= 100
    /\ exists r, "Go to /abp page" = description +:+ r.
Proof.
  exact (action_traces_step Sample.feed Sample.str_of_dict Sample.steps_A 2
           (Sample.step_of "Go to /abp page") eq_refl).
Defined.
Example re_url_1 :
  Re.search Re.url_pattern "Navigate to http://example.test/login now"
  = Some "http://example.test/login".
Proof. reflexivity. Qed.
Example re_url_2 : Re.search Re.url_pattern "open https://" = None.
Proof. reflexivity. Qed.
Example re_path_1 : Re.search Re.path_pattern "Go to /abp-calib page" = Some "/abp-calib".
Proof. reflexivity. Qed.
Example re_base_1 : Re.match_ Re.base_pattern "https://a.example:8080/x/y" = Some "https://a.example:8080".
Proof. reflexivity. Qed.
Example re_base_2 : Re.match_ Re.base_pattern "see http://a.example/x" = None.
Proof. reflexivity. Qed.
Example re_quoted_1 :
  Re.quoted_group <$> Re.search Re.quoted_pattern "Click `Sign In` then 'x'" = Some "Sign In".
Proof. reflexivity. Qed.
Example py_strip_1 : Py.strip "  a b  " = "a b". Proof. reflexivity. Qed.
Example py_replace_1 : Py.replace "://" "_" "http://a/b" = "http_a/b". Proof. reflexivity. Qed.
Example py_contains_1 : Py.contains "go to" (Py.lower "Please GO TO x") = true. Proof. reflexivity. Qed.
(** ** Further facts on the AI interpreter *)

Section AIMore.

Variable enabled : bool.
Variable str_of_dict : gmap string string -> string.
Variable complete : nat -> AIInterpreter.prompt -> res pyval.

Local Abbreviation interpret_step := (AIInterpreter.interpret_step enabled complete).
Local Abbreviation interpret_one := (AIInterpreter.interpret_one enabled str_of_dict complete).
Local Abbreviation loop := (AIInterpreter.loop enabled str_of_dict complete).

(** X12.  The action returned for a step carries the expected result and the
    text of that step, whatever the model put into these fields. *)
Theorem ai_action_keeps_step steps ctx actions i d :
  AIInterpreter.interpret_multiple_steps enabled str_of_dict complete steps ctx
    = Ok (Some actions) ->
  steps !! i = Some (DictStep d) ->
  exists a, actions !! i = Some a
    /\ a !! "expected" = Some (VStr (Observe.ai_expected d))
    /\ a !! "original_step" = Some (VStr (Observe.ai_step_text str_of_dict d)).
Proof. apply ai_interpret_fields. Qed.

Lemma ai_loop_rejects steps s : forall idx ctx acc,
  OtherStep s ∈ steps -> exists e, loop idx ctx acc steps = Raise e.
Proof.
  induction steps as [|st rest IH]; intros idx ctx acc Hin.
  - by apply elem_of_nil in Hin.
  - simpl. destruct (interpret_one idx ctx st) as [[c a]|e] eqn:E; [|by exists e].
    apply elem_of_cons in Hin as [<- | Hin]; [discriminate E|].
    by apply IH.
Qed.

End AIMore.

(** X13.  With the interpreter enabled, a list of steps with an element that is
    not a dict makes [interpret_multiple_steps] raise: no action is
    returned for any step. *)
Theorem ai_rejects_plain_steps str_of_dict complete steps ctx s :
  OtherStep s ∈ steps ->
  exists e,
    AIInterpreter.interpret_multiple_steps true str_of_dict complete steps ctx = Raise e.
Proof.
  intros Hin. unfold AIInterpreter.interpret_multiple_steps. cbn [negb].
  destruct (ai_loop_rejects true str_of_dict complete steps s 0
              {| AIInterpreter.base_url := AIInterpreter.base_url ctx;
                 AIInterpreter.previous_steps := [] |} [] Hin) as [e ->].
  by exists e.
Qed.

Lemma last3_length (l : list dict) : length (AIInterpreter.last3 l) <= 3.
Proof.
  unfold AIInterpreter.last3. destruct (3 <? length l) eqn:E.
  - apply Nat.ltb_lt in E. rewrite length_skipn. lia.
  - apply Nat.ltb_ge in E. exact E.
Qed.

Section PromptBound.

Variable enabled : bool.
Variable str_of_dict : gmap string string -> string.
Variables complete complete' : nat -> AIInterpreter.prompt -> res pyval.
Hypothesis agree :
  forall k p, Observe.short_prompt p = true -> complete k p = complete' k p.

Lemma interpret_step_short k step_text expected ctx :
  AIInterpreter.interpret_step enabled complete k step_text expected ctx
  = AIInterpreter.interpret_step enabled complete' k step_text expected ctx.
Proof using agree.
  unfold AIInterpreter.interpret_step.
  rewrite agree; [reflexivity|].
  unfold Observe.short_prompt. cbn [AIInterpreter.p_previous_actions].
  apply Nat.leb_le, last3_length.
Qed.

Lemma interpret_one_short idx ctx st :
  AIInterpreter.interpret_one enabled str_of_dict complete idx ctx st
  = AIInterpreter.interpret_one enabled str_of_dict complete' idx ctx st.
Proof using agree.
  unfold AIInterpreter.interpret_one. destruct st; [|reflexivity].
  cbv zeta. by rewrite interpret_step_short.
Qed.

Lemma loop_short steps : forall idx ctx acc,
  AIInterpreter.loop enabled str_of_dict complete idx ctx acc steps
  = AIInterpreter.loop enabled str_of_dict complete' idx ctx acc steps.
Proof using agree.
  induction steps as [|st rest IH]; intros idx ctx acc; simpl; [reflexivity|].
  rewrite interpret_one_short.
  destruct (AIInterpreter.interpret_one _ _ _ _ _ _) as [[c a]|e]; [apply IH | reflexivity].
Qed.

End PromptBound.

(** X14.  The model is only ever asked with a prompt that lists at most three
    previous actions: two models that agree on these prompts give the
    same interpretation of every list of steps. *)
Theorem prompt_lists_three enabled str_of_dict complete complete' steps ctx :
  (forall k p, Observe.short_prompt p = true -> complete k p = complete' k p) ->
  AIInterpreter.interpret_multiple_steps enabled str_of_dict complete steps ctx
  = AIInterpreter.interpret_multiple_steps enabled str_of_dict complete' steps ctx.
Proof.
  intros agree. unfold AIInterpreter.interpret_multiple_steps.
  by rewrite (loop_short enabled str_of_dict complete complete' agree).
Qed.

(** X15.  The result of [validate_expected_result] always carries a numeric
    confidence, whatever the model answers: an answer without one is
    replaced by the substring judgment. *)
Theorem validation_confidence_numeric enabled judge expected_result page_content ctx :
  exists confidence,
    AIInterpreter.validate_expected_result enabled judge expected_result page_content ctx
      !! "confidence" = Some confidence
    /\ AIInterpreter.formats_2f confidence = true.
Proof.
  unfold AIInterpreter.validate_expected_result.
  destruct enabled; cbn [negb].
  - destruct (judge _ _ _) as [v|e].
    + destruct v as [| | | | | |validation_result];
        try (eexists; split; [reflexivity | reflexivity]).
      destruct (AIInterpreter.formats_2f (Py.get validation_result "confidence")) eqn:E.
      * unfold Py.get in E. destruct (validation_result !! "confidence") as [c|]; [|discriminate E].
        by exists c.
      * eexists; split; reflexivity.
    + eexists; split; reflexivity.
  - unfold AIInterpreter.disabled_result.
    destruct (AIInterpreter.substring_passed _ _); eexists; split; reflexivity.
Qed.

Lemma ai_action_keeps_step_witness :
  exists a,
    [ <[ "original_step" := VStr "Click Next" ]>
        (<[ "expected" := VStr "" ]>
           ({[ "action" := VStr "click";
               "params" := VDict {[ "text" := VStr "Next" ]};
               "confidence" := VFloat 0.9 ]} : dict)) ] !! 0 = Some a
    /\ a !! "expected" = Some (VStr (Observe.ai_expected {[ "content" := "Click Next" ]}))
    /\ a !! "original_step"
       = Some (VStr (Observe.ai_step_text Sample.str_of_dict {[ "content" := "Click Next" ]})).
Proof.
  exact (ai_action_keeps_step true Sample.str_of_dict Sample4.complete_always
           [Sample.step_of "Click Next"] Sample.empty_context _ 0 _ eq_refl eq_refl).
Defined.

Lemma ai_rejects_plain_steps_witness :
  exists e,
    AIInterpreter.interpret_multiple_steps true Sample.str_of_dict Sample4.complete_always
      Sample4.plain_steps Sample.empty_context = Raise e.
Proof.
  apply (ai_rejects_plain_steps Sample.str_of_dict Sample4.complete_always
           Sample4.plain_steps Sample.empty_context "Click Next").
  right. left.
Defined.

Lemma prompt_lists_three_witness :
  AIInterpreter.interpret_multiple_steps true Sample.str_of_dict Sample4.complete_always
    Sample4.five_steps Sample.empty_context
  = AIInterpreter.interpret_multiple_steps true Sample.str_of_dict Sample4.complete_short
      Sample4.five_steps Sample.empty_context.
Proof.
  apply prompt_lists_three.
  intros k p Hp. unfold Sample4.complete_short, Sample4.complete_always.
  by rewrite Hp.
Defined.
(** ** Further facts on the orchestrator *)

(** X11.  Whatever the document, the parser collects as text exactly its data,
    in order, and as links exactly the [href] values of its [a] tags, in
    order; tags add nothing to the text and data nothing to the links. *)
Theorem stripper_collects (f : Html.fed) :
  Html.text (Html.run Html.new f) = flat_map Observe.data_of (Html.events f)
  /\ Html.links (Html.run Html.new f) = flat_map Observe.hrefs_of (Html.events f).
Proof. exact (stripper_run (Html.events f) Html.new). Qed.

Section ServerMore.

Variable feed : string -> Html.fed.
Variable str_of : pyval -> string.
Variable str_of_dict : gmap string string -> string.
Variable render_page_data : pyval -> res string.
Variable step_progress : nat -> nat -> Z.
Variable testrail : res pyval.
Variable playwright : nat -> pyval -> pyval -> Server.answer.
Variable enabled : bool.
Variable complete : nat -> AIInterpreter.prompt -> res pyval.
Variable judge : string -> string -> dict -> res pyval.

Local Abbreviation executing_one :=
  (Server.executing_one feed str_of render_page_data step_progress playwright enabled judge).
Local Abbreviation executing_loop :=
  (Server.executing_loop feed str_of render_page_data step_progress playwright enabled judge).
Local Abbreviation fetching := (Server.fetching str_of testrail).
Local Abbreviation interpreting :=
  (Server.interpreting feed str_of str_of_dict enabled complete).
Local Abbreviation execute_test_background :=
  (Server.execute_test_background feed str_of str_of_dict render_page_data step_progress
     testrail playwright enabled complete judge).

Ltac quiet_stage :=
  eexists; cbn [Server.events Server.playwright_calls]; rewrite <- ?app_assoc;
  split; [reflexivity | split; reflexivity].

(** The first two stages create no step record and do not use the
    browser handler. *)
Lemma fetching_quiet s r s' :
  fetching s = (r, s') ->
  exists ev, Server.events s' = Server.events s ++ ev
    /\ Observe.created_steps ev = []
    /\ Server.playwright_calls s' = Server.playwright_calls s.
Proof.
  unfold Server.fetching, Server.bind, Server.emit, Server.lift, Server.raise, Server.ret.
  cbn [Server.events Server.playwright_calls].
  destruct testrail as [v|e]; [|intros [= _ <-]; quiet_stage].
  destruct v as [| | | | | |result];
    try (destruct (negb (Py.truthy _)); intros [= _ <-]; quiet_stage).
  destruct (negb (Py.truthy (VDict result))); [intros [= _ <-]; quiet_stage|].
  destruct (bool_decide _); [intros [= _ <-]; quiet_stage|].
  destruct (Py.truthy (Py.get result "test_case")).
  - destruct (Server.as_dict _) as [test_case|e]; [|intros [= _ <-]; quiet_stage].
    destruct (Py.len _); intros [= _ <-]; quiet_stage.
  - destruct (Py.len _); intros [= _ <-]; quiet_stage.
Qed.

Lemma truthy_len v n : Py.truthy v = true -> Py.len v = Ok n -> 1 <= n.
Proof.
  destruct v as [| | | |s|l|d]; try discriminate; cbn [Py.truthy Py.len]; intros Ht [= <-].
  - destruct s; [discriminate Ht | simpl; lia].
  - destruct l; [discriminate Ht | simpl; lia].
  - destruct (size d); [discriminate Ht | lia].
Qed.

Lemma fetching_shape s steps s' :
  fetching s = (Ok steps, s') ->
  exists n test_name,
    Py.len steps = Ok n /\ 1 <= n
    /\ s' = {| Server.events :=
                 Server.events s ++
                 [ Server.SendProgress "fetching" 20;
                   Server.UpdateTestRun {[ "test_name" := test_name;
                                           "total_steps" := VInt (Z.of_nat n) ]} ];
               Server.playwright_calls := Server.playwright_calls s |}.
Proof.
  unfold Server.fetching, Server.bind, Server.emit, Server.lift, Server.raise, Server.ret.
  cbn [Server.events Server.playwright_calls].
  destruct testrail as [v|e]; [|discriminate].
  destruct v as [| | | | | |result];
    try (destruct (negb (Py.truthy _)); discriminate).
  destruct (negb (Py.truthy (VDict result))); [discriminate|].
  destruct (bool_decide _); [discriminate|].
  assert (H : forall test_case : dict,
    (let steps0 :=
       Py.or_ (Py.get test_case "custom_steps_separated")
         (Py.or_ (Py.get test_case "custom_steps")
            (Py.or_ (Py.get test_case "steps") (VList []))) in
     let steps1 := if negb (Py.truthy steps0) then VList [Server.dummy_step] else steps0 in
     forall n, Py.len steps1 = Ok n -> 1 <= n)).
  { intros test_case steps0 steps1 n. subst steps1.
    destruct (Py.truthy steps0) eqn:Ht; cbn [negb].
    - by apply truthy_len.
    - intros [= <-]. simpl. lia. }
  destruct (Py.truthy (Py.get result "test_case")).
  - destruct (Server.as_dict _) as [test_case|e]; [|discriminate].
    specialize (H test_case). cbv zeta in H.
    destruct (Py.len _) as [n|e] eqn:Hl; [|discriminate].
    intros [= <- <-]. exists n, (Py.get_or test_case "title" (VStr "Test Case")).
    split; [exact Hl|]. split; [by apply H|]. by rewrite <- app_assoc.
  - specialize (H result). cbv zeta in H.
    destruct (Py.len _) as [n|e] eqn:Hl; [|discriminate].
    intros [= <- <-]. exists n, (Py.get_or result "title" (VStr "Test Case")).
    split; [exact Hl|]. split; [by apply H|]. by rewrite <- app_assoc.
Qed.

(** X16.  When the fetching stage returns, it returns at least one step, and
    the number of steps it returns is the [total_steps] it has recorded
    for the run. *)
Theorem fetching_announces_steps s steps s' :
  fetching s = (Ok steps, s') ->
  exists n test_name,
    Py.len steps = Ok n /\ 1 <= n
    /\ Server.events s' =
         Server.events s ++
         [ Server.SendProgress "fetching" 20;
           Server.UpdateTestRun {[ "test_name" := test_name;
                                   "total_steps" := VInt (Z.of_nat n) ]} ]
    /\ Server.playwright_calls s' = Server.playwright_calls s.
Proof.
  intros H. destruct (fetching_shape _ _ _ H) as (n & test_name & Hl & Hn & ->).
  exists n, test_name. repeat match goal with |- _ /\ _ => split end; done.
Qed.

Lemma elements_length steps sts :
  Server.elements str_of steps = Ok sts -> Py.len steps = Ok (length sts).
Proof.
  destruct steps as [| | | |s|l|d]; try discriminate; intros [= <-]; cbn [Py.len].
  - rewrite length_map. f_equal. clear. induction s as [|c s IH]; simpl; congruence.
  - by rewrite length_map.
  - by rewrite length_map, length_map_to_list.
Qed.

Lemma ai_interpret_length en sts ctx actions :
  AIInterpreter.interpret_multiple_steps en str_of_dict complete sts ctx
    = Ok (Some actions) ->
  length actions = length sts.
Proof.
  unfold AIInterpreter.interpret_multiple_steps.
  destruct (negb en); [discriminate|].
  destruct (AIInterpreter.loop _ _ _ _ _ _ _) as [[c acts]|e] eqn:E; [|discriminate].
  intros [= <-]. by apply ai_loop_length in E.
Qed.

Lemma interpreting_shape steps s r s' :
  interpreting steps s = (r, s') ->
  (exists ev, Server.events s' = Server.events s ++ ev
     /\ Observe.created_steps ev = []
     /\ Server.playwright_calls s' = Server.playwright_calls s)
  /\ (forall actions, r = Ok actions ->
        exists n, Py.len steps = Ok n /\ length actions = Nat.max 1 n).
Proof.
  unfold Server.interpreting, Server.bind, Server.emit, Server.lift, Server.ret.
  destruct (Py.len steps) as [n|e] eqn:Hlen;
    [|intros [= <- <-]; split; [exists []; by rewrite app_nil_r | discriminate]].
  cbn [Server.events Server.playwright_calls].
  assert (Hrule : forall sts, length sts = n ->
            length (if Server.list_truthy (RuleBased.interpret feed str_of_dict sts)
                    then RuleBased.interpret feed str_of_dict sts
                    else RuleBased.interpret feed str_of_dict sts ++ [Server.dummy_action])
            = Nat.max 1 n).
  { intros sts <-.
    pose proof (loop_length feed str_of_dict None sts) as Hl.
    unfold RuleBased.interpret.
    destruct (RuleBased.loop _ _ _ _ _).2 as [|a l]; simpl in *; rewrite <- Hl; lia. }
  assert (Hn : forall sts, Server.elements str_of steps = Ok sts -> length sts = n).
  { intros sts Hel. apply elements_length in Hel. rewrite Hlen in Hel. by injection Hel. }
  destruct (Server.elements str_of steps) as [sts|e].
  - specialize (Hn sts eq_refl).
    destruct enabled.
    + destruct (AIInterpreter.interpret_multiple_steps _ _ _ _ _) as [[actions|]|e] eqn:Hai.
      * destruct actions as [|a l]; cbn [Server.list_truthy].
        -- intros [= <- <-]. split; [quiet_stage|].
           intros actions' [= <-]. exists n. split; [reflexivity|]. by apply Hrule.
        -- intros [= <- <-]. split; [quiet_stage|].
           intros actions' [= <-]. exists n. split; [reflexivity|].
           apply ai_interpret_length in Hai.
           cbn [map Server.list_truthy length] in *. rewrite length_map. lia.
      * intros [= <- <-]. split; [quiet_stage|].
        intros actions' [= <-]. exists n. split; [reflexivity|]. by apply Hrule.
      * intros [= <- <-]. split; [quiet_stage | discriminate].
    + intros [= <- <-]. split; [quiet_stage|].
      intros actions' [= <-]. exists n. split; [reflexivity|]. by apply Hrule.
  - destruct enabled; intros [= <- <-]; (split; [quiet_stage | discriminate]).
Qed.

(** X17.  When the interpretation stage returns, it returns one action per
    step, and one action when there is no step: the list of actions is
    never empty. *)
Theorem interpreting_one_per_step steps s actions s' :
  interpreting steps s = (Ok actions, s') ->
  exists n, Py.len steps = Ok n /\ length actions = Nat.max 1 n /\ actions <> [].
Proof.
  intros H. destruct (interpreting_shape _ _ _ _ H) as [_ Hn].
  destruct (Hn actions eq_refl) as (n & Hlen & Hl).
  exists n. split; [exact Hlen|]. split; [exact Hl|].
  intros ->. simpl in Hl. lia.
Qed.

(** X18.  Every run ends by recording its outcome: the last two records are
    the update of the test run and the daily metrics, which count one
    run.  Either the run was aborted and is recorded as FAILED, or it
    completed: then its step records are numbered 1, 2, ... without a
    gap, there is at least one, their number is the [total_steps]
    recorded when the test case was fetched and the [total_steps]
    recorded at the end, [passed_steps] is the number of those with
    status PASSED, every record is PASSED or FAILED, and the run is
    PASSED exactly when no step record is FAILED. *)
Theorem run_records_outcome :
  exists ev fields metrics,
    execute_test_background
      = ev ++ [Server.UpdateTestRun fields; Server.UpdateDailyMetrics metrics]
    /\ metrics !! "tests_run" = Some (VInt 1)
    /\ (fields = {[ "status" := VStr "FAILED" ]}
        /\ metrics !! "tests_failed" = Some (VInt 1)
        \/
        let steps := Observe.created_steps ev in
        let failed := Observe.records_with "FAILED" ev in
        steps = seq 1 (length steps) /\ steps <> []
        /\ (exists fetched rest,
              ev = Server.SendProgress "fetching" 20 :: Server.UpdateTestRun fetched :: rest
              /\ fetched !! "total_steps" = Some (VInt (Z.of_nat (length steps))))
        /\ fields !! "total_steps" = Some (VInt (Z.of_nat (length steps)))
        /\ fields !! "passed_steps"
           = Some (VInt (Z.of_nat (Observe.records_with "PASSED" ev)))
        /\ Observe.records_with "PASSED" ev + failed = length steps
        /\ fields !! "status" = Some (VStr (if failed =? 0 then "PASSED" else "FAILED"))
        /\ metrics !! "tests_failed" = Some (VInt (if failed =? 0 then 0 else 1))).
Proof.
  unfold Server.execute_test_background, Server.run_body.
  unfold Server.bind at 1.
  destruct (fetching _) as [[steps|e] s1] eqn:Hf.
  2:{ apply fetching_quiet in Hf as (ev1 & He1 & Hc1 & _); cbn [Server.events app] in He1.
      exists (ev1 ++ [Server.SendProgress "error" 0]), {[ "status" := VStr "FAILED" ]},
        {[ "tests_run" := VInt 1; "tests_failed" := VInt 1 ]}.
      rewrite He1, <- app_assoc. split; [reflexivity|]. split; [reflexivity|].
      left. split; reflexivity. }
  apply fetching_shape in Hf as (n0 & test_name & Hl0 & Hn0 & ->).
  cbn [Server.events Server.playwright_calls app].
  set (ev1 := [Server.SendProgress "fetching" 20; Server.UpdateTestRun _]).
  unfold Server.bind at 1.
  destruct (interpreting steps _) as [[actions|e] s2] eqn:Hi;
    destruct (interpreting_shape _ _ _ _ Hi) as [(ev2 & He2 & Hc2 & _) Hn];
    cbn [Server.events] in He2.
  2:{ exists (ev1 ++ ev2 ++ [Server.SendProgress "error" 0]), {[ "status" := VStr "FAILED" ]},
        {[ "tests_run" := VInt 1; "tests_failed" := VInt 1 ]}.
      rewrite He2, <- !app_assoc. split; [reflexivity|]. split; [reflexivity|].
      left. split; reflexivity. }
  destruct (Hn actions eq_refl) as (n & Hl & Hlen). clear Hn Hi.
  rewrite Hl0 in Hl. injection Hl as <-.
  replace (Nat.max 1 n0) with n0 in Hlen by lia.
  unfold Server.bind at 1. cbn [Server.emit].
  unfold Server.bind at 1.
  match goal with |- context [executing_loop _ 0 0 0 actions ?s0] =>
    destruct (executing_loop_outcome feed str_of render_page_data step_progress playwright
                enabled judge (length actions) actions 0 0 0 s0)
      as (r & ev3 & k & -> & Hr & _)
  end.
  cbn [Server.events Server.playwright_calls] in *.
  destruct r as [[p' f']|e].
  2:{ exists (ev1 ++ ev2 ++ [Server.SendProgress "executing" 60] ++ ev3
              ++ [Server.SendProgress "error" 0]), {[ "status" := VStr "FAILED" ]},
        {[ "tests_run" := VInt 1; "tests_failed" := VInt 1 ]}.
      cbn [Server.events]. rewrite He2, <- !app_assoc.
      split; [reflexivity|]. split; [reflexivity|].
      left. split; reflexivity. }
  destruct Hr as (Hc3 & Hp & Hfl & Hsum & _).
  unfold Server.bind, Server.emit. cbn [Server.events Server.playwright_calls].
  eexists (ev1 ++ ev2 ++ [Server.SendProgress "executing" 60] ++ ev3
           ++ [Server.SendProgress "complete" 100]), _, _.
  rewrite He2, <- !app_assoc.
  split; [reflexivity|]. split; [reflexivity|]. right. cbv zeta.
  assert (Hc1 : Observe.created_steps ev1 = []) by reflexivity.
  rewrite !created_steps_app, !records_with_app, Hc1, Hc2, Hc3.
  rewrite !(records_with_none "PASSED" _ Hc1), !(records_with_none "PASSED" _ Hc2),
    !(records_with_none "FAILED" _ Hc1), !(records_with_none "FAILED" _ Hc2).
  cbn [Observe.created_steps Observe.records_with flat_map List.filter app length].
  rewrite !app_nil_r, !Nat.add_0_r, length_seq. cbn [Nat.add] in *.
  subst p' f'.
  split; [reflexivity|].
  split; [destruct actions; [simpl in Hlen; lia | discriminate]|].
  split.
  { eexists _, _. split; [reflexivity|]. by rewrite Hlen. }
  split; [reflexivity|]. split; [reflexivity|]. split; [lia|].
  destruct (Observe.records_with "FAILED" ev3 =? 0); split; reflexivity.
Qed.

End ServerMore.

Lemma two_steps_interpreted :
  Server.interpreting Sample.feed Sample.str_of Sample.str_of_dict false Sample.no_model
    Sample4.two_steps Sample4.idle
  = (Ok Sample4.two_actions, Sample4.interpreted).
Proof. vm_compute. reflexivity. Defined.

Lemma interpreting_one_per_step_witness :
  exists n, Py.len Sample4.two_steps = Ok n
    /\ length Sample4.two_actions = Nat.max 1 n /\ Sample4.two_actions <> [].
Proof.
  exact (interpreting_one_per_step Sample.feed Sample.str_of Sample.str_of_dict false
           Sample.no_model Sample4.two_steps Sample4.idle Sample4.two_actions
           Sample4.interpreted two_steps_interpreted).
Defined.

Lemma case_without_steps_fetched :
  Server.fetching Sample.str_of (Ok Sample.case_without_steps) Sample4.idle
  = (Ok (VList [Server.dummy_step]), Sample4.fetched).
Proof. vm_compute. reflexivity. Defined.

Lemma fetching_announces_steps_witness :
  exists n test_name,
    Py.len (VList [Server.dummy_step]) = Ok n /\ 1 <= n
    /\ Server.events Sample4.fetched =
         Server.events Sample4.idle ++
         [ Server.SendProgress "fetching" 20;
           Server.UpdateTestRun {[ "test_name" := test_name;
                                   "total_steps" := VInt (Z.of_nat n) ]} ]
    /\ Server.playwright_calls Sample4.fetched = Server.playwright_calls Sample4.idle.
Proof.
  exact (fetching_announces_steps Sample.str_of (Ok Sample.case_without_steps)
           Sample4.idle (VList [Server.dummy_step]) Sample4.fetched
           case_without_steps_fetched).
Defined.
(** ** The entry point of the browser handler, and the validation service *)

Section EntryPoint.

Import PlaywrightHandler.

Lemma returns_only_try {A} (P : A -> Prop) (m : M A) (h : exn -> M A) :
  Session.returns_only P m -> (forall e, Session.returns_only P (h e)) ->
  Session.returns_only P (try_except m h).
Proof.
  intros Hm Hh w s a s1. unfold try_except.
  destruct (m w s) as [[a'|e] s0] eqn:E.
  - intros [= <- <-]. exact (Hm _ _ _ _ E).
  - apply Hh.
Qed.

Lemma on_error_well_formed action e :
  Session.returns_only Session.well_formed_result (on_error action e).
Proof.
  destruct e; unfold on_error;
    repeat first [ apply returns_only_bind; intros | apply returns_only_ret ];
    right; (split; [by eexists | reflexivity]).
Qed.

Lemma execute_action_well_formed action params :
  Session.returns_only Session.well_formed_result (execute_action action params).
Proof.
  unfold execute_action. apply returns_only_try.
  - apply returns_only_bind. intros _. apply branch_well_formed.
  - intros e. apply on_error_well_formed.
Qed.

End EntryPoint.

(** X7.  The entry point of the browser handler answers every request with a
    result, whatever the driver does, even when no screenshot of the
    failure can be taken: the result reports success, or it carries an
    error and no success field. *)
Theorem handle_action_async_answers w s action params :
  exists d s1,
    PlaywrightApp.handle_action_async action params w s = (Ok d, s1)
    /\ Session.well_formed_result d.
Proof.
  unfold PlaywrightApp.handle_action_async, PlaywrightHandler.try_except.
  destruct (PlaywrightHandler.execute_action action params w s) as [[d|e] s0] eqn:E.
  - exists d, s0. split; [reflexivity|]. exact (execute_action_well_formed _ _ _ _ _ _ E).
  - eexists _, s0. split; [reflexivity|]. right. split; [by eexists | reflexivity].
Qed.

(** In a world where every call of the driver fails, the entry point
    still answers. *)
Example handle_action_async_driver_down :
  fst (PlaywrightApp.handle_action_async PlaywrightHandler.click {[ "text" := VStr "Save" ]}
         Sample2.world_down Sample.ready)
  = Ok {[ "error" := VStr "Playwright execution error: Target closed";
          "traceback" := VStr "Target closed" ]}.
Proof. vm_compute. reflexivity. Qed.

Section ServiceFacts.

Variable feed : string -> Html.fed.

(** X19.  Without a usable interpreter (none, a disabled one, or one whose
    validation raises), the validation service passes a blank expected
    result with confidence 1.0, and judges any other by containment of
    the expected text, cleaned of markup and lower-cased, in the
    lower-cased page content, with confidence 0.8. *)
Theorem service_validation_without_ai ai expected_result page_content ctx :
  match ai with
  | Some (true, validate) =>
      exists e, validate (ValidationService.strip_html feed expected_result)
                  page_content ctx = Raise e
  | _ => True
  end ->
  let blank :=
    negb (Py.str_truthy expected_result)
    || negb (Py.str_truthy (Py.strip expected_result)) in
  let result :=
    ValidationService.validate_expected_result feed ai expected_result page_content ctx in
  result !! "passed"
  = Some (VBool (blank
                 || Py.contains (Py.lower (ValidationService.strip_html feed expected_result))
                      (Py.lower page_content)))
  /\ result !! "confidence" = Some (VFloat (if blank then 1.0 else 0.8)).
Proof.
  intros Hai. cbv zeta. unfold ValidationService.validate_expected_result.
  destruct (negb (Py.str_truthy expected_result)
            || negb (Py.str_truthy (Py.strip expected_result))); [split; reflexivity|].
  cbn [orb].
  assert (Hs : forall t,
            ValidationService._simple_validation t page_content !! "passed"
              = Some (VBool (Py.contains (Py.lower t) (Py.lower page_content)))
            /\ ValidationService._simple_validation t page_content !! "confidence"
              = Some (VFloat 0.8)).
  { intros t. unfold ValidationService._simple_validation.
    destruct (Py.contains _ _); split; reflexivity. }
  destruct ai as [[[] validate]|]; try apply Hs.
  destruct Hai as [e ->]. apply Hs.
Qed.

End ServiceFacts.

Lemma service_validation_without_ai_witness :
  ValidationService.validate_expected_result Sample.feed
    (Some (true, fun _ _ _ => Raise (Exception "rate limit")))
    "Longitudinal Welding" "Selected: longitudinal welding" ∅ !! "passed"
  = Some (VBool true).
Proof.
  destruct (service_validation_without_ai Sample.feed
              (Some (true, fun _ _ _ => Raise (Exception "rate limit")))
              "Longitudinal Welding" "Selected: longitudinal welding" ∅
              (ex_intro _ (Exception "rate limit") eq_refl)) as [H _].
  exact H.
Defined.
